(** * OpenWebUI model export utility: the field-extraction and export pipeline

    A shallow embedding of [gui/program.py] (class [ExportApp]) and of the
    personal-information predicate it shares with [scripts/simplify_json.py].

    Conventions of the embedding.
    - A Python [str] is a [string]; one [ascii] stands for one code point
      below 256, so the usual ASCII text and the Latin-1 letters are covered
      ([lower], [isalnum] follow Python's Unicode tables on that range).
    - A JSON-decoded value is a [json] tree.  Python [dict]s keep insertion
      order, so a mapping is an association list; [dict_get] reads it and
      [dict_set] writes it the way [d[k] = v] does.  Numbers are Python
      integers ([Z]); binary64 numbers are not part of the embedding.
    - Exceptions are values of [exn]; code that can raise returns a
      [result]; code that writes files or reports progress runs in the
      state-and-exception monad [M] over a [world].
    - Library calls that serialise (csv.writer, pandas, yaml, minidom's
      pretty printer) receive structured [content]; what the program hands
      to them is what is modelled. *)

From Stdlib Require Import ZArith QArith Ascii DecimalString.
From Stdlib Require String DecimalFacts DecimalPos DecimalZ.
From stdpp Require Import gmap strings list sorting.

Set Default Proof Using "Type".

(** ** Python strings *)

Module Py.

Definition code (c : ascii) : N := N_of_ascii c.

Definition between (lo hi : N) (c : ascii) : bool :=
  ((lo <=? code c) && (code c <=? hi))%N.

(** [str.isalnum] for one code point: letters and numeric characters of
    Unicode, here on the range below 256. *)
Definition isalnum (c : ascii) : bool :=
  between 48 57 c || between 65 90 c || between 97 122 c
  || (code c =? 170)%N || between 178 179 c || (code c =? 181)%N
  || between 185 186 c || between 188 190 c
  || between 192 214 c || between 216 246 c || between 248 255 c.

(** [str.lower] for one code point. *)
Definition lower_char (c : ascii) : ascii :=
  if between 65 90 c || (between 192 222 c && negb (code c =? 215)%N)
  then ascii_of_N (code c + 32)
  else c.

Fixpoint lower (s : string) : string :=
  match s with
  | EmptyString => EmptyString
  | String c s' => String (lower_char c) (lower s')
  end.

(** [''.join(c for c in s if keep c)] *)
Fixpoint join_if (keep : ascii → bool) (s : string) : string :=
  match s with
  | EmptyString => EmptyString
  | String c s' => if keep c then String c (join_if keep s') else join_if keep s'
  end.

(** [s.replace(old, new)]: leftmost non-overlapping occurrences.  [skip]
    counts the characters of a matched occurrence still to be dropped. *)
Fixpoint replace_from (old new : string) (skip : nat) (s : string) : string :=
  match s with
  | EmptyString => EmptyString
  | String c s' =>
      match skip with
      | S k => replace_from old new k s'
      | O =>
          if String.prefix old s
          then new +:+ replace_from old new (String.length old - 1) s'
          else String c (replace_from old new 0 s')
      end
  end.

Fixpoint interleave (new : string) (s : string) : string :=
  match s with
  | EmptyString => new
  | String c s' => new +:+ String c (interleave new s')
  end.

Definition replace (old new s : string) : string :=
  match old with
  | EmptyString => interleave new s
  | _ => replace_from old new 0 s
  end.

(** [t in s] for strings. *)
Fixpoint contains (t s : string) : bool :=
  String.prefix t s
  || match s with
     | EmptyString => false
     | String _ s' => contains t s'
     end.

(** [s.split(sep)] for a one-character separator. *)
Fixpoint split (sep : ascii) (s : string) : list string :=
  match s with
  | EmptyString => [EmptyString]
  | String c s' =>
      if Ascii.eqb c sep then EmptyString :: split sep s'
      else match split sep s' with
           | [] => [String c EmptyString]
           | p :: ps => String c p :: ps
           end
  end.

(** [sep.join(parts)] *)
Fixpoint join (sep : string) (parts : list string) : string :=
  match parts with
  | [] => EmptyString
  | [p] => p
  | p :: ps => p +:+ sep +:+ join sep ps
  end.

(** The order [sorted] uses on strings: lexicographic on code points. *)
Definition le (s1 s2 : string) : Prop := String.leb s1 s2 = true.

#[global] Instance le_dec s1 s2 : Decision (le s1 s2).
Proof. unfold le. apply _. Defined.

Definition sorted (l : list string) : list string := merge_sort le l.

Definition lt (s1 s2 : string) : Prop := String.ltb s1 s2 = true.

End Py.

(** ** JSON-decoded values *)

Unset Elimination Schemes.
Inductive json : Type :=
  | JNull
  | JBool (b : bool)
  | JInt (n : Z)
  | JStr (s : string)
  | JList (l : list json)
  | JObj (d : list (string * json)).
Set Elimination Schemes.

Abbreviation dict := (list (string * json)).

(** [d.get(k)] *)
Fixpoint dict_get {A} (d : list (string * A)) (k : string) : option A :=
  match d with
  | [] => None
  | (k', v) :: d' => if String.eqb k' k then Some v else dict_get d' k
  end.

(** [d.get(k, dflt)] *)
Definition dict_get_or (d : dict) (k : string) (dflt : json) : json :=
  match dict_get d k with
  | Some v => v
  | None => dflt
  end.

(** [d[k] = v]: an existing key keeps its place, a new one goes last. *)
Fixpoint dict_set (d : dict) (k : string) (v : json) : dict :=
  match d with
  | [] => [(k, v)]
  | (k', v') :: d' =>
      if String.eqb k' k then (k', v) :: d' else (k', v') :: dict_set d' k v
  end.

(** [d.keys()] *)
Definition dict_keys (d : dict) : list string := d.*1.

(** ** [str] and [repr] of a value *)

Definition hex_digit (n : N) : ascii :=
  if (n <? 10)%N then ascii_of_N (48 + n) else ascii_of_N (87 + n).

Definition hex2 (c : ascii) : string :=
  String (hex_digit (Py.code c / 16)) (String (hex_digit (Py.code c mod 16)) "").

Fixpoint flat_map_chars (f : ascii → string) (s : string) : string :=
  match s with
  | EmptyString => EmptyString
  | String c s' => f c +:+ flat_map_chars f s'
  end.

(** [str.isprintable] for one code point. *)
Definition isprintable (c : ascii) : bool :=
  negb ((Py.code c <? 32)%N || Py.between 127 160 c || (Py.code c =? 173)%N).

Definition repr_char (quote c : ascii) : string :=
  if Ascii.eqb c quote || Ascii.eqb c "\" then String "\" (String c "")
  else if Ascii.eqb c "009" then "\t"
  else if Ascii.eqb c "010" then "\n"
  else if Ascii.eqb c "013" then "\r"
  else if isprintable c then String c ""
  else "\x" +:+ hex2 c.

(** [repr] of a string: single quotes unless the text has a single quote
    and no double quote. *)
Definition repr_str (s : string) : string :=
  let quote : ascii :=
    if Py.contains "'" s && negb (Py.contains (String "034" "") s)
    then "034"%char else "'"%char in
  String quote (flat_map_chars (repr_char quote) s +:+ String quote "").

Definition repr_int (n : Z) : string :=
  DecimalString.NilZero.string_of_int (Z.to_int n).

Fixpoint py_repr (v : json) : string :=
  match v with
  | JNull => "None"
  | JBool true => "True"
  | JBool false => "False"
  | JInt n => repr_int n
  | JStr s => repr_str s
  | JList l => "[" +:+ Py.join ", " (map py_repr l) +:+ "]"
  | JObj d =>
      "{" +:+ Py.join ", " (map (λ kv, repr_str kv.1 +:+ ": " +:+ py_repr kv.2) d) +:+ "}"
  end.

(** [str(value)] *)
Definition py_str (v : json) : string :=
  match v with
  | JStr s => s
  | _ => py_repr v
  end.

(** ** Exceptions *)

Inductive exn : Type :=
  | AttributeError
  | TypeError
  | KeyError (key : string)
  | ValueError (msg : string)
  | OSError (path : string)
  | JSONDecodeError
  | HierarchyRequestErr.

Inductive result (A : Type) : Type :=
  | Ok (a : A)
  | Raise (e : exn).
Arguments Ok {A} a.
Arguments Raise {A} e.

(** ** Field extraction ([perform_export], the inner loop over
       [selected_fields]) *)

(** [value.get(part, "")]: only a dict has [get]. *)
Definition value_get (value : json) (part : string) : result json :=
  match value with
  | JObj d => Ok (dict_get_or d part (JStr ""))
  | _ => Raise AttributeError
  end.

(** [for part in field_parts: value = value.get(part, "")] *)
Fixpoint walk_parts (value : json) (field_parts : list string) : result json :=
  match field_parts with
  | [] => Ok value
  | part :: rest =>
      match value_get value part with
      | Ok v => walk_parts v rest
      | Raise e => Raise e
      end
  end.

(** The [try] block around the loop: [AttributeError] and [TypeError] are
    caught and give [""]; anything else would propagate. *)
Definition extract_field (item : json) (field : string) : result json :=
  match walk_parts item (Py.split "." field) with
  | Ok v => Ok v
  | Raise AttributeError | Raise TypeError => Ok (JStr "")
  | Raise e => Raise e
  end.

(** What the specification calls resolving a path: [None] as soon as a
    segment is absent or the value at hand is not a mapping. *)
Fixpoint resolves (value : json) (segments : list string) : option json :=
  match segments with
  | [] => Some value
  | seg :: rest =>
      match value with
      | JObj d =>
          match dict_get d seg with
          | Some v => resolves v rest
          | None => None
          end
      | _ => None
      end
  end.

(** ** Personal-information predicate *)

(** [for term in personal_terms: if term in value: return True] *)
Definition any_term_in (personal_terms : list string) (value : string) : bool :=
  existsb (λ term, Py.contains term value) personal_terms.

(** [ExportApp.contains_personal_info] *)
Fixpoint contains_personal_info (obj : json) (personal_terms : list string) : bool :=
  match obj with
  | JObj d =>
      (fix items (d : dict) : bool :=
         match d with
         | [] => false
         | (_, value) :: d' =>
             match value with
             | JObj _ | JList _ =>
                 if contains_personal_info value personal_terms then true
                 else items d'
             | JStr s =>
                 if any_term_in personal_terms s then true else items d'
             | _ => items d'
             end
         end) d
  | JList l =>
      (fix elems (l : list json) : bool :=
         match l with
         | [] => false
         | item :: l' =>
             if contains_personal_info item personal_terms then true
             else elems l'
         end) l
  | JStr s => any_term_in personal_terms s
  | _ => false
  end.

(** The string leaves of a tree: mapping values and sequence elements,
    recursively; keys are not leaves. *)
Fixpoint string_leaves (obj : json) : list string :=
  match obj with
  | JStr s => [s]
  | JList l => concat (map string_leaves l)
  | JObj d => concat (map (λ kv, string_leaves kv.2) d)
  | _ => []
  end.

(** [t] occurs in [s]. *)
Definition substring_of (t s : string) : Prop :=
  ∃ pre post, s = pre +:+ t +:+ post.

(** Some string leaf contains some term. *)
Definition leaf_match (terms : list string) (obj : json) : Prop :=
  ∃ s t, s ∈ string_leaves obj ∧ t ∈ terms ∧ substring_of t s.

(** ** Per-record document file name *)

Definition keep_in_filename (c : ascii) : bool :=
  Py.isalnum c || bool_decide (c ∈ ["-"%char; "_"%char]).

Definition make_filename (model_name : string) : string :=
  let filename :=
    Py.replace "\" "-" (Py.replace "/" "-" (Py.replace " " "-" (Py.lower model_name))) in
  let filename := Py.join_if keep_in_filename filename in
  filename +:+ ".md".

(** ** The copy of the predicate in [scripts/simplify_json.py] *)

Module SimplifyJson.

Fixpoint contains_personal_info (obj : json) (personal_terms : list string) : bool :=
  match obj with
  | JObj d =>
      (fix items (d : dict) : bool :=
         match d with
         | [] => false
         | (_, value) :: d' =>
             match value with
             | JObj _ | JList _ =>
                 if contains_personal_info value personal_terms then true
                 else items d'
             | JStr s =>
                 if any_term_in personal_terms s then true else items d'
             | _ => items d'
             end
         end) d
  | JList l =>
      (fix elems (l : list json) : bool :=
         match l with
         | [] => false
         | item :: l' =>
             if contains_personal_info item personal_terms then true
             else elems l'
         end) l
  | JStr s => any_term_in personal_terms s
  | _ => false
  end.

End SimplifyJson.

(** The union of the key sets of the items. *)
Definition key_union (data : list dict) : gset string :=
  ⋃ (map (λ item, list_to_set (dict_keys item)) data).

(** The projection of a record on the selected paths, as the
    specification describes it: each path resolved, [""] when it does not
    resolve, stored under the path itself. *)
Definition resolved (item : json) (field : string) : json :=
  match resolves item (Py.split "." field) with
  | Some v => v
  | None => JStr ""
  end.

Definition projected (selected_fields : list string) (item : json) : dict :=
  fold_left (λ d field, dict_set d field (resolved item field)) selected_fields [].

(** The file name as the specification describes it: one pass that turns
    separators into dashes, one pass that drops characters. *)
Fixpoint map_chars (f : ascii → ascii) (s : string) : string :=
  match s with
  | EmptyString => EmptyString
  | String c s' => String (f c) (map_chars f s')
  end.

Definition separator_to_dash (c : ascii) : ascii :=
  if bool_decide (c ∈ [" "%char; "/"%char; "\"%char]) then "-"%char else c.

(* ------------------------------------------------------------------ *)
(** ** Renderers: what each one computes before it writes *)

(** Cells of a pandas frame: a key a record lacks is a missing cell. *)
Record dataframe : Type := DataFrame {
  df_columns : list string;
  df_rows : list (list (option json))
}.

(** Nodes of a DOM tree. *)
Unset Elimination Schemes.
Inductive node : Type :=
  | Element (tag : string) (children : list node)
  | TextNode (data : string).
Set Elimination Schemes.

(** What a file holds when the program has closed it. *)
Inductive content : Type :=
  | CsvRows (rows : list (list json))
  | Workbook (df : dataframe)
  | JsonText (text : string)
  | YamlDoc (data : list dict)
  | XmlDoc (root : node)
  | PlainText (text : string).

(** The three constants the tabular renderers repeat. *)
Definition primary_fields : list string :=
  ["name"; "info.meta.description"; "info.params.system"].

Definition header_mapping : list (string * string) :=
  [("name", "name");
   ("info.meta.description", "description");
   ("info.params.system", "system_prompt")].

(** [header_mapping.get(field, field)] *)
Definition header_name (field : string) : string :=
  match dict_get header_mapping field with
  | Some h => h
  | None => field
  end.

(** [export_to_csv], up to the rows handed to [csv.writer]. *)
Definition csv_fieldnames (data : list dict) : list string :=
  let all_keys : gset string :=
    fold_left (λ all_keys item, all_keys ∪ list_to_set (dict_keys item)) data ∅ in
  let '(fieldnames, all_keys) :=
    fold_left
      (λ '(fieldnames, all_keys) field,
         if bool_decide (field ∈ all_keys)
         then (fieldnames ++ [field], all_keys ∖ {[field]})
         else (fieldnames, all_keys))
      primary_fields ([], all_keys) in
  fieldnames ++ Py.sorted (elements all_keys).

Definition csv_header_row (fieldnames : list string) : list string :=
  fold_left (λ header_row field, header_row ++ [header_name field]) fieldnames [].

Definition csv_data_rows (fieldnames : list string) (data : list dict) : list (list json) :=
  fold_left
    (λ written item,
       let row :=
         fold_left (λ row field, row ++ [dict_get_or item field (JStr "")]) fieldnames [] in
       written ++ [row])
    data [].

Definition csv_content (data : list dict) : content :=
  let fieldnames := csv_fieldnames data in
  CsvRows (map JStr (csv_header_row fieldnames) :: csv_data_rows fieldnames data).

(** [export_to_excel], up to the frame handed to [to_excel]. *)
Definition excel_fieldnames (data : list dict) : list string :=
  let all_keys : gset string :=
    fold_left (λ all_keys item, all_keys ∪ list_to_set (dict_keys item)) data ∅ in
  let '(fieldnames, all_keys) :=
    fold_left
      (λ '(fieldnames, all_keys) field,
         if bool_decide (field ∈ all_keys)
         then (fieldnames ++ [field], all_keys ∖ {[field]})
         else (fieldnames, all_keys))
      primary_fields ([], all_keys) in
  fieldnames ++ Py.sorted (elements all_keys).

(** [pd.DataFrame(data)] for a list of dicts: the columns are the keys in
    order of first appearance, one row per dict. *)
Definition frame_of_dicts (data : list dict) : dataframe :=
  let columns :=
    fold_left
      (λ columns item,
         fold_left
           (λ columns key, if bool_decide (key ∈ columns) then columns else columns ++ [key])
           (dict_keys item) columns)
      data [] in
  DataFrame columns (map (λ item, map (dict_get item) columns) data).

(** [df[ordered_columns]] *)
Definition frame_select (df : dataframe) (ordered_columns : list string) : dataframe :=
  DataFrame ordered_columns
    (map (λ row, map (λ col, mjoin (dict_get (zip (df_columns df) row) col)) ordered_columns)
       (df_rows df)).

(** [df.rename(columns=rename_dict)] *)
Definition frame_rename (df : dataframe) (rename_dict : list (string * string)) : dataframe :=
  DataFrame
    (map (λ col, match dict_get rename_dict col with Some n => n | None => col end)
       (df_columns df))
    (df_rows df).

Definition excel_ordered_columns (data : list dict) : list string :=
  let fieldnames := excel_fieldnames data in
  let df := frame_of_dicts data in
  filter (λ col, col ∈ df_columns df) fieldnames.

Definition excel_content (data : list dict) : content :=
  let df := frame_of_dicts data in
  let df := frame_select df (excel_ordered_columns data) in
  let rename_dict := map (λ col, (col, header_name col)) (df_columns df) in
  Workbook (frame_rename df rename_dict).

(** [export_to_markdown], up to the text written. *)
Definition nl : string := String "010" "".

Definition markdown_headers (data : list dict) : list string :=
  let all_keys : gset string :=
    fold_left (λ all_keys item, all_keys ∪ list_to_set (dict_keys item)) data ∅ in
  let '(headers, all_keys) :=
    fold_left
      (λ '(headers, all_keys) field,
         if bool_decide (field ∈ all_keys)
         then (headers ++ [field], all_keys ∖ {[field]})
         else (headers, all_keys))
      primary_fields ([], all_keys) in
  headers ++ Py.sorted (elements all_keys).

Definition markdown_header_row (headers : list string) : list string :=
  fold_left (λ header_row field, header_row ++ [header_name field]) headers [].

Definition markdown_cell (value : json) : string :=
  let value :=
    match value with
    | JStr s => JStr (Py.replace nl "<br>" (Py.replace "|" "\|" s))
    | _ => value
    end in
  match value with
  | JNull => ""
  | _ => py_str value
  end.

Definition markdown_line (cells : list string) : string :=
  "| " +:+ Py.join " | " cells +:+ " |" +:+ nl.

Definition markdown_rows (headers : list string) (data : list dict) : list string :=
  fold_left
    (λ written item,
       let row :=
         fold_left
           (λ row header, row ++ [markdown_cell (dict_get_or item header (JStr ""))])
           headers [] in
       written ++ [markdown_line row])
    data [].

Definition markdown_content (now : string) (data : list dict) : content :=
  let headers := markdown_headers data in
  PlainText
    ("# OpenWebUI Model Export" +:+ nl +:+ nl
     +:+ "Generated on: " +:+ now +:+ nl +:+ nl
     +:+ markdown_line (markdown_header_row headers)
     +:+ markdown_line (replicate (length headers) "---")
     +:+ Py.join "" (markdown_rows headers data)).

(** [export_to_xml], up to the document handed to [toprettyxml].

    [current_elem] is a position inside the [<model>] element being
    filled: the list of child indices that leads to it.  [appendChild] on
    it rebuilds the element along that path. *)
Definition nodeName (n : node) : string :=
  match n with
  | Element tag _ => tag
  | TextNode _ => "#text"
  end.

Definition childNodes (n : node) : list node :=
  match n with
  | Element _ children => children
  | TextNode _ => []
  end.

Fixpoint node_at (cursor : list nat) (n : node) : option node :=
  match cursor with
  | [] => Some n
  | i :: rest =>
      match childNodes n !! i with
      | Some child => node_at rest child
      | None => None
      end
  end.

(** [current_elem.appendChild(new)]; a text node takes no children. *)
Fixpoint append_child (cursor : list nat) (new : node) (n : node) : result node :=
  match n with
  | TextNode _ => Raise HierarchyRequestErr
  | Element tag children =>
      match cursor with
      | [] => Ok (Element tag (children ++ [new]))
      | i :: rest =>
          match children !! i with
          | Some child =>
              match append_child rest new child with
              | Ok child' => Ok (Element tag (<[i := child']> children))
              | Raise e => Raise e
              end
          | None => Ok n
          end
      end
  end.

(** One round of [for i, part in enumerate(parts[:-1])]. *)
Definition descend (state : result (node * list nat)) (part : string)
  : result (node * list nat) :=
  match state with
  | Raise e => Raise e
  | Ok (model_elem, cursor) =>
      let siblings := from_option childNodes [] (node_at cursor model_elem) in
      match list_find (λ child, nodeName child = part) siblings with
      | Some (i, _) => Ok (model_elem, cursor ++ [i])
      | None =>
          match append_child cursor (Element part []) model_elem with
          | Ok model_elem' => Ok (model_elem', cursor ++ [length siblings])
          | Raise e => Raise e
          end
      end
  end.

(** [str(value) if value is not None else ""] *)
Definition text_of (value : json) : string :=
  match value with
  | JNull => ""
  | _ => py_str value
  end.

(** The body of [for key, value in item.items()]. *)
Definition add_field (model_elem : node) (key : string) (value : json) : result node :=
  if Py.contains "." key then
    let parts := Py.split "." key in
    match fold_left descend (removelast parts) (Ok (model_elem, [])) with
    | Ok (model_elem, cursor) =>
        append_child cursor (Element (List.last parts "") [TextNode (text_of value)])
          model_elem
    | Raise e => Raise e
    end
  else
    append_child [] (Element key [TextNode (text_of value)]) model_elem.

Definition model_element (item : dict) : result node :=
  fold_left
    (λ model_elem '(key, value),
       match model_elem with
       | Ok m => add_field m key value
       | Raise e => Raise e
       end)
    item (Ok (Element "model" [])).

(** The [<model>] element is appended to the root when it is created and
    filled afterwards through the same object; the root is read only once
    every item is done, so the elements appear here already filled. *)
Definition xml_document (data : list dict) : result node :=
  match
    fold_left
      (λ models item,
         match models with
         | Ok ms =>
             match model_element item with
             | Ok m => Ok (ms ++ [m])
             | Raise e => Raise e
             end
         | Raise e => Raise e
         end)
      data (Ok [])
  with
  | Ok ms => Ok (Element "models" ms)
  | Raise e => Raise e
  end.

(** [export_to_json]: [json.dump(data, f, indent=2)].

    The encoder with its defaults: ASCII-only output, [", "]-free item
    separator [","], key separator [": "], two spaces per level. *)
Definition json_escape_char (c : ascii) : string :=
  if Ascii.eqb c "034" then String "\" (String "034" "")
  else if Ascii.eqb c "\" then "\\"
  else if Ascii.eqb c "010" then "\n"
  else if Ascii.eqb c "013" then "\r"
  else if Ascii.eqb c "009" then "\t"
  else if Ascii.eqb c "008" then "\b"
  else if Ascii.eqb c "012" then "\f"
  else if Py.between 32 126 c then String c ""
  else "\u00" +:+ hex2 c.

Definition json_quote (s : string) : string :=
  String "034" (flat_map_chars json_escape_char s +:+ String "034" "").

Fixpoint spaces (n : nat) : string :=
  match n with
  | O => ""
  | S n' => String " " (spaces n')
  end.

Definition newline_indent (level : nat) : string := nl +:+ spaces (2 * level).

Fixpoint json_encode (level : nat) (v : json) : string :=
  match v with
  | JNull => "null"
  | JBool true => "true"
  | JBool false => "false"
  | JInt n => repr_int n
  | JStr s => json_quote s
  | JList [] => "[]"
  | JList l =>
      "[" +:+ newline_indent (S level)
      +:+ Py.join ("," +:+ newline_indent (S level)) (map (json_encode (S level)) l)
      +:+ newline_indent level +:+ "]"
  | JObj [] => "{}"
  | JObj d =>
      "{" +:+ newline_indent (S level)
      +:+ Py.join ("," +:+ newline_indent (S level))
            (map (λ kv, json_quote kv.1 +:+ ": " +:+ json_encode (S level) kv.2) d)
      +:+ newline_indent level +:+ "}"
  end.

(** A list of dicts as the one value the encoder receives. *)
Definition json_of_data (data : list dict) : json := JList (map JObj data).

Definition json_dumps (data : list dict) : string := json_encode 0 (json_of_data data).

(* ------------------------------------------------------------------ *)
(** ** The fields the window offers *)

(** [self.field_structure]: the fields the window offers, by category,
    each with its path, its label and whether it starts selected.
    [initialize_field_checkboxes] gives [field_vars] one entry per path. *)
Definition field_structure : list (string * list (string * string * bool)) :=
  [ ("Primary Fields",
     [ ("name", "Name", true);
       ("info.meta.description", "Description", true);
       ("info.params.system", "System Prompt", true) ]);
    ("Basic",
     [ ("id", "Model ID", false);
       ("object", "Object Type", false);
       ("created", "Creation Timestamp", false);
       ("owned_by", "Owner", false) ]);
    ("Info",
     [ ("info.id", "Info ID", false);
       ("info.base_model_id", "Base Model", true);
       ("info.name", "Info Name", false);
       ("info.is_active", "Is Active", false);
       ("info.created_at", "Info Created At", false);
       ("info.updated_at", "Info Updated At", false) ]);
    ("Meta",
     [ ("info.meta.profile_image_url", "Profile Image URL", false);
       ("info.meta.capabilities.usage", "Usage Capability", false);
       ("info.meta.capabilities.vision", "Vision Capability", false);
       ("info.meta.capabilities.citations", "Citations Capability", false);
       ("info.meta.tags", "Tags", false) ]);
    ("Other",
     [ ("preset", "Is Preset", false);
       ("actions", "Actions", false) ]) ].

(** The paths of [field_structure], in the order [field_vars] receives
    them. *)
Definition field_names : list string :=
  flat_map (λ category, map (λ field, field.1.1) category.2) field_structure.

(* ------------------------------------------------------------------ *)
(** ** The world an export run acts on *)

(** Status texts, kept as the template and its arguments. *)
Inductive message : Type :=
  | ReadingInput
  | FilteringPersonal
  | FilteringItem (done total : nat)
  | ExtractingFields
  | ExtractingItem (done total : nat)
  | CreatingIndividualFiles
  | CreatingIndividualFile (done total : nat)
  | ExportingTo (fmt : string) (nth total : nat)
  | ExportedTo (fmt : string) (nth total : nat)
  | CompletedAllFormats
  | ExportingSingle (fmt : string)
  | CompletedSingle (output_path : string)
  | ErrorStatus (e : exn).

Inductive dialog : Type :=
  | ShowInfo (output_files : list string)
  | ShowError (e : exn).

Record world : Type := World {
  files : gmap string content;
  directories : gset string;
  statuses : list (message * Q);
  dialogs : list dialog
}.

(** What one run is started with: the checkboxes in the order of
    [field_vars], the outcome of reading and decoding the input file, the
    options, the two clock readings, and the paths the file system will
    not create. *)
Record run : Type := Run {
  field_vars : list (string * bool);
  input_data : result json;
  filter_personal : bool;
  output_dir : string;
  export_format : string;
  timestamp : string;
  generated_on : string;
  refused : string → bool
}.

(** State and exceptions. *)
Definition M (A : Type) : Type := world → result A * world.

#[global] Instance M_ret : MRet M := λ A a w, (Ok a, w).

#[global] Instance M_bind : MBind M := λ A B f m w,
  match m w with
  | (Ok a, w') => f a w'
  | (Raise e, w') => (Raise e, w')
  end.

Definition raise {A} (e : exn) : M A := λ w, (Raise e, w).

Definition lift {A} (r : result A) : M A := λ w, (r, w).

(** [self.update_status(message, progress)]: both settings are queued
    for the interface, in this order. *)
Definition update_status (msg : message) (progress : Q) : M unit := λ w,
  (Ok (), World (files w) (directories w) (statuses w ++ [(msg, progress)]) (dialogs w)).

Definition show (d : dialog) : M unit := λ w,
  (Ok (), World (files w) (directories w) (statuses w) (dialogs w ++ [d])).

(** [with open(path, 'w') as f: ...] writing [c] in all. *)
Definition write_file (r : run) (path : string) (c : content) : M unit := λ w,
  if refused r path then (Raise (OSError path), w)
  else (Ok (), World (<[path := c]> (files w)) (directories w) (statuses w) (dialogs w)).

(** [os.makedirs(path, exist_ok=True)] *)
Definition makedirs (r : run) (path : string) : M unit := λ w,
  if refused r path then (Raise (OSError path), w)
  else (Ok (), World (files w) ({[path]} ∪ directories w) (statuses w) (dialogs w)).

(** [for i, x in enumerate(l)] with the loop's variables in [acc]. *)
Fixpoint for_enumerate {A St} (body : nat → A → St → M St) (i : nat) (l : list A) (acc : St)
  : M St :=
  match l with
  | [] => mret acc
  | x :: l' => acc' ← body i x acc; for_enumerate body (S i) l' acc'
  end.

(** [base + k * scale / total] as an exact fraction; [total] is positive
    whenever a loop body runs. *)
Definition progress_at (base : Z) (k : nat) (scale : Z) (total : nat) : Q :=
  (inject_Z base + (Z.of_nat k * scale # Pos.of_nat total))%Q.

(** [os.path.join] *)
Definition ends_with_sep (s : string) : bool :=
  match String.get (String.length s - 1) s with
  | Some c => Ascii.eqb c "/"
  | None => false
  end.

Definition path_join2 (path b : string) : string :=
  if String.prefix "/" b then b
  else if bool_decide (path = "") || ends_with_sep path then path +:+ b
  else path +:+ "/" +:+ b.

Definition path_join (a : string) (ps : list string) : string := fold_left path_join2 ps a.

(* ------------------------------------------------------------------ *)
(** ** The renderers *)

Definition export_to_csv (r : run) (data : list dict) (output_path : string) : M unit :=
  match data with
  | [] => raise (ValueError "No data to export")
  | _ => write_file r output_path (csv_content data)
  end.

Definition export_to_excel (r : run) (data : list dict) (output_path : string) : M unit :=
  match data with
  | [] => raise (ValueError "No data to export")
  | _ => write_file r output_path (excel_content data)
  end.

Definition export_to_json (r : run) (data : list dict) (output_path : string) : M unit :=
  write_file r output_path (JsonText (json_dumps data)).

Definition export_to_yaml (r : run) (data : list dict) (output_path : string) : M unit :=
  write_file r output_path (YamlDoc data).

Definition export_to_xml (r : run) (data : list dict) (output_path : string) : M unit :=
  doc ← lift (xml_document data);
  write_file r output_path (XmlDoc doc).

Definition export_to_markdown (r : run) (data : list dict) (output_path : string) : M unit :=
  match data with
  | [] => raise (ValueError "No data to export")
  | _ => write_file r output_path (markdown_content (generated_on r) data)
  end.

(** The [if fmt == ...: ... elif ...] chain. *)
Definition export_as (r : run) (fmt : string) (data : list dict) (output_path : string)
  : M unit :=
  if String.eqb fmt "csv" then export_to_csv r data output_path
  else if String.eqb fmt "json" then export_to_json r data output_path
  else if String.eqb fmt "excel" then export_to_excel r data output_path
  else if String.eqb fmt "yaml" then export_to_yaml r data output_path
  else if String.eqb fmt "xml" then export_to_xml r data output_path
  else if String.eqb fmt "markdown" then export_to_markdown r data output_path
  else mret ().

(* ------------------------------------------------------------------ *)
(** ** [perform_export] *)

Definition format_ext : list (string * string) :=
  [("csv", ".csv"); ("json", ".json"); ("excel", ".xlsx");
   ("yaml", ".yaml"); ("xml", ".xml"); ("markdown", ".md")].

(** [format_ext[fmt]] *)
Definition ext_of (fmt : string) : M string :=
  match dict_get format_ext fmt with
  | Some ext => mret ext
  | None => raise (KeyError fmt)
  end.

Definition personal_terms : list string := ["Daniel"; "Rosehill"; "daniel"; "rosehill"].

(** The filtering loop. *)
Definition filter_data (data : list json) : M (list json) :=
  _ ← update_status FilteringPersonal 10;
  let total_items := length data in
  for_enumerate
    (λ i item filtered_data,
       let filtered_data :=
         if negb (contains_personal_info item personal_terms)
         then filtered_data ++ [item] else filtered_data in
       _ ← update_status (FilteringItem (i + 1) total_items)
             (progress_at 10 (i + 1) 20 total_items);
       mret filtered_data)
    0 data [].

(** The body of the extraction loop for one record. *)
Definition extract_item (selected_fields : list string) (item : json) : result dict :=
  fold_left
    (λ extracted_item field,
       match extracted_item with
       | Raise e => Raise e
       | Ok d =>
           match extract_field item field with
           | Ok value => Ok (dict_set d field value)
           | Raise e => Raise e
           end
       end)
    selected_fields (Ok []).

Definition extract_data (selected_fields : list string) (data : list json) : M (list dict) :=
  _ ← update_status ExtractingFields 30;
  let total_items := length data in
  for_enumerate
    (λ i item extracted_data,
       extracted_item ← lift (extract_item selected_fields item);
       let extracted_data := extracted_data ++ [extracted_item] in
       _ ← update_status (ExtractingItem (i + 1) total_items)
             (progress_at 30 (i + 1) 40 total_items);
       mret extracted_data)
    0 data [].

(** [model_name.lower()...]: only a string has [lower]. *)
Definition filename_of (model_name : json) : result string :=
  match model_name with
  | JStr s => Ok (make_filename s)
  | _ => Raise AttributeError
  end.

Definition individual_document (model_name : json) (description system_prompt : json)
  : content :=
  PlainText
    ("## " +:+ py_str model_name +:+ nl +:+ nl
     +:+ "## Description" +:+ nl +:+ nl
     +:+ py_str description +:+ nl +:+ nl
     +:+ "## System Prompt" +:+ nl +:+ nl
     +:+ py_str system_prompt +:+ nl).

Definition write_individual_files (r : run) (extracted_data : list dict) : M unit :=
  _ ← update_status CreatingIndividualFiles 65;
  let individual_configs_dir :=
    path_join (output_dir r) ["export_" +:+ timestamp r; "individual-configs"] in
  _ ← makedirs r individual_configs_dir;
  for_enumerate
    (λ i item (_ : unit),
       let model_name := dict_get_or item "name" (JStr "Unknown Model") in
       let description := dict_get_or item "info.meta.description" (JStr "") in
       let system_prompt := dict_get_or item "info.params.system" (JStr "") in
       filename ← lift (filename_of model_name);
       _ ← write_file r (path_join individual_configs_dir [filename])
             (individual_document model_name description system_prompt);
       update_status (CreatingIndividualFile (i + 1) (length extracted_data))
         (progress_at 65 (i + 1) 5 (length extracted_data)))
    0 extracted_data ().

Definition export_path (r : run) (ext : string) : string :=
  path_join (output_dir r) ["export_" +:+ timestamp r +:+ ext].

Definition all_formats : list string := ["csv"; "json"; "excel"; "yaml"; "xml"; "markdown"].

(** [70 + (i * (30 / total_formats))] *)
Definition format_progress (i total_formats : nat) : Q :=
  (70 + inject_Z (Z.of_nat i) * (30 # Pos.of_nat total_formats))%Q.

Definition export_all (r : run) (extracted_data : list dict) : M unit :=
  let formats := all_formats in
  let total_formats := length formats in
  _ ← for_enumerate
        (λ i fmt (_ : unit),
           let progress_base := format_progress i total_formats in
           let progress_next := format_progress (i + 1) total_formats in
           _ ← update_status (ExportingTo fmt (i + 1) total_formats) progress_base;
           ext ← ext_of fmt;
           let output_path := export_path r ext in
           _ ← export_as r fmt extracted_data output_path;
           update_status (ExportedTo fmt (i + 1) total_formats) progress_next)
        0 formats ();
  _ ← update_status CompletedAllFormats 100;
  exts ← for_enumerate (λ _ fmt exts, ext ← ext_of fmt; mret (exts ++ [ext])) 0 formats [];
  show (ShowInfo (map (λ ext, "export_" +:+ timestamp r +:+ ext) exts)).

Definition export_single (r : run) (extracted_data : list dict) : M unit :=
  ext ← ext_of (export_format r);
  let output_path := export_path r ext in
  _ ← update_status (ExportingSingle (export_format r)) 70;
  _ ← export_as r (export_format r) extracted_data output_path;
  _ ← update_status (CompletedSingle output_path) 100;
  show (ShowInfo [output_path]).

(** [type(data).__name__] *)
Definition type_name (v : json) : string :=
  match v with
  | JNull => "NoneType"
  | JBool _ => "bool"
  | JInt _ => "int"
  | JStr _ => "str"
  | JList _ => "list"
  | JObj _ => "dict"
  end.

(** The [try] block. *)
Definition export_steps (r : run) : M unit :=
  let selected_fields := (filter (λ fv, fv.2 = true) (field_vars r)).*1 in
  _ ← update_status ReadingInput 5;
  data ← lift (input_data r);
  data ← match data with
         | JList l => mret l
         | _ => raise (ValueError ("Expected a JSON array, but got " +:+ type_name data))
         end;
  data ← (if filter_personal r then filter_data data else mret data);
  extracted_data ← extract_data selected_fields data;
  _ ← write_individual_files r extracted_data;
  if String.eqb (export_format r) "all"
  then export_all r extracted_data
  else export_single r extracted_data.

(** [perform_export]: the steps, and the handler of [except Exception]. *)
Definition perform_export (r : run) : M unit := λ w,
  match export_steps r w with
  | (Ok (), w') => (Ok (), w')
  | (Raise e, w') =>
      (_ ← update_status (ErrorStatus e) 0; show (ShowError e)) w'
  end.

Definition initial_world : world := World ∅ ∅ [] [].

(** The percentages a run emits, in order. *)
Definition percentages (r : run) : list Q := (statuses (perform_export r initial_world).2).*2.

(** The status updates of the steps before the individual files are
    written, and those from there on. *)
Definition early_message (m : message) : bool :=
  match m with
  | ReadingInput | FilteringPersonal | FilteringItem _ _
  | ExtractingFields | ExtractingItem _ _ => true
  | _ => false
  end.

Definition late_message (m : message) : bool :=
  match m with
  | CreatingIndividualFiles | CreatingIndividualFile _ _
  | ExportingTo _ _ _ | ExportedTo _ _ _ | CompletedAllFormats
  | ExportingSingle _ | CompletedSingle _ => true
  | _ => false
  end.

(** A run of status updates of one kind, non-decreasing and within
    bounds. *)
Definition segment (kind : message → bool) (lo hi : Q) (l : list (message * Q)) : Prop :=
  (lo <= hi)%Q
  ∧ Sorted Qle l.*2
  ∧ Forall (λ mp, kind mp.1 = true ∧ (lo <= mp.2)%Q ∧ (mp.2 <= hi)%Q) l.

(** What a computation adds to the status updates, whatever its outcome. *)
Definition emits {A} (m : M A) (P : list (message * Q) → Prop) : Prop :=
  ∀ w, ∃ l, statuses (m w).2 = statuses w ++ l ∧ P l.

(** Updates of the early steps followed by updates of the late ones. *)
Definition early_then_late (a : Q) (l : list (message * Q)) : Prop :=
  ∃ l1 l2, l = l1 ++ l2
           ∧ segment early_message a 70 l1 ∧ segment late_message 65 100 l2.

(** Two runs used as examples: the input is not an array; one record,
    all formats. *)
Definition run_on_object : run :=
  Run [("name", true)] (Ok (JObj [])) true "out" "csv" "260101_120000"
    "2026-01-01 12:00:00" (λ _, false).

Definition run_on_one_record : run :=
  Run [("name", true); ("info.meta.description", true); ("id", false)]
    (Ok (JList [JObj [("name", JStr "GPT 4 / Test");
                      ("info", JObj [("meta", JObj [("description", JStr "d1")])])]]))
    true "out" "all" "260101_120000" "2026-01-01 12:00:00" (λ _, false).

(** The nesting the specification describes for a dotted key: at each
    level the first sibling with the segment's tag is entered, a new
    element is created when there is none, and the leaf goes last into
    the element reached. *)
Fixpoint insert_path (parts : list string) (leaf : node) (siblings : list node)
  : result (list node) :=
  match parts with
  | [] => Ok (siblings ++ [leaf])
  | part :: rest =>
      match list_find (λ child, nodeName child = part) siblings with
      | Some (i, Element tag kids) =>
          match insert_path rest leaf kids with
          | Ok kids' => Ok (<[i := Element tag kids']> siblings)
          | Raise e => Raise e
          end
      | Some (_, TextNode _) => Raise HierarchyRequestErr
      | None =>
          match insert_path rest leaf [] with
          | Ok kids' => Ok (siblings ++ [Element part kids'])
          | Raise e => Raise e
          end
      end
  end.

(** Reading a path: at each level the first child with the tag. *)
Fixpoint follow (path : list string) (siblings : list node) : option (list node) :=
  match path with
  | [] => Some siblings
  | part :: rest =>
      match list_find (λ child, nodeName child = part) siblings with
      | Some (_, Element _ kids) => follow rest kids
      | _ => None
      end
  end.

(** An element that carries a field: its tag, and the text as its first
    child. *)
Definition field_element (tag text : string) (n : node) : Prop :=
  ∃ more, n = Element tag (TextNode text :: more).

(** The leaf [add_field] appends for a key and its value. *)
Definition leaf_of (key : string) (value : json) : node :=
  Element (List.last (Py.split "." key) "") [TextNode (text_of value)].

(** The node at a cursor replaced. *)
Fixpoint replace_at (cursor : list nat) (new : node) (n : node) : node :=
  match cursor with
  | [] => new
  | i :: rest =>
      match n with
      | Element tag children =>
          match children !! i with
          | Some child => Element tag (<[i := replace_at rest new child]> children)
          | None => n
          end
      | TextNode _ => n
      end
  end.

(** The end of [add_field]'s dotted branch: the leaf appended at the
    cursor the loop stopped at. *)
Definition finish (leaf : node) (state : result (node * list nat)) : result node :=
  match state with
  | Ok (model_elem, cursor) => append_child cursor leaf model_elem
  | Raise e => Raise e
  end.

(** Every field element of [kids] has a counterpart in [kids']. *)
Definition fields_kept (kids kids' : list node) : Prop :=
  ∀ tag text n, n ∈ kids → field_element tag text n →
                ∃ n', n' ∈ kids' ∧ field_element tag text n'.

(** An item whose keys share the prefixes [info] and [info.meta]. *)
Definition two_dotted_keys : dict :=
  [("info.meta.description", JStr "d1"); ("name", JStr "n1");
   ("info.params.system", JNull); ("info.meta.tags", JList [JInt 1])].

(* ------------------------------------------------------------------ *)
(** ** Reading JSON text back: [json.loads]

    The decoder with its defaults, on the values of this embedding: a
    number with a fraction or an exponent, and an escape above code point
    255, are outside it and give [None], as a malformed text does. *)

Definition is_ws (c : ascii) : bool :=
  Ascii.eqb c " " || Ascii.eqb c "009" || Ascii.eqb c "010" || Ascii.eqb c "013".

Fixpoint skip_ws (s : string) : string :=
  match s with
  | String c s' => if is_ws c then skip_ws s' else s
  | EmptyString => EmptyString
  end.

Definition is_digit (c : ascii) : bool := Py.between 48 57 c.

Definition hex_value (c : ascii) : option N :=
  if Py.between 48 57 c then Some (Py.code c - 48)%N
  else if Py.between 97 102 c then Some (Py.code c - 87)%N
  else if Py.between 65 70 c then Some (Py.code c - 55)%N
  else None.

(** [BACKSLASH] *)
Definition unescape (esc : ascii) : option ascii :=
  if Ascii.eqb esc "034" then Some "034"%char
  else if Ascii.eqb esc "\" then Some "\"%char
  else if Ascii.eqb esc "/" then Some "/"%char
  else if Ascii.eqb esc "b" then Some "008"%char
  else if Ascii.eqb esc "f" then Some "012"%char
  else if Ascii.eqb esc "n" then Some "010"%char
  else if Ascii.eqb esc "r" then Some "013"%char
  else if Ascii.eqb esc "t" then Some "009"%char
  else None.

(** [scanstring], from the character after the opening quote: the text
    and what follows the closing quote. *)
Fixpoint scanstring (s : string) : option (string * string) :=
  match s with
  | EmptyString => None
  | String c s' =>
      if Ascii.eqb c "034" then Some (EmptyString, s')
      else if Ascii.eqb c "\" then
        match s' with
        | String "u" (String h1 (String h2 (String h3 (String h4 s'')))) =>
            match hex_value h1, hex_value h2, hex_value h3, hex_value h4 with
            | Some a, Some b, Some c', Some d =>
                let uni := (4096 * a + 256 * b + 16 * c' + d)%N in
                if (uni <? 256)%N then
                  match scanstring s'' with
                  | Some (text, rest) => Some (String (ascii_of_N uni) text, rest)
                  | None => None
                  end
                else None
            | _, _, _, _ => None
            end
        | String esc s'' =>
            match unescape esc with
            | Some char =>
                match scanstring s'' with
                | Some (text, rest) => Some (String char text, rest)
                | None => None
                end
            | None => None
            end
        | EmptyString => None
        end
      else if (Py.code c <? 32)%N then None
      else
        match scanstring s' with
        | Some (text, rest) => Some (String c text, rest)
        | None => None
        end
  end.

(** The integer part of [NUMBER_RE]: an optional sign, then [0] or a
    digit from 1 to 9 and any digits. *)
Fixpoint scan_digits (s : string) : string * string :=
  match s with
  | String c s' =>
      if is_digit c then let '(ds, rest) := scan_digits s' in (String c ds, rest)
      else (EmptyString, s)
  | EmptyString => (EmptyString, EmptyString)
  end.

Definition scan_unsigned (s : string) : option (string * string) :=
  match s with
  | String c s' =>
      if Ascii.eqb c "0" then Some ("0", s')
      else if is_digit c then let '(ds, rest) := scan_digits s' in Some (String c ds, rest)
      else None
  | EmptyString => None
  end.

Definition scan_integer (s : string) : option (string * string) :=
  match s with
  | String "-" s' =>
      match scan_unsigned s' with
      | Some (ds, rest) => Some (String "-" ds, rest)
      | None => None
      end
  | _ => scan_unsigned s
  end.

(** A fraction [\.\d+] or an exponent [[eE][-+]?\d+] follows: the number
    is not an integer. *)
Definition continues_number (rest : string) : bool :=
  match rest with
  | String c (String d rest') =>
      (Ascii.eqb c "." && is_digit d)
      || ((Ascii.eqb c "e" || Ascii.eqb c "E")
          && (is_digit d
              || ((Ascii.eqb d "+" || Ascii.eqb d "-")
                  && match rest' with
                     | String d' _ => is_digit d'
                     | EmptyString => false
                     end)))
  | _ => false
  end.

(** [int(text)] *)
Definition parse_int (text : string) : option Z :=
  option_map Z.of_int (NilZero.int_of_string text).

Definition scan_number (s : string) : option (json * string) :=
  match scan_integer s with
  | Some (text, rest) =>
      if continues_number rest then None
      else match parse_int text with
           | Some n => Some (JInt n, rest)
           | None => None
           end
  | None => None
  end.

(** [scan_once], [JSONArray] and [JSONObject]; [fuel] bounds the nesting
    of calls.  The loops carry the values, or the pairs, read so far. *)
Fixpoint scan_once (fuel : nat) (s : string) : option (json * string) :=
  match fuel with
  | O => None
  | S fuel =>
      match s with
      | EmptyString => None
      | String c s' =>
          if Ascii.eqb c "034" then
            match scanstring s' with
            | Some (text, rest) => Some (JStr text, rest)
            | None => None
            end
          else if Ascii.eqb c "{" then
            let s1 := skip_ws s' in
            match s1 with
            | String "}" rest => Some (JObj [], rest)
            | String "034" s2 => object_loop fuel s2 []
            | _ => None
            end
          else if Ascii.eqb c "[" then
            let s1 := skip_ws s' in
            match s1 with
            | String "]" rest => Some (JList [], rest)
            | _ => array_loop fuel s1 []
            end
          else if String.prefix "null" s then Some (JNull, String.substring 4 (String.length s - 4) s)
          else if String.prefix "true" s then Some (JBool true, String.substring 4 (String.length s - 4) s)
          else if String.prefix "false" s then Some (JBool false, String.substring 5 (String.length s - 5) s)
          else scan_number s
      end
  end

with array_loop (fuel : nat) (s : string) (values : list json) : option (json * string) :=
  match fuel with
  | O => None
  | S fuel =>
      match scan_once fuel s with
      | Some (value, rest) =>
          let values := values ++ [value] in
          match skip_ws rest with
          | String "]" rest' => Some (JList values, rest')
          | String "," rest' => array_loop fuel (skip_ws rest') values
          | _ => None
          end
      | None => None
      end
  end

with object_loop (fuel : nat) (s : string) (pairs : list (string * json))
  : option (json * string) :=
  match fuel with
  | O => None
  | S fuel =>
      match scanstring s with
      | Some (key, rest) =>
          match skip_ws rest with
          | String ":" rest1 =>
              match scan_once fuel (skip_ws rest1) with
              | Some (value, rest2) =>
                  let pairs := pairs ++ [(key, value)] in
                  match skip_ws rest2 with
                  | String "}" rest3 =>
                      Some (JObj (fold_left (λ d kv, dict_set d kv.1 kv.2) pairs []), rest3)
                  | String "," rest3 =>
                      match skip_ws rest3 with
                      | String "034" rest4 => object_loop fuel rest4 pairs
                      | _ => None
                      end
                  | _ => None
                  end
              | None => None
              end
          | _ => None
          end
      | None => None
      end
  end.

(** [json.loads] *)
Definition json_loads (s : string) : option json :=
  match scan_once (String.length s) (skip_ws s) with
  | Some (obj, rest) =>
      match skip_ws rest with
      | EmptyString => Some obj
      | _ => None
      end
  | None => None
  end.

(** Dicts have one entry per key, at every depth. *)
Fixpoint well_formed (v : json) : Prop :=
  match v with
  | JList l => (fix all (l : list json) : Prop :=
                  match l with
                  | [] => True
                  | x :: l' => well_formed x ∧ all l'
                  end) l
  | JObj d => NoDup d.*1
              ∧ (fix all (d : list (string * json)) : Prop :=
                   match d with
                   | [] => True
                   | (_, x) :: d' => well_formed x ∧ all d'
                   end) d
  | _ => True
  end.

(** What may follow a value in the encoder's output. *)
Definition delimited (rest : string) : Prop :=
  match rest with
  | EmptyString => True
  | String c _ => c = ","%char ∨ c = "010"%char
  end.

(** A bound on the calls [scan_once] needs for a value. *)
Fixpoint size (v : json) : nat :=
  match v with
  | JList l => S (list_sum (map (λ x, S (size x)) l))
  | JObj d => S (list_sum (map (λ kv, S (size kv.2)) d))
  | _ => 1
  end.

(** A text that begins with a character a value can begin with. *)
Definition starts_value (s : string) : Prop :=
  ∃ c t, s = String c t ∧ is_ws c = false ∧ c ≠ "]"%char.

(** The property the round trip is proved for, value by value. *)
Definition scans_back (v : json) : Prop :=
  ∀ level rest fuel, size v ≤ fuel → delimited rest →
    scan_once fuel (json_encode level v +:+ rest) = Some (v, rest).

(** Two projected records with a nested value, an escaped string and a
    negative number. *)
Definition sample_records : list dict :=
  [ [("name", JStr "GPT 4 / Test");
     ("info.params.system", JStr ("Say " +:+ String "034" ("hi" +:+ String "034" (String "010" ""))));
     ("info.meta.tags", JList [JObj [("name", JStr "a")]; JNull; JBool true]);
     ("info.meta.count", JInt (-12))];
    [("name", JStr "");
     ("info.params.system", JStr "");
     ("info.meta.tags", JList []);
     ("info.meta.count", JInt 0)] ].
(* ================================================================== *)

(* ------------------------------------------------------------------ *)
(** ** What a computation leaves untouched *)

(** A computation that shows no dialog. *)
Definition no_dialog {A} (m : M A) : Prop :=
  ∀ w, dialogs (m w).2 = dialogs w.

(** A computation that shows one information dialog when it returns, and
    none when it raises. *)
Definition info_on_return {A} (m : M A) : Prop :=
  ∀ w, match (m w).1 with
       | Ok _ => ∃ output_files, dialogs (m w).2 = dialogs w ++ [ShowInfo output_files]
       | Raise _ => dialogs (m w).2 = dialogs w
       end.

(** A computation that only reports progress: files, directories and
    dialogs stay as they are. *)
Definition status_only {A} (m : M A) : Prop :=
  ∀ w, files (m w).2 = files w
       ∧ directories (m w).2 = directories w
       ∧ dialogs (m w).2 = dialogs w.

(** The records a run keeps: all of them, or those without personal
    information when the filter is on. *)
Definition survivors (r : run) (data : list json) : list json :=
  if filter_personal r
  then filter (λ item, negb (contains_personal_info item personal_terms) = true) data
  else data.

(** The fields selected when a run starts, in the order of [field_vars]. *)
Definition selected (r : run) : list string :=
  (filter (λ fv, fv.2 = true) (field_vars r)).*1.

(** The steps of a run once the records are extracted. *)
Definition write_outputs (r : run) (extracted_data : list dict) : M unit :=
  _ ← write_individual_files r extracted_data;
  if String.eqb (export_format r) "all"
  then export_all r extracted_data
  else export_single r extracted_data.

(** The directory of the per-record documents. *)
Definition individual_configs_dir (r : run) : string :=
  path_join (output_dir r) ["export_" +:+ timestamp r; "individual-configs"].

(** A run on an empty array, exported as JSON. *)
Definition run_on_empty_array : run :=
  Run [("name", true)] (Ok (JList [])) true "out" "json" "260101_120000"
    "2026-01-01 12:00:00" (λ _, false).

(** The name a per-record document is written under, the document, and
    its path; there is no path when the name is not a string. *)
Definition name_of (item : dict) : json := dict_get_or item "name" (JStr "Unknown Model").

Definition document_of (item : dict) : content :=
  individual_document (name_of item)
    (dict_get_or item "info.meta.description" (JStr ""))
    (dict_get_or item "info.params.system" (JStr "")).

Definition document_path (r : run) (item : dict) : option string :=
  match name_of item with
  | JStr model_name => Some (path_join (individual_configs_dir r) [make_filename model_name])
  | _ => None
  end.

(** The body of the loop of [write_individual_files]. *)
Definition individual_file_step (r : run) (total : nat) (i : nat) (item : dict) (_ : unit)
  : M unit :=
  let model_name := dict_get_or item "name" (JStr "Unknown Model") in
  let description := dict_get_or item "info.meta.description" (JStr "") in
  let system_prompt := dict_get_or item "info.params.system" (JStr "") in
  filename ← lift (filename_of model_name);
  _ ← write_file r (path_join (individual_configs_dir r) [filename])
        (individual_document model_name description system_prompt);
  update_status (CreatingIndividualFile (i + 1) total) (progress_at 65 (i + 1) 5 total).

(** Two records whose names give the same file name. *)
Definition two_records_one_name : list dict :=
  [ [("name", JStr "GPT 4"); ("info.meta.description", JStr "first")];
    [("name", JStr "gpt-4"); ("info.meta.description", JStr "second")] ].

(** A run on one record whose name is [null]. *)
Definition run_with_null_name : run :=
  Run [("name", true)] (Ok (JList [JObj [("name", JNull)]])) true "out" "json"
    "260101_120000" "2026-01-01 12:00:00" (λ _, false).

(** A text without a newline character. *)
Definition one_line (s : string) : Prop :=
  Forall (λ c, c ≠ "010"%char) (String.list_ascii_of_string s).

(** What [export_to_markdown] makes of one character of a string cell. *)
Definition markdown_escape (c : ascii) : string :=
  if Ascii.eqb c "|" then "\|"
  else if Ascii.eqb c "010" then "<br>"
  else String c "".

Ltac one_line_literal := repeat constructor; discriminate.

(* ------------------------------------------------------------------ *)
(** ** The field checkboxes and the start of a run *)

(** [initialize_field_checkboxes]: every field of [field_structure] gets
    a variable with its default unless it has one already. *)
Definition initialize_field_checkboxes (field_vars : list (string * bool))
  : list (string * bool) :=
  fold_left
    (λ field_vars category,
       fold_left
         (λ field_vars (field : string * string * bool),
            let field_key := field.1.1 in
            match dict_get field_vars field_key with
            | Some _ => field_vars
            | None => field_vars ++ [(field_key, field.2)]
            end)
         category.2 field_vars)
    field_structure field_vars.

(** [select_all_fields] and [deselect_all_fields] *)
Definition select_all_fields (field_vars : list (string * bool)) : list (string * bool) :=
  map (λ fv, (fv.1, true)) field_vars.

Definition deselect_all_fields (field_vars : list (string * bool)) : list (string * bool) :=
  map (λ fv, (fv.1, false)) field_vars.

(** [self.field_vars[key].set(value)]: the key has to be there. *)
Fixpoint var_set (field_vars : list (string * bool)) (key : string) (value : bool)
  : result (list (string * bool)) :=
  match field_vars with
  | [] => Raise (KeyError key)
  | (k, v) :: rest =>
      if String.eqb k key then Ok ((k, value) :: rest)
      else match var_set rest key value with
           | Ok rest' => Ok ((k, v) :: rest')
           | Raise e => Raise e
           end
  end.

(** [reset_to_default] *)
Definition reset_to_default (field_vars : list (string * bool))
  : result (list (string * bool)) :=
  fold_left
    (λ field_vars category,
       fold_left
         (λ field_vars (field : string * string * bool),
            match field_vars with
            | Ok field_vars => var_set field_vars field.1.1 field.2
            | Raise e => Raise e
            end)
         category.2 field_vars)
    field_structure (Ok field_vars).

(** The error dialogs of [start_export], and its going ahead. *)
Inductive start_result : Type :=
  | NoInputFile
  | NoOutputDirectory
  | InputDoesNotExist
  | CannotCreateOutputDirectory (e : exn)
  | NoFieldSelected
  | ThreadStarted.

(** [start_export]: the outcome and the directories created.  [exists]
    is [os.path.exists] when the button is pressed, [refused] the paths
    [os.makedirs] cannot create. *)
Definition start_export (input_file_var output_dir_var : string)
    (field_vars : list (string * bool)) (exists_ refused : string → bool)
  : start_result * list string :=
  if bool_decide (input_file_var = "") then (NoInputFile, [])
  else if bool_decide (output_dir_var = "") then (NoOutputDirectory, [])
  else if negb (exists_ input_file_var) then (InputDoesNotExist, [])
  else
    let makedirs : result (list string) :=
      if exists_ output_dir_var then Ok []
      else if refused output_dir_var then Raise (OSError output_dir_var)
      else Ok [output_dir_var] in
    match makedirs with
    | Raise e => (CannotCreateOutputDirectory e, [])
    | Ok created =>
        if negb (existsb (λ fv, fv.2) field_vars) then (NoFieldSelected, created)
        else (ThreadStarted, created)
    end.

(* ------------------------------------------------------------------ *)
(** ** The command-line scripts

    The scripts read one file, print lines and write files.  What they
    print is kept as the template and its arguments; a file holds what
    has been written to it when it is closed, also when the block that
    writes it is left by an exception. *)

Inductive printed : Type :=
  | ExpectedArray (type_name : string)
  | SkippedItem (i : nat)
  | SimplifiedItem (i : nat)
  | SimplifiedTotal (n : nat) (output_file : string)
  | SkippedTotal (n : nat)
  | ErrorLine (e : exn)
  | NotValidJson (input_file : string)
  | Converted (input_file output_file : string)
  | InputNotFound (input_file : string)
  | PlaceInput
  | ConversionSaved (output_file : string)
  | CreatedOutputDirectory (output_dir : string)
  | ExtractedModels (n : nat)
  | ErrorExtracting (e : exn)
  | SavedAs (kind output_file : string)
  | ErrorSaving (kind : string) (e : exn)
  | AllSaved (output_dir : string)
  | CompletedWithErrors.

Record console : Type := Console {
  disk : gmap string content;
  folders : gset string;
  stdout : list printed
}.

(** What a script finds around it: the outcome of opening and decoding a
    file, the regular files there are, and the paths that cannot be
    created or opened for writing. *)
Record os_env : Type := OsEnv {
  json_load : string → result json;
  isfile : string → bool;
  denied : string → bool
}.

Definition Script (A : Type) : Type := console → result A * console.

#[global] Instance Script_ret : MRet Script := λ A a c, (Ok a, c).

#[global] Instance Script_bind : MBind Script := λ A B f m c,
  match m c with
  | (Ok a, c') => f a c'
  | (Raise e, c') => (Raise e, c')
  end.

Definition of_result {A} (x : result A) : Script A := λ c, (x, c).

(** [try: m except Exception as e: handler e] *)
Definition try_except {A} (m : Script A) (handler : exn → Script A) : Script A := λ c,
  match m c with
  | (Ok a, c') => (Ok a, c')
  | (Raise e, c') => handler e c'
  end.

Definition print (p : printed) : Script unit := λ c,
  (Ok (), Console (disk c) (folders c) (stdout c ++ [p])).

(** [open(path, 'w')]: the file is created, or emptied. *)
Definition open_write (env : os_env) (path : string) (empty : content) : Script unit := λ c,
  if denied env path then (Raise (OSError path), c)
  else (Ok (), Console (<[path := empty]> (disk c)) (folders c) (stdout c)).

(** [writer.writerow(row)] on the file open at [path]. *)
Definition writerow (path : string) (row : list json) : Script unit := λ c,
  (Ok (),
   Console
     (alter (λ held, match held with
                     | CsvRows rows => CsvRows (rows ++ [row])
                     | _ => held
                     end) path (disk c))
     (folders c) (stdout c)).

(** [f.write(text)] on the file open at [path]. *)
Definition write_text (path : string) (text : string) : Script unit := λ c,
  (Ok (),
   Console
     (alter (λ held, match held with
                     | PlainText before => PlainText (before +:+ text)
                     | _ => held
                     end) path (disk c))
     (folders c) (stdout c)).

(** [os.path.dirname]: the text up to the last separator, without the
    separators it ends with unless it is made of separators. *)
Fixpoint rfind_sep (s : string) : option nat :=
  match s with
  | EmptyString => None
  | String c s' =>
      match rfind_sep s' with
      | Some i => Some (S i)
      | None => if Ascii.eqb c "/" then Some 0 else None
      end
  end.

Fixpoint all_sep (s : string) : bool :=
  match s with
  | EmptyString => true
  | String c s' => Ascii.eqb c "/" && all_sep s'
  end.

(** [s.rstrip('/')] *)
Fixpoint rstrip_sep (s : string) : string :=
  match s with
  | EmptyString => EmptyString
  | String c s' =>
      match rstrip_sep s' with
      | EmptyString => if Ascii.eqb c "/" then EmptyString else String c EmptyString
      | rest => String c rest
      end
  end.

Definition dirname (p : string) : string :=
  let i := match rfind_sep p with Some i => i + 1 | None => 0 end in
  let head := String.substring 0 i p in
  if negb (bool_decide (head = "")) && negb (all_sep head) then rstrip_sep head else head.

(** [os.makedirs(path, exist_ok=True)]: the empty path names no
    directory. *)
Definition os_makedirs (env : os_env) (path : string) : Script unit := λ c,
  if bool_decide (path = "") then (Raise (OSError path), c)
  else if denied env path then (Raise (OSError path), c)
  else (Ok (), Console (disk c) ({[path]} ∪ folders c) (stdout c)).

(** [for i, x in enumerate(l)] in a script. *)
Fixpoint for_each {A St} (body : nat → A → St → Script St) (i : nat) (l : list A) (acc : St)
  : Script St :=
  match l with
  | [] => mret acc
  | x :: l' => acc' ← body i x acc; for_each body (S i) l' acc'
  end.

(** *** [scripts/simplify_json.py] *)

(** The body of the loop of [simplify_json] once an item is kept. *)
Definition simplified_item (item : json) : result dict :=
  match item with
  | JObj d =>
      let simplified_item := [("name", dict_get_or d "name" (JStr ""))] in
      match dict_get d "info" with
      | Some (JObj info) =>
          let simplified_item :=
            match dict_get info "params" with
            | Some (JObj params) =>
                dict_set simplified_item "system_prompt" (dict_get_or params "system" (JStr ""))
            | _ => dict_set simplified_item "system_prompt" (JStr "")
            end in
          let simplified_item :=
            match dict_get info "meta" with
            | Some (JObj meta) =>
                dict_set simplified_item "description"
                  (dict_get_or meta "description" (JStr ""))
            | _ => dict_set simplified_item "description" (JStr "")
            end in
          Ok simplified_item
      | _ =>
          let simplified_item := dict_set simplified_item "system_prompt" (JStr "") in
          let simplified_item := dict_set simplified_item "description" (JStr "") in
          Ok simplified_item
      end
  | _ => Raise AttributeError
  end.

(** The body of the loop of [simplify_json], on the items simplified so
    far and the number skipped. *)
Definition simplify_step (filter_personal : bool) (i : nat) (item : json)
    (acc : list dict * nat) : Script (list dict * nat) :=
  let '(simplified_data, skipped) := acc in
  if filter_personal && SimplifyJson.contains_personal_info item personal_terms
  then
    _ ← print (SkippedItem (i + 1));
    mret (simplified_data, skipped + 1)
  else
    simplified ← of_result (simplified_item item);
    _ ← print (SimplifiedItem (i + 1));
    mret (simplified_data ++ [simplified], skipped).

Definition simplify_items (filter_personal : bool) (data : list json)
  : Script (list dict * nat) :=
  for_each (simplify_step filter_personal) 0 data ([], 0).

Definition simplify_json (env : os_env) (input_file output_file : string)
    (filter_personal : bool) : Script bool :=
  try_except
    (data ← of_result (json_load env input_file);
     match data with
     | JList data =>
         '(simplified_data, skipped) ← simplify_items filter_personal data;
         _ ← os_makedirs env (dirname output_file);
         _ ← open_write env output_file (JsonText (json_dumps simplified_data));
         _ ← print (SimplifiedTotal (length simplified_data) output_file);
         _ ← (if filter_personal then print (SkippedTotal skipped) else mret ());
         mret true
     | _ =>
         _ ← print (ExpectedArray (type_name data));
         mret false
     end)
    (λ e, _ ← print (ErrorLine e); mret false).

(** *** [scripts/json_to_csv.py] *)

(** The row [convert_json_to_csv] writes for one model. *)
Definition model_row (model : json) : result (list json) :=
  match model with
  | JObj d =>
      let name := dict_get_or d "name" (JStr "") in
      let '(description, system_prompt) :=
        match dict_get d "info" with
        | Some (JObj info) =>
            let description :=
              match dict_get info "meta" with
              | Some (JObj meta) => dict_get_or meta "description" (JStr "")
              | _ => JStr ""
              end in
            let system_prompt :=
              match dict_get info "params" with
              | Some (JObj params) => dict_get_or params "system" (JStr "")
              | _ => JStr ""
              end in
            (description, system_prompt)
        | _ => (JStr "", JStr "")
        end in
      Ok [name; description; system_prompt]
  | _ => Raise AttributeError
  end.

(** The loop over the models, inside [with open(output_file, ...)]. *)
Definition write_model_row (output_file : string) (_ : nat) (model : json) (_ : unit)
  : Script unit :=
  row ← of_result (model_row model);
  writerow output_file row.

Definition write_model_rows (output_file : string) (data : list json) : Script unit :=
  for_each (write_model_row output_file) 0 data ().

Definition convert_json_to_csv (env : os_env) (input_file output_file : string) : Script bool :=
  try_except
    (data ← of_result (json_load env input_file);
     match data with
     | JList data =>
         _ ← os_makedirs env (dirname output_file);
         _ ← open_write env output_file (CsvRows []);
         _ ← writerow output_file [JStr "name"; JStr "description"; JStr "system_prompt"];
         _ ← write_model_rows output_file data;
         _ ← print (Converted input_file output_file);
         mret true
     | _ =>
         _ ← print (ExpectedArray (type_name data));
         mret false
     end)
    (λ e,
       match e with
       | JSONDecodeError => _ ← print (NotValidJson input_file); mret false
       | _ => _ ← print (ErrorLine e); mret false
       end).

(** [main] of [json_to_csv.py]: the exit status. *)
Definition json_to_csv_main (env : os_env) (workspace_dir timestamp : string) : Script nat :=
  let input_file := path_join workspace_dir ["workspace"; "input"; "input.json"] in
  let output_file :=
    path_join workspace_dir ["workspace"; "output"; timestamp +:+ "_models.csv"] in
  if negb (isfile env input_file) then
    _ ← print (InputNotFound input_file);
    _ ← print PlaceInput;
    mret 1
  else
    converted ← convert_json_to_csv env input_file output_file;
    if converted : bool then
      _ ← print (ConversionSaved output_file);
      mret 0
    else mret 1.

(** The three values the scripts take from a record, as the window's
    extraction resolves them. *)
Definition simplified_of (item : json) : dict :=
  [("name", resolved item "name");
   ("system_prompt", resolved item "info.params.system");
   ("description", resolved item "info.meta.description")].

Definition row_of (item : json) : list json := map (resolved item) primary_fields.

(** The items [simplify_json] keeps. *)
Definition kept_items (filter_personal : bool) (data : list json) : list json :=
  if filter_personal
  then filter (λ item, SimplifyJson.contains_personal_info item personal_terms = false) data
  else data.

Definition is_dict (v : json) : Prop := ∃ d, v = JObj d.

(** A directory with an array of two records to read, one of them with
    personal information, where everything can be written; and a console
    where nothing has happened yet. *)
Definition sample_env : os_env :=
  OsEnv
    (λ _, Ok (JList [JObj [("name", JStr "A"); ("id", JStr "a1")];
                     JObj [("name", JStr "Daniel")]]))
    (λ _, true) (λ _, false).

Definition empty_console : console := Console ∅ ∅ [].

(** The header row of [json_to_csv.py]. *)
Definition script_header : list json :=
  [JStr "name"; JStr "description"; JStr "system_prompt"].

(** *** [scripts/model_extractor.py] *)

(** [str.isspace] for one code point, and [str.strip()]. *)
Definition is_space (c : ascii) : bool :=
  Py.between 9 13 c || Py.between 28 32 c || (Py.code c =? 133)%N || (Py.code c =? 160)%N.

Fixpoint lstrip (s : string) : string :=
  match s with
  | String c s' => if is_space c then lstrip s' else s
  | EmptyString => EmptyString
  end.

Fixpoint rstrip (s : string) : string :=
  match s with
  | EmptyString => EmptyString
  | String c s' =>
      match rstrip s' with
      | EmptyString => if is_space c then EmptyString else String c EmptyString
      | rest => String c rest
      end
  end.

Definition strip (s : string) : string := rstrip (lstrip s).

(** [value.strip()]: only a string has [strip]. *)
Definition py_strip (value : json) : result json :=
  match value with
  | JStr s => Ok (JStr (strip s))
  | _ => Raise AttributeError
  end.

(** The truth value of a JSON value, as [if value:] takes it. *)
Definition py_bool (value : json) : bool :=
  match value with
  | JNull => false
  | JBool b => b
  | JInt n => negb (n =? 0)%Z
  | JStr s => negb (bool_decide (s = ""))
  | JList l => negb (bool_decide (l = []))
  | JObj d => negb (bool_decide (d = []))
  end.

(** [len(value)] *)
Definition py_len (value : json) : result nat :=
  match value with
  | JStr s => Ok (String.length s)
  | JList l => Ok (length l)
  | JObj d => Ok (length d)
  | _ => Raise TypeError
  end.

(** [s * n] *)
Fixpoint repeat_string (s : string) (n : nat) : string :=
  match n with
  | O => ""
  | S n' => s +:+ repeat_string s n'
  end.

(** [model[key]] *)
Definition subscript (model : dict) (key : string) : result json :=
  match dict_get model key with
  | Some v => Ok v
  | None => Raise (KeyError key)
  end.

(** The dictionary [extract_model_data] builds for one model. *)
Definition model_data (model : json) : result dict :=
  match model with
  | JObj d =>
      match py_strip (dict_get_or d "name" (JStr "")) with
      | Raise e => Raise e
      | Ok name =>
          let model_data :=
            [("name", name);
             ("description", JStr "");
             ("system_prompt", JStr "");
             ("link", JStr ("openwebui://model/" +:+ py_str (dict_get_or d "id" (JStr ""))))] in
          match dict_get d "info" with
          | Some (JObj info) =>
              let model_data :=
                match dict_get info "meta" with
                | Some (JObj meta) =>
                    dict_set model_data "description"
                      (dict_get_or meta "description" (JStr ""))
                | _ => model_data
                end in
              let model_data :=
                match dict_get info "params" with
                | Some (JObj params) =>
                    dict_set model_data "system_prompt"
                      (dict_get_or params "system" (JStr ""))
                | _ => model_data
                end in
              Ok model_data
          | _ => Ok model_data
          end
      end
  | _ => Raise AttributeError
  end.

Definition extract_step (_ : nat) (model : json) (models : list dict) : Script (list dict) :=
  model_data ← of_result (model_data model);
  mret (models ++ [model_data]).

(** [extract_model_data]: the models, or [None]. *)
Definition extract_model_data (env : os_env) (input_file : string)
  : Script (option (list dict)) :=
  try_except
    (data ← of_result (json_load env input_file);
     match data with
     | JList data =>
         models ← for_each extract_step 0 data [];
         _ ← print (ExtractedModels (length models));
         mret (Some models)
     | _ =>
         _ ← print (ExpectedArray (type_name data));
         mret None
     end)
    (λ e,
       match e with
       | JSONDecodeError => _ ← print (NotValidJson input_file); mret None
       | _ => _ ← print (ErrorExtracting e); mret None
       end).

(** [create_output_directory] *)
Definition create_output_directory (env : os_env) (base_dir timestamp : string)
  : Script string :=
  let output_dir := path_join base_dir ["outputs"; timestamp] in
  _ ← os_makedirs env output_dir;
  _ ← print (CreatedOutputDirectory output_dir);
  mret output_dir.

(** [save_as_csv] *)
Definition save_csv_row (output_file : string) (_ : nat) (model : dict) (_ : unit)
  : Script unit :=
  name ← of_result (subscript model "name");
  description ← of_result (subscript model "description");
  system_prompt ← of_result (subscript model "system_prompt");
  link ← of_result (subscript model "link");
  writerow output_file [name; description; system_prompt; link].

Definition save_as_csv (env : os_env) (models : list dict) (output_file : string)
  : Script bool :=
  try_except
    (_ ← open_write env output_file (CsvRows []);
     _ ← writerow output_file
           [JStr "name"; JStr "description"; JStr "system_prompt"; JStr "link"];
     _ ← for_each (save_csv_row output_file) 0 models ();
     _ ← print (SavedAs "CSV" output_file);
     mret true)
    (λ e, _ ← print (ErrorSaving "CSV" e); mret false).

(** [save_as_simplified_json] *)
Definition save_as_simplified_json (env : os_env) (models : list dict) (output_file : string)
  : Script bool :=
  try_except
    (_ ← open_write env output_file (JsonText (json_dumps models));
     _ ← print (SavedAs "simplified JSON" output_file);
     mret true)
    (λ e, _ ← print (ErrorSaving "simplified JSON" e); mret false).

(** [save_as_markdown] *)
Definition save_markdown_section (output_file : string) (_ : nat) (model : dict) (_ : unit)
  : Script unit :=
  name ← of_result (subscript model "name");
  _ ← write_text output_file ("## " +:+ py_str name +:+ nl +:+ nl);
  description ← of_result (subscript model "description");
  _ ← (if py_bool description
       then
         description ← of_result (subscript model "description");
         write_text output_file (py_str description +:+ nl +:+ nl)
       else mret ());
  name ← of_result (subscript model "name");
  link ← of_result (subscript model "link");
  _ ← write_text output_file
        ("**Link**: [" +:+ py_str name +:+ "](" +:+ py_str link +:+ ")" +:+ nl +:+ nl);
  write_text output_file ("---" +:+ nl +:+ nl).

Definition save_as_markdown (env : os_env) (models : list dict) (output_file : string)
  : Script bool :=
  try_except
    (_ ← open_write env output_file (PlainText "");
     _ ← write_text output_file ("# OpenWebUI Models" +:+ nl +:+ nl);
     _ ← for_each (save_markdown_section output_file) 0 models ();
     _ ← print (SavedAs "Markdown" output_file);
     mret true)
    (λ e, _ ← print (ErrorSaving "Markdown" e); mret false).

(** [save_as_txt] *)
Definition save_txt_section (output_file : string) (_ : nat) (model : dict) (_ : unit)
  : Script unit :=
  name ← of_result (subscript model "name");
  _ ← write_text output_file (py_str name +:+ nl);
  name ← of_result (subscript model "name");
  width ← of_result (py_len name);
  _ ← write_text output_file (repeat_string "=" width +:+ nl +:+ nl);
  description ← of_result (subscript model "description");
  _ ← (if py_bool description
       then
         description ← of_result (subscript model "description");
         write_text output_file (py_str description +:+ nl +:+ nl)
       else mret ());
  link ← of_result (subscript model "link");
  _ ← write_text output_file ("Link: " +:+ py_str link +:+ nl +:+ nl);
  write_text output_file (repeat_string "-" 50 +:+ nl +:+ nl).

Definition save_as_txt (env : os_env) (models : list dict) (output_file : string)
  : Script bool :=
  try_except
    (_ ← open_write env output_file (PlainText "");
     _ ← write_text output_file ("OPENWEBUI MODELS" +:+ nl +:+ nl);
     _ ← for_each (save_txt_section output_file) 0 models ();
     _ ← print (SavedAs "text file" output_file);
     mret true)
    (λ e, _ ← print (ErrorSaving "text file" e); mret false).

(** [main] of [model_extractor.py]: the exit status.  [if not models]
    takes [None] and the empty list alike. *)
Definition model_extractor_main (env : os_env) (base_dir timestamp : string) : Script nat :=
  let input_file := path_join base_dir ["input"; "input.json"] in
  if negb (isfile env input_file) then
    _ ← print (InputNotFound input_file);
    _ ← print PlaceInput;
    mret 1
  else
    output_dir ← create_output_directory env base_dir timestamp;
    models ← extract_model_data env input_file;
    match models with
    | None | Some [] => mret 1
    | Some models =>
        let success := true in
        saved ← save_as_csv env models (path_join output_dir ["models.csv"]);
        let success := success && saved in
        saved ← save_as_simplified_json env models (path_join output_dir ["models.json"]);
        let success := success && saved in
        saved ← save_as_markdown env models (path_join output_dir ["models.md"]);
        let success := success && saved in
        saved ← save_as_txt env models (path_join output_dir ["models.txt"]);
        let success := success && saved in
        if success then
          _ ← print (AllSaved output_dir);
          mret 0
        else
          _ ← print CompletedWithErrors;
          mret 1
    end.

(** A model [extract_model_data] can take: a mapping whose name, when it
    has one, is a string. *)
Definition has_name (model : json) : Prop :=
  is_dict model ∧ ∃ name, resolved model "name" = JStr name.

(** What it makes of such a model. *)
Definition extracted_model (model : json) : dict :=
  [("name", match resolved model "name" with JStr name => JStr (strip name) | v => v end);
   ("description", resolved model "info.meta.description");
   ("system_prompt", resolved model "info.params.system");
   ("link", JStr ("openwebui://model/" +:+ py_str (resolved model "id")))].

(** A dictionary the writers of [model_extractor.py] take without an
    error: the four keys are there and the name is a string. *)
Definition complete_model (model : dict) : Prop :=
  ∃ name description system_prompt link,
    dict_get model "name" = Some (JStr name)
    ∧ dict_get model "description" = Some description
    ∧ dict_get model "system_prompt" = Some system_prompt
    ∧ dict_get model "link" = Some link.

(** What the writers make of one such dictionary. *)
Definition models_header : list json :=
  [JStr "name"; JStr "description"; JStr "system_prompt"; JStr "link"].

Definition models_row (model : dict) : list json :=
  map (λ key, dict_get_or model key JNull) ["name"; "description"; "system_prompt"; "link"].

Definition markdown_section (model : dict) : string :=
  let name := py_str (dict_get_or model "name" JNull) in
  let description := dict_get_or model "description" JNull in
  let link := py_str (dict_get_or model "link" JNull) in
  ("## " +:+ name +:+ nl +:+ nl)
  +:+ (if py_bool description then py_str description +:+ nl +:+ nl else "")
  +:+ ("**Link**: [" +:+ name +:+ "](" +:+ link +:+ ")" +:+ nl +:+ nl)
  +:+ ("---" +:+ nl +:+ nl).

Definition txt_section (model : dict) : string :=
  let name := py_str (dict_get_or model "name" JNull) in
  let description := dict_get_or model "description" JNull in
  let link := py_str (dict_get_or model "link" JNull) in
  (name +:+ nl)
  +:+ (repeat_string "=" (String.length name) +:+ nl +:+ nl)
  +:+ (if py_bool description then py_str description +:+ nl +:+ nl else "")
  +:+ ("Link: " +:+ link +:+ nl +:+ nl)
  +:+ (repeat_string "-" 50 +:+ nl +:+ nl).

Definition sections {A} (section : A → string) (l : list A) : string :=
  foldr (λ x text, section x +:+ text) "" l.

(** A writer that either writes its whole file or, when the file cannot
    be opened, reports the error and writes nothing. *)
Definition save_outcome (env : os_env) (kind output_file : string) (held : content)
    (c : console) : result bool * console :=
  if denied env output_file
  then (Ok false,
        Console (disk c) (folders c) (stdout c ++ [ErrorSaving kind (OSError output_file)]))
  else (Ok true,
        Console (<[output_file := held]> (disk c)) (folders c)
          (stdout c ++ [SavedAs kind output_file])).

(** One complete dictionary, as [extract_model_data] builds them. *)
Definition sample_models : list dict :=
  [[("name", JStr "A"); ("description", JStr "d"); ("system_prompt", JStr "");
    ("link", JStr "openwebui://model/a1")]].



(** * Properties *)
(* ================================================================== *)

(** Induction over a JSON tree with the hypothesis available for every
    element of a sequence and every value of a mapping. *)
Lemma json_ind (P : json → Prop)
    (Hnull : P JNull)
    (Hbool : ∀ b, P (JBool b))
    (Hint : ∀ n, P (JInt n))
    (Hstr : ∀ s, P (JStr s))
    (Hlist : ∀ l, Forall P l → P (JList l))
    (Hobj : ∀ d, Forall (λ kv, P kv.2) d → P (JObj d)) :
  ∀ v, P v.
Proof.
  fix IH 1. intros v. destruct v as [ | b | n | s | l | d ].
  - exact Hnull.
  - exact (Hbool b).
  - exact (Hint n).
  - exact (Hstr s).
  - apply Hlist. induction l as [ | x l IHl ]; constructor.
    + apply IH.
    + exact IHl.
  - apply Hobj. induction d as [ | [k x] d IHd ]; constructor.
    + apply IH.
    + exact IHd.
Qed.

(** *** Field extraction *)

Lemma walk_parts_empty_string rest :
  walk_parts (JStr "") rest = Ok (JStr "") ∨
  walk_parts (JStr "") rest = Raise AttributeError.
Proof. destruct rest; [left | right]; reflexivity. Qed.

Lemma walk_parts_resolves parts : ∀ value,
  match resolves value parts with
  | Some v => walk_parts value parts = Ok v
  | None =>
      walk_parts value parts = Ok (JStr "") ∨
      walk_parts value parts = Raise AttributeError
  end.
Proof.
  induction parts as [ | seg rest IH ]; intros value; [reflexivity | ].
  destruct value as [ | b | n | s | l | d ]; simpl; auto.
  unfold dict_get_or. destruct (dict_get d seg) as [v | ].
  - apply IH.
  - apply walk_parts_empty_string.
Qed.

Lemma extract_field_resolved item field :
  extract_field item field =
    Ok (match resolves item (Py.split "." field) with
        | Some v => v
        | None => JStr ""
        end).
Proof.
  unfold extract_field.
  pose proof (walk_parts_resolves (Py.split "." field) item) as H.
  destruct (resolves item (Py.split "." field)) as [v | ].
  - rewrite H. reflexivity.
  - destruct H as [-> | ->]; reflexivity.
Qed.

(** C3: extracting a field never raises; it returns the value the dotted
    path resolves to, as it is, and the empty string when a segment is
    absent or the value reached is not a mapping. *)
Theorem extract_field_total item field :
  extract_field item field =
    Ok (match resolves item (Py.split "." field) with
        | Some v => v
        | None => JStr ""
        end).
Proof. exact (extract_field_resolved item field). Qed.

(** *** Substrings *)

Lemma append_cons c s t : String c s +:+ t = String c (s +:+ t).
Proof. reflexivity. Qed.

Lemma append_nil t : "" +:+ t = t.
Proof. reflexivity. Qed.

Lemma prefix_true t s : String.prefix t s = true ↔ ∃ post, s = t +:+ post.
Proof.
  revert s. induction t as [ | a t IH ]; intros s.
  - destruct s; simpl; split; eauto.
  - destruct s as [ | b s ]; simpl.
    + split; [discriminate | intros [post H]; discriminate].
    + destruct (ascii_dec a b) as [-> | Hne].
      * rewrite IH. setoid_rewrite append_cons.
        split; intros [post H]; exists post; congruence.
      * split; [discriminate | intros [post H]; rewrite append_cons in H; congruence].
Qed.

Lemma contains_true t s : Py.contains t s = true ↔ substring_of t s.
Proof.
  unfold substring_of. induction s as [ | c s IH ].
  - cbn [Py.contains]. rewrite orb_false_r, prefix_true. split.
    + intros [post H]. exists "", post. exact H.
    + intros ([ | ? ?] & post & H); [eauto | discriminate].
  - cbn [Py.contains]. rewrite orb_true_iff, prefix_true, IH. split.
    + intros [[post H] | (pre & post & H)].
      * exists "", post. exact H.
      * exists (String c pre), post. rewrite append_cons. congruence.
    + intros ([ | c' pre] & post & H).
      * left. eauto.
      * right. exists pre, post. rewrite append_cons in H. congruence.
Qed.

Lemma any_term_in_true terms s :
  any_term_in terms s = true ↔ ∃ t, t ∈ terms ∧ substring_of t s.
Proof.
  unfold any_term_in. rewrite existsb_exists.
  setoid_rewrite contains_true. setoid_rewrite <- list_elem_of_In. reflexivity.
Qed.

Lemma contains_personal_info_leaf_match terms obj :
  contains_personal_info obj terms = true ↔ leaf_match terms obj.
Proof.
  unfold leaf_match.
  induction obj as [ | b | n | s | l IH | d IH ] using json_ind.
  - simpl. split; [discriminate | ]. intros (s & t & H & _). inversion H.
  - simpl. split; [discriminate | ]. intros (s & t & H & _). inversion H.
  - simpl. split; [discriminate | ]. intros (s & t & H & _). inversion H.
  - simpl. rewrite any_term_in_true. split.
    + intros (t & Ht & Hs). exists s, t. split; [left | ]; auto.
    + intros (s' & t & Hs' & Ht & Hsub). apply list_elem_of_singleton in Hs'.
      subst. eauto.
  - cbn [contains_personal_info string_leaves].
    induction IH as [ | x l Hx _ IHl ].
    + simpl. split; [discriminate | ]. intros (s & t & H & _). inversion H.
    + cbn [map concat].
      destruct (contains_personal_info x terms) eqn:Ex.
      * split; [intros _ | reflexivity].
        destruct Hx as [Hx _]. destruct (Hx eq_refl) as (s & t & ? & ? & ?).
        exists s, t. rewrite elem_of_app. auto.
      * rewrite IHl. split.
        -- intros (s & t & ? & ? & ?). exists s, t. rewrite elem_of_app. auto.
        -- intros (s & t & Hs & Ht & Hsub). apply elem_of_app in Hs as [Hs | Hs].
           ++ destruct Hx as [_ Hx]. discriminate Hx. eauto.
           ++ eauto.
  - cbn [contains_personal_info string_leaves].
    induction IH as [ | [k x] d Hx _ IHd ].
    + simpl. split; [discriminate | ]. intros (s & t & H & _). inversion H.
    + cbn [map concat snd]. simpl in Hx.
      assert (Hhere : (∃ s t, s ∈ string_leaves x ∧ t ∈ terms ∧ substring_of t s) →
                ∃ s t, s ∈ string_leaves x ++ concat (map (λ kv, string_leaves kv.2) d)
                       ∧ t ∈ terms ∧ substring_of t s).
      { intros (s & t & ? & ? & ?). exists s, t. rewrite elem_of_app. auto. }
      assert (Hlater : ¬ (∃ s t, s ∈ string_leaves x ∧ t ∈ terms ∧ substring_of t s) →
                ((∃ s t, s ∈ concat (map (λ kv, string_leaves kv.2) d)
                       ∧ t ∈ terms ∧ substring_of t s) ↔
                ∃ s t, s ∈ string_leaves x ++ concat (map (λ kv, string_leaves kv.2) d)
                       ∧ t ∈ terms ∧ substring_of t s)).
      { intros Hno. split.
        - intros (s & t & ? & ? & ?). exists s, t. rewrite elem_of_app. auto.
        - intros (s & t & Hs & Ht & Hsub). apply elem_of_app in Hs as [Hs | Hs].
          + destruct Hno. eauto.
          + eauto. }
      assert (Hnoleaf : string_leaves x = [] →
                ¬ (∃ s t, s ∈ string_leaves x ∧ t ∈ terms ∧ substring_of t s)).
      { intros E (s & t & Hs & _). rewrite E in Hs. inversion Hs. }
      destruct x as [ | b | n | s | l | d' ].
      * rewrite IHd. apply Hlater, Hnoleaf. reflexivity.
      * rewrite IHd. apply Hlater, Hnoleaf. reflexivity.
      * rewrite IHd. apply Hlater, Hnoleaf. reflexivity.
      * destruct (any_term_in terms s) eqn:E.
        -- split; [intros _ | reflexivity]. apply Hhere, Hx. exact E.
        -- rewrite IHd. apply Hlater. rewrite <- Hx. simpl. rewrite E. discriminate.
      * destruct (contains_personal_info (JList l) terms) eqn:E.
        -- split; [intros _ | reflexivity]. apply Hhere, Hx. reflexivity.
        -- rewrite IHd. apply Hlater. rewrite <- Hx. discriminate.
      * destruct (contains_personal_info (JObj d') terms) eqn:E.
        -- split; [intros _ | reflexivity]. apply Hhere, Hx. reflexivity.
        -- rewrite IHd. apply Hlater. rewrite <- Hx. discriminate.
Qed.

Lemma simplify_json_same_predicate terms obj :
  SimplifyJson.contains_personal_info obj terms = contains_personal_info obj terms.
Proof.
  reflexivity.
Qed.

(** C4: [contains_personal_info], in the window's code and in the
    script's copy, is true exactly when some string leaf of the record
    contains some term as a substring, case taken as it is; for no terms
    it is false, and a record without a string leaf never matches. *)
Theorem personal_info_predicate record terms :
  (contains_personal_info record terms = true ↔
     ∃ s t, s ∈ string_leaves record ∧ t ∈ terms ∧ substring_of t s)
  ∧ (SimplifyJson.contains_personal_info record terms = true ↔
     ∃ s t, s ∈ string_leaves record ∧ t ∈ terms ∧ substring_of t s)
  ∧ contains_personal_info record [] = false
  ∧ SimplifyJson.contains_personal_info record [] = false
  ∧ (string_leaves record = [] → contains_personal_info record terms = false).
Proof.
  assert (Hiff := contains_personal_info_leaf_match).
  unfold leaf_match in Hiff.
  assert (Hnone : ∀ ts, (¬ ∃ s t, s ∈ string_leaves record ∧ t ∈ ts ∧ substring_of t s) →
            contains_personal_info record ts = false).
  { intros ts Hno. destruct (contains_personal_info record ts) eqn:E; [ | reflexivity].
    destruct Hno. apply Hiff. exact E. }
  assert (Hempty : contains_personal_info record [] = false).
  { apply Hnone. intros (s & t & _ & Ht & _). inversion Ht. }
  split; [apply Hiff | ]. split; [rewrite simplify_json_same_predicate; apply Hiff | ].
  split; [exact Hempty | ]. split; [rewrite simplify_json_same_predicate; exact Hempty | ].
  intros E. apply Hnone. intros (s & t & Hs & _). rewrite E in Hs. inversion Hs.
Qed.

(** *** File names *)

Lemma replace_one_char a b s :
  Py.replace (String a "") (String b "") s =
  map_chars (λ c, if Ascii.eqb c a then b else c) s.
Proof.
  unfold Py.replace. induction s as [ | c s IH ]; [reflexivity | ].
  cbn [Py.replace_from map_chars String.prefix String.length Nat.sub].
  rewrite IH. destruct (ascii_dec a c) as [-> | Hne].
  - rewrite Ascii.eqb_refl. destruct s; reflexivity.
  - apply not_eq_sym in Hne. apply Ascii.eqb_neq in Hne. rewrite Hne. reflexivity.
Qed.

Lemma map_chars_compose f g s : map_chars g (map_chars f s) = map_chars (λ c, g (f c)) s.
Proof. induction s as [ | c s IH ]; simpl; [ | rewrite IH]; reflexivity. Qed.

Lemma map_chars_ext f g s : (∀ c, f c = g c) → map_chars f s = map_chars g s.
Proof. intros H. induction s as [ | c s IH ]; simpl; [ | rewrite H, IH]; reflexivity. Qed.

Lemma lower_map_chars s : Py.lower s = map_chars Py.lower_char s.
Proof. induction s as [ | c s IH ]; simpl; [ | rewrite IH]; reflexivity. Qed.

Lemma separator_to_dash_steps c :
  (let c1 := if Ascii.eqb c " " then "-"%char else c in
   let c2 := if Ascii.eqb c1 "/" then "-"%char else c1 in
   if Ascii.eqb c2 "\" then "-"%char else c2) = separator_to_dash c.
Proof.
  destruct c as [[] [] [] [] [] [] [] []]; vm_compute; reflexivity.
Qed.

(** C5 as stated fails: the name [GPT 4 / Test] does not give
    [gpt-4-test.md]. *)
Lemma make_filename_gpt4_not_collapsed :
  make_filename "GPT 4 / Test" ≠ "gpt-4-test.md".
Proof. vm_compute. discriminate. Qed.

(** C5, amended: the name [GPT 4 / Test] gives [gpt-4---test.md]; for
    every name, the name is lowercased, each space, slash and backslash
    becomes a dash, one for one, every character that [str.isalnum]
    rejects and that is neither a dash nor an underscore is dropped, and
    [.md] is appended. *)
Theorem make_filename_derivation :
  make_filename "GPT 4 / Test" = "gpt-4---test.md"
  ∧ ∀ model_name,
      make_filename model_name =
      Py.join_if (λ c, Py.isalnum c || bool_decide (c = "-"%char) || bool_decide (c = "_"%char))
        (map_chars separator_to_dash (Py.lower model_name)) +:+ ".md".
Proof.
  split; [vm_compute; reflexivity | ].
  intros model_name. unfold make_filename.
  rewrite !replace_one_char, !map_chars_compose. f_equal.
  rewrite (map_chars_ext _ separator_to_dash) by apply separator_to_dash_steps.
  generalize (map_chars separator_to_dash (Py.lower model_name)). intros s.
  induction s as [ | c s IH ]; [reflexivity | ].
  simpl. rewrite IH.
  replace (keep_in_filename c) with
    (Py.isalnum c || bool_decide (c = "-"%char) || bool_decide (c = "_"%char)); [reflexivity | ].
  unfold keep_in_filename. rewrite <- orb_assoc. f_equal.
  destruct c as [[] [] [] [] [] [] [] []]; vm_compute; reflexivity.
Qed.
(** *** The order on strings *)

Lemma ascii_compare_lt a b : Ascii.compare a b = Lt ↔ (N_of_ascii a < N_of_ascii b)%N.
Proof. unfold Ascii.compare. apply N.compare_lt_iff. Qed.

Lemma ascii_compare_eq a b : Ascii.compare a b = Eq ↔ a = b.
Proof.
  split; [apply Ascii.compare_eq_iff | ].
  intros ->. unfold Ascii.compare. apply N.compare_refl.
Qed.

Lemma string_compare_lt_trans s1 : ∀ s2 s3,
  String.compare s1 s2 = Lt → String.compare s2 s3 = Lt → String.compare s1 s3 = Lt.
Proof.
  induction s1 as [ | a s1 IH ]; intros [ | b s2 ] [ | c s3 ]; simpl; try congruence.
  destruct (Ascii.compare a b) eqn:Eab; try discriminate;
    destruct (Ascii.compare b c) eqn:Ebc; try discriminate; intros H1 H2.
  - apply ascii_compare_eq in Eab, Ebc. subst.
    replace (Ascii.compare c c) with Eq by (symmetry; by apply ascii_compare_eq).
    eauto.
  - apply ascii_compare_eq in Eab. subst. rewrite Ebc. reflexivity.
  - apply ascii_compare_eq in Ebc. subst. rewrite Eab. reflexivity.
  - apply ascii_compare_lt in Eab. apply ascii_compare_lt in Ebc.
    replace (Ascii.compare a c) with Lt; [reflexivity | ].
    symmetry. apply ascii_compare_lt. by etrans.
Qed.

Lemma string_compare_refl s : String.compare s s = Eq.
Proof.
  induction s as [ | a s IH ]; simpl; [reflexivity | ].
  replace (Ascii.compare a a) with Eq by (symmetry; by apply ascii_compare_eq). exact IH.
Qed.

Lemma le_lt_or_eq s1 s2 : Py.le s1 s2 ↔ Py.lt s1 s2 ∨ s1 = s2.
Proof.
  unfold Py.le, Py.lt, String.leb, String.ltb. split.
  - destruct (String.compare s1 s2) eqn:E; try discriminate; auto.
    right. by apply String.compare_eq_iff.
  - intros [H | ->]; [ | by rewrite string_compare_refl].
    destruct (String.compare s1 s2); congruence.
Qed.

Lemma lt_irrefl s : ¬ Py.lt s s.
Proof. unfold Py.lt, String.ltb. rewrite string_compare_refl. discriminate. Qed.

#[global] Instance le_trans : Transitive Py.le.
Proof.
  intros s1 s2 s3 [H12 | ->]%le_lt_or_eq [H23 | ->]%le_lt_or_eq;
    apply le_lt_or_eq; auto.
  left. unfold Py.lt, String.ltb in *.
  destruct (String.compare s1 s2) eqn:E1; try discriminate.
  destruct (String.compare s2 s3) eqn:E2; try discriminate.
  by rewrite (string_compare_lt_trans _ _ _ E1 E2).
Qed.

#[global] Instance le_total : Total Py.le.
Proof. intros s1 s2. apply String.leb_total. Qed.

#[global] Instance le_antisym : AntiSymm (=) Py.le.
Proof. intros s1 s2. apply String.leb_antisym. Qed.

Lemma strongly_sorted_strict xs :
  StronglySorted Py.le xs → NoDup xs → StronglySorted Py.lt xs.
Proof.
  induction 1 as [ | x xs Hs IH Hall ]; intros Hnd; constructor.
  - apply IH. by inversion Hnd.
  - inversion Hnd as [ | ? ? Hx _ ]; subst.
    rewrite Forall_forall in Hall. apply Forall_forall.
    intros y Hy. pose proof (Hall y Hy) as Hle.
    apply le_lt_or_eq in Hle as [Hlt | ->]; [exact Hlt | ]. by destruct Hx.
Qed.

Lemma sorted_strictly l :
  NoDup l → StronglySorted Py.lt (Py.sorted l) ∧ ∀ k, k ∈ Py.sorted l ↔ k ∈ l.
Proof.
  intros Hnd. unfold Py.sorted.
  pose proof (merge_sort_Permutation Py.le l) as Hperm.
  split; [ | intros k; by rewrite Hperm].
  apply strongly_sorted_strict; [apply StronglySorted_merge_sort; apply _ | by rewrite Hperm].
Qed.
Set Warnings "-clear-no-such-hyp".

(** *** Column order *)

Lemma elem_of_key_union k data :
  k ∈ key_union data ↔ ∃ item, item ∈ data ∧ k ∈ dict_keys item.
Proof.
  unfold key_union. rewrite elem_of_union_list. split.
  - intros (X & HX & Hk). apply list_elem_of_fmap in HX as (item & -> & Hitem).
    exists item. split; [done | ]. by apply elem_of_list_to_set in Hk.
  - intros (item & Hitem & Hk). exists (list_to_set (dict_keys item)). split.
    + apply list_elem_of_fmap. eauto.
    + by apply elem_of_list_to_set.
Qed.

Lemma collect_keys data : ∀ acc : gset string,
  fold_left (λ all_keys item, all_keys ∪ list_to_set (dict_keys item)) data acc
  = acc ∪ key_union data.
Proof.
  unfold key_union. induction data as [ | item data IH ]; intros acc.
  - cbn [fold_left map]. rewrite union_list_nil. by rewrite union_empty_r_L.
  - cbn [fold_left map]. rewrite IH, union_list_cons. apply leibniz_equiv. set_solver.
Qed.

Lemma filter_ext_elem_of {A} (P Q : A → Prop) `{∀ x, Decision (P x)} `{∀ x, Decision (Q x)}
    (l : list A) :
  (∀ x, x ∈ l → (P x ↔ Q x)) → filter P l = filter Q l.
Proof.
  induction l as [ | x l IH ]; intros Hl; [reflexivity | ].
  rewrite !filter_cons.
  rewrite IH by (intros y Hy; apply Hl; by right).
  destruct (decide (P x)) as [HP | HP], (decide (Q x)) as [HQ | HQ];
    try reflexivity; exfalso; apply (Hl x) in HP || apply (Hl x) in HQ;
    try (by left); contradiction.
Qed.

Lemma primary_first (ps : list string) : ∀ (acc : list string) (keys : gset string),
  NoDup ps →
  fold_left
    (λ '(fieldnames, all_keys) field,
       if bool_decide (field ∈ all_keys)
       then (fieldnames ++ [field], all_keys ∖ {[field]})
       else (fieldnames, all_keys))
    ps (acc, keys)
  = (acc ++ filter (λ f, f ∈ keys) ps, keys ∖ list_to_set ps).
Proof.
  induction ps as [ | p ps IH ]; intros acc keys Hnd.
  - simpl. rewrite app_nil_r. f_equal. set_solver.
  - apply NoDup_cons in Hnd as [Hp Hnd]. cbn [fold_left].
    rewrite filter_cons. destruct (decide (p ∈ keys)) as [Hin | Hin].
    + rewrite bool_decide_eq_true_2 by done. rewrite IH by done. f_equal.
      * rewrite <- app_assoc. simpl. f_equal. f_equal.
        apply filter_ext_elem_of. intros f Hf. set_solver.
      * set_solver.
    + rewrite bool_decide_eq_false_2 by done. rewrite IH by done. f_equal. set_solver.
Qed.

Lemma primary_fields_nodup : NoDup primary_fields.
Proof.
  unfold primary_fields.
  repeat (apply NoDup_cons; split; [rewrite ?elem_of_cons, ?elem_of_nil; naive_solver | ]).
  apply NoDup_nil_2.
Qed.

Lemma csv_fieldnames_eq data :
  csv_fieldnames data =
  filter (λ f, f ∈ key_union data) primary_fields
  ++ Py.sorted (elements (key_union data ∖ list_to_set primary_fields)).
Proof.
  unfold csv_fieldnames. rewrite collect_keys, union_empty_l_L.
  rewrite (primary_first primary_fields [] _ primary_fields_nodup). reflexivity.
Qed.

Lemma header_row_map fieldnames : csv_header_row fieldnames = map header_name fieldnames.
Proof.
  unfold csv_header_row.
  assert (H : ∀ acc, fold_left (λ header_row field, header_row ++ [header_name field])
                       fieldnames acc = acc ++ map header_name fieldnames).
  { induction fieldnames as [ | f fs IH ]; intros acc; simpl.
    - by rewrite app_nil_r.
    - rewrite IH. by rewrite <- app_assoc. }
  apply H.
Qed.

Lemma header_name_unregistered k : k ∉ primary_fields → header_name k = k.
Proof.
  intros Hk. unfold header_name, header_mapping. cbn [dict_get].
  unfold primary_fields in Hk. rewrite !not_elem_of_cons in Hk.
  destruct Hk as (H1 & H2 & H3 & _).
  repeat match goal with
         | |- context [String.eqb ?a k] =>
             destruct (String.eqb_spec a k) as [E | _]; [by subst | ]
         end.
  reflexivity.
Qed.

(** C1: the columns of a list of projected items are the primary fields
    that occur among the items' keys, in the order of the primary list,
    followed by the remaining keys in strictly increasing lexicographic
    order; the header of a column is its registered display name, and the
    key itself when none is registered. *)
Theorem column_order (data : list dict) :
  ∃ rest,
    csv_fieldnames data = filter (λ f, f ∈ key_union data) primary_fields ++ rest
    ∧ StronglySorted Py.lt rest
    ∧ (∀ k, k ∈ rest ↔ k ∈ key_union data ∧ k ∉ primary_fields)
    ∧ csv_header_row (csv_fieldnames data) = map header_name (csv_fieldnames data)
    ∧ header_name "name" = "name"
    ∧ header_name "info.meta.description" = "description"
    ∧ header_name "info.params.system" = "system_prompt"
    ∧ (∀ k, k ∉ primary_fields → header_name k = k).
Proof.
  exists (Py.sorted (elements (key_union data ∖ list_to_set primary_fields))).
  destruct (sorted_strictly (elements (key_union data ∖ list_to_set primary_fields)))
    as [Hsorted Hmem]; [apply NoDup_elements | ].
  split; [apply csv_fieldnames_eq | ]. split; [exact Hsorted | ].
  split.
  { intros k. rewrite Hmem, elem_of_elements, elem_of_difference, elem_of_list_to_set.
    reflexivity. }
  split; [apply header_row_map | ].
  repeat (split; [reflexivity | ]). apply header_name_unregistered.
Qed.

(** *** The frame pandas builds *)

Lemma frame_columns_step keys : ∀ (columns : list string) k,
  k ∈ fold_left
        (λ columns key, if bool_decide (key ∈ columns) then columns else columns ++ [key])
        keys columns
  ↔ k ∈ columns ∨ k ∈ keys.
Proof.
  induction keys as [ | key keys IH ]; intros columns k; cbn [fold_left].
  - rewrite elem_of_nil. tauto.
  - rewrite IH, elem_of_cons. case_bool_decide as Hin.
    + split; [tauto | ]. intros [? | [-> | ?]]; auto.
    + rewrite elem_of_app, list_elem_of_singleton. tauto.
Qed.

Lemma frame_columns data k :
  k ∈ df_columns (frame_of_dicts data) ↔ k ∈ key_union data.
Proof.
  unfold frame_of_dicts. cbn [df_columns].
  assert (H : ∀ acc,
            k ∈ fold_left
                  (λ columns item,
                     fold_left
                       (λ columns key,
                          if bool_decide (key ∈ columns) then columns else columns ++ [key])
                       (dict_keys item) columns)
                  data acc
            ↔ k ∈ acc ∨ k ∈ key_union data).
  { induction data as [ | item data IH ]; intros acc; cbn [fold_left].
    - unfold key_union. cbn [map]. rewrite union_list_nil, elem_of_empty. tauto.
    - rewrite IH, frame_columns_step. unfold key_union. cbn [map].
      rewrite union_list_cons, elem_of_union, elem_of_list_to_set. tauto. }
  rewrite H, elem_of_nil. tauto.
Qed.

Lemma csv_fieldnames_in_union data k : k ∈ csv_fieldnames data → k ∈ key_union data.
Proof.
  rewrite csv_fieldnames_eq, elem_of_app, list_elem_of_filter.
  intros [[? _] | Hk]; [done | ].
  unfold Py.sorted in Hk. rewrite merge_sort_Permutation in Hk.
  apply elem_of_elements, elem_of_difference in Hk. tauto.
Qed.

Lemma excel_ordered_columns_eq data : excel_ordered_columns data = csv_fieldnames data.
Proof.
  unfold excel_ordered_columns.
  change (excel_fieldnames data) with (csv_fieldnames data).
  pose proof (csv_fieldnames_in_union data) as Hin.
  induction (csv_fieldnames data) as [ | f fs IH ]; [reflexivity | ].
  rewrite filter_cons_True.
  - f_equal. apply IH. intros k Hk. apply Hin. by right.
  - apply frame_columns, Hin. by left.
Qed.

Lemma rename_dict_get (cols : list string) col :
  col ∈ cols →
  dict_get (map (λ c, (c, header_name c)) cols) col = Some (header_name col).
Proof.
  induction cols as [ | f fs IH ]; intros Hin; [by apply elem_of_nil in Hin | ].
  cbn [map dict_get]. destruct (String.eqb_spec f col) as [-> | Hne]; [reflexivity | ].
  apply IH. apply elem_of_cons in Hin as [-> | ?]; [done | assumption].
Qed.

Lemma excel_content_header (data : list dict) :
  ∃ rows,
    excel_content data
    = Workbook (DataFrame (csv_header_row (csv_fieldnames data)) rows).
Proof.
  unfold excel_content, frame_rename, frame_select. cbn [df_columns df_rows].
  rewrite excel_ordered_columns_eq. eexists. f_equal. f_equal.
  rewrite header_row_map. apply map_ext_in. intros col Hcol.
  rewrite rename_dict_get; [reflexivity | by apply list_elem_of_In].
Qed.

(** C2: the CSV, the Excel and the Markdown renderer compute the same
    sequence of columns and the same row of headers. *)
Theorem renderers_agree_on_columns (data : list dict) :
  markdown_headers data = csv_fieldnames data
  ∧ excel_ordered_columns data = csv_fieldnames data
  ∧ markdown_header_row (markdown_headers data) = csv_header_row (csv_fieldnames data)
  ∧ ∃ rows,
      excel_content data
      = Workbook (DataFrame (csv_header_row (csv_fieldnames data)) rows).
Proof.
  split; [reflexivity | ]. split; [apply excel_ordered_columns_eq | ].
  split; [reflexivity | ]. apply excel_content_header.
Qed.

(** *** Loops *)

Lemma for_enumerate_fold {A St} (body : nat → A → St → M St) (step : St → A → St) :
  (∀ i x acc w, ∃ w', body i x acc w = (Ok (step acc x), w')) →
  ∀ l i acc w, ∃ w', for_enumerate body i l acc w = (Ok (fold_left step l acc), w').
Proof.
  intros Hbody. induction l as [ | x l IH ]; intros i acc w; cbn [for_enumerate fold_left].
  - eexists. reflexivity.
  - unfold mbind, M_bind. destruct (Hbody i x acc w) as [w1 ->]. apply IH.
Qed.

Lemma fold_left_snoc_map {A B} (f : A → B) (l : list A) : ∀ acc,
  fold_left (λ acc x, acc ++ [f x]) l acc = acc ++ map f l.
Proof.
  induction l as [ | x l IH ]; intros acc; cbn [fold_left map].
  - by rewrite app_nil_r.
  - rewrite IH. by rewrite <- app_assoc.
Qed.

Lemma fold_left_snoc_filter {A} (keep : A → bool) (l : list A) : ∀ acc,
  fold_left (λ acc x, if keep x then acc ++ [x] else acc) l acc
  = acc ++ filter (λ x, keep x = true) l.
Proof.
  induction l as [ | x l IH ]; intros acc; cbn [fold_left].
  - by rewrite app_nil_r.
  - rewrite IH, filter_cons. destruct (keep x) eqn:E.
    + rewrite decide_True by done. by rewrite <- app_assoc.
    + rewrite decide_False by done. reflexivity.
Qed.

Lemma update_status_ok msg p w : ∃ w', update_status msg p w = (Ok (), w').
Proof. eexists. reflexivity. Qed.

Lemma filter_data_result data w :
  ∃ w', filter_data data w
        = (Ok (filter (λ item, negb (contains_personal_info item personal_terms) = true)
                 data), w').
Proof.
  unfold filter_data, mbind, M_bind. cbn [update_status].
  match goal with
  | |- ∃ w', for_enumerate ?body 0 data [] ?w0 = _ =>
      destruct (for_enumerate_fold body
                  (λ acc item, if negb (contains_personal_info item personal_terms)
                               then acc ++ [item] else acc)) with (l := data) (i := 0)
                  (acc := @nil json) (w := w0) as [w' Hw]
  end.
  - intros i x acc w1. unfold mbind, M_bind, mret, M_ret. cbn [update_status].
    eexists. reflexivity.
  - exists w'. rewrite Hw.
    rewrite (fold_left_snoc_filter
               (λ item, negb (contains_personal_info item personal_terms))). reflexivity.
Qed.

Lemma extract_item_projected selected_fields item :
  extract_item selected_fields item = Ok (projected selected_fields item).
Proof.
  unfold extract_item, projected.
  generalize (@nil (string * json)) as d.
  induction selected_fields as [ | field fields IH ]; intros d; cbn [fold_left].
  - reflexivity.
  - rewrite extract_field_resolved. fold (resolved item field). apply IH.
Qed.

Lemma extract_data_result selected_fields data w :
  ∃ w', extract_data selected_fields data w
        = (Ok (map (projected selected_fields) data), w').
Proof.
  unfold extract_data, mbind, M_bind. cbn [update_status].
  match goal with
  | |- ∃ w', for_enumerate ?body 0 data [] ?w0 = _ =>
      destruct (for_enumerate_fold body
                  (λ acc item, acc ++ [projected selected_fields item])) with
        (l := data) (i := 0) (acc := @nil dict) (w := w0) as [w' Hw]
  end.
  - intros i x acc w1. unfold mbind, M_bind, mret, M_ret, lift.
    rewrite extract_item_projected. cbn [update_status]. eexists. reflexivity.
  - exists w'. rewrite Hw.
    rewrite (fold_left_snoc_map (projected selected_fields)). reflexivity.
Qed.

(** *** Rows of the renderers *)

Lemma csv_data_rows_map fieldnames data :
  csv_data_rows fieldnames data
  = map (λ item, map (λ field, dict_get_or item field (JStr "")) fieldnames) data.
Proof.
  unfold csv_data_rows.
  rewrite <- (app_nil_l (map _ data)), <- fold_left_snoc_map.
  induction data as [ | item data IH ] using rev_ind; [reflexivity | ].
  rewrite !fold_left_app. cbn [fold_left]. rewrite IH. do 2 f_equal.
  apply (fold_left_snoc_map (λ field, dict_get_or item field (JStr "")) fieldnames []).
Qed.

Lemma markdown_rows_map headers data :
  markdown_rows headers data
  = map (λ item,
           markdown_line
             (map (λ header, markdown_cell (dict_get_or item header (JStr ""))) headers))
      data.
Proof.
  unfold markdown_rows.
  rewrite <- (app_nil_l (map _ data)), <- fold_left_snoc_map.
  induction data as [ | item data IH ] using rev_ind; [reflexivity | ].
  rewrite !fold_left_app. cbn [fold_left]. rewrite IH. do 3 f_equal.
  apply (fold_left_snoc_map
           (λ header, markdown_cell (dict_get_or item header (JStr ""))) headers []).
Qed.

Lemma frame_cell {A} (item : list (string * A)) (columns : list string) col :
  col ∈ columns →
  mjoin (dict_get (zip columns (map (dict_get item) columns)) col) = dict_get item col.
Proof.
  induction columns as [ | c cs IH ]; intros Hin; [by apply elem_of_nil in Hin | ].
  cbn [map zip zip_with dict_get].
  destruct (String.eqb_spec c col) as [-> | Hne]; [reflexivity | ].
  apply IH. apply elem_of_cons in Hin as [-> | ?]; [done | assumption].
Qed.

Lemma excel_content_rows data :
  excel_content data
  = Workbook
      (DataFrame (map header_name (csv_fieldnames data))
         (map (λ item, map (dict_get item) (csv_fieldnames data)) data)).
Proof.
  destruct (excel_content_header data) as (rows & Hrows).
  rewrite Hrows, header_row_map. do 2 f_equal.
  unfold excel_content, frame_rename, frame_select in Hrows.
  cbn [df_columns df_rows] in Hrows. injection Hrows as _ <-.
  rewrite excel_ordered_columns_eq. unfold frame_of_dicts. cbn [df_rows df_columns].
  rewrite map_map. apply map_ext. intros item. apply map_ext_in. intros col Hcol.
  apply frame_cell. apply frame_columns, csv_fieldnames_in_union. by apply list_elem_of_In.
Qed.

Lemma xml_models_in_order data doc :
  xml_document data = Ok doc →
  ∃ models, doc = Element "models" models
            ∧ Forall2 (λ item m, model_element item = Ok m) data models.
Proof.
  unfold xml_document.
  assert (H : ∀ acc ms,
            fold_left
              (λ models item,
                 match models with
                 | Ok ms =>
                     match model_element item with
                     | Ok m => Ok (ms ++ [m])
                     | Raise e => Raise e
                     end
                 | Raise e => Raise e
                 end) data (Ok acc) = Ok ms →
            ∃ new, ms = acc ++ new
                   ∧ Forall2 (λ item m, model_element item = Ok m) data new).
  { induction data as [ | item data IH ]; intros acc ms; cbn [fold_left].
    - intros [= <-]. exists []. split; [by rewrite app_nil_r | constructor].
    - destruct (model_element item) as [m | e] eqn:Em.
      + intros Hfold. destruct (IH _ _ Hfold) as (new & -> & Hall).
        exists (m :: new). split; [by rewrite <- app_assoc | by constructor].
      + intros Hfold. exfalso. clear -Hfold.
        induction data as [ | x xs IHx ]; cbn [fold_left] in Hfold; [discriminate | auto]. }
  destruct (fold_left _ data (Ok [])) as [ms | e] eqn:E; [ | discriminate].
  intros [= <-]. destruct (H _ _ E) as (new & -> & Hall). eauto.
Qed.

(** C7: given no record, the CSV, the Excel and the Markdown renderer
    raise [ValueError] and leave the files as they were; given at least
    one record, none of them raises [ValueError]. *)
Theorem empty_data_raises_before_writing (r : run) (output_path : string) (w : world) :
  export_to_csv r [] output_path w = (Raise (ValueError "No data to export"), w)
  ∧ export_to_excel r [] output_path w = (Raise (ValueError "No data to export"), w)
  ∧ export_to_markdown r [] output_path w = (Raise (ValueError "No data to export"), w)
  ∧ ∀ item data,
      export_to_csv r (item :: data) output_path w
      = write_file r output_path (csv_content (item :: data)) w
      ∧ export_to_excel r (item :: data) output_path w
        = write_file r output_path (excel_content (item :: data)) w
      ∧ export_to_markdown r (item :: data) output_path w
        = write_file r output_path (markdown_content (generated_on r) (item :: data)) w
      ∧ ∀ msg,
          (export_to_csv r (item :: data) output_path w).1 ≠ Raise (ValueError msg)
          ∧ (export_to_excel r (item :: data) output_path w).1 ≠ Raise (ValueError msg)
          ∧ (export_to_markdown r (item :: data) output_path w).1 ≠ Raise (ValueError msg).
Proof.
  do 3 (split; [reflexivity | ]). intros item data.
  do 3 (split; [reflexivity | ]). intros msg.
  unfold export_to_csv, export_to_excel, export_to_markdown, write_file.
  destruct (refused r output_path); cbn [fst]; repeat split; discriminate.
Qed.

(** C10: filtering keeps the records without a match, in the order of
    the input; extraction gives one projected item per surviving record,
    in that order; each renderer has one row, entry or element per item,
    in the order of the list. *)
Theorem record_order_preserved
    (data : list json) (selected_fields : list string) (w : world)
    (extracted_data : list dict) (columns : list string) :
  let survivors :=
    filter (λ item, negb (contains_personal_info item personal_terms) = true) data in
  (∃ w', filter_data data w = (Ok survivors, w'))
  ∧ sublist survivors data
  ∧ (∃ w', extract_data selected_fields survivors w
           = (Ok (map (projected selected_fields) survivors), w'))
  ∧ csv_data_rows columns extracted_data
    = map (λ item, map (λ field, dict_get_or item field (JStr "")) columns) extracted_data
  ∧ excel_content extracted_data
    = Workbook
        (DataFrame (map header_name (csv_fieldnames extracted_data))
           (map (λ item, map (dict_get item) (csv_fieldnames extracted_data))
              extracted_data))
  ∧ markdown_rows columns extracted_data
    = map (λ item,
             markdown_line
               (map (λ header, markdown_cell (dict_get_or item header (JStr ""))) columns))
        extracted_data
  ∧ json_dumps extracted_data = json_encode 0 (JList (map JObj extracted_data))
  ∧ (∀ r path w0, refused r path = false →
       files (export_to_yaml r extracted_data path w0).2 !! path
       = Some (YamlDoc extracted_data))
  ∧ (∀ doc, xml_document extracted_data = Ok doc →
       ∃ models, doc = Element "models" models
                 ∧ Forall2 (λ item m, model_element item = Ok m) extracted_data models).
Proof.
  intros survivors.
  split; [apply filter_data_result | ].
  split; [apply sublist_filter | ].
  split; [apply extract_data_result | ].
  split; [apply csv_data_rows_map | ].
  split; [apply excel_content_rows | ].
  split; [apply markdown_rows_map | ].
  split; [reflexivity | ].
  split.
  - intros r path w0 Hok. unfold export_to_yaml, write_file. rewrite Hok.
    cbn [snd files]. apply lookup_insert_eq.
  - apply xml_models_in_order.
Qed.

(** *** Progress *)

Lemma segment_nil kind lo hi : (lo <= hi)%Q → segment kind lo hi [].
Proof. intros H. split; [exact H | ]. split; constructor. Qed.

Lemma segment_single kind msg p : kind msg = true → segment kind p p [(msg, p)].
Proof.
  intros Hk. split; [apply Qle_refl | ]. split.
  - repeat constructor.
  - repeat constructor; [exact Hk | apply Qle_refl | apply Qle_refl].
Qed.

Lemma segment_weaken kind lo hi lo' hi' l :
  segment kind lo hi l → (lo' <= lo)%Q → (hi <= hi')%Q → segment kind lo' hi' l.
Proof.
  intros (Hle & Hs & Hall) Hlo Hhi. split; [ | split; [exact Hs | ] ].
  - eapply Qle_trans; [exact Hlo | ]. eapply Qle_trans; eassumption.
  - eapply Forall_impl; [exact Hall | ]. intros mp (? & ? & ?).
    split; [done | ]. split; eapply Qle_trans; eassumption.
Qed.

Lemma sorted_app_bounded (l1 l2 : list Q) b :
  Sorted Qle l1 → Sorted Qle l2 →
  Forall (λ p, (p <= b)%Q) l1 → Forall (λ p, (b <= p)%Q) l2 →
  Sorted Qle (l1 ++ l2).
Proof.
  intros H1 H2 Hb1 Hb2. induction H1 as [ | x l1 Hs IH Hhd ]; [exact H2 | ].
  inversion Hb1 as [ | ? ? Hx Hrest ]; subst. cbn [app]. constructor; [by apply IH | ].
  destruct l1 as [ | y l1 ].
  - destruct l2 as [ | z l2 ]; constructor.
    inversion Hb2; subst. eapply Qle_trans; eassumption.
  - inversion Hhd; subst. by constructor.
Qed.

Lemma segment_app kind a b c d l1 l2 :
  segment kind a b l1 → segment kind c d l2 → (b <= c)%Q → segment kind a d (l1 ++ l2).
Proof.
  intros (Hab & Hs1 & Hall1) (Hcd & Hs2 & Hall2) Hbc.
  assert (Had : (a <= d)%Q).
  { eapply Qle_trans; [exact Hab | ]. eapply Qle_trans; eassumption. }
  split; [exact Had | ]. split.
  - rewrite fmap_app. apply (sorted_app_bounded _ _ b); [done | done | | ].
    + apply Forall_fmap. eapply Forall_impl; [exact Hall1 | ]. intros mp (_ & _ & H). exact H.
    + apply Forall_fmap. eapply Forall_impl; [exact Hall2 | ]. intros mp (_ & H & _).
      eapply Qle_trans; eassumption.
  - apply Forall_app. split.
    + eapply Forall_impl; [exact Hall1 | ]. intros mp (? & ? & ?).
      split; [done | ]. split; [done | ].
      eapply Qle_trans; [eassumption | ]. eapply Qle_trans; eassumption.
    + eapply Forall_impl; [exact Hall2 | ]. intros mp (? & ? & ?).
      split; [done | ]. split; [ | done].
      eapply Qle_trans; [exact Hab | ]. eapply Qle_trans; eassumption.
Qed.

Lemma emits_silent {A} (m : M A) P :
  (∀ w, statuses (m w).2 = statuses w) → P [] → emits m P.
Proof. intros Hm HP w. exists []. by rewrite app_nil_r. Qed.

Lemma emits_ret {A} (a : A) kind p : emits (mret a : M A) (segment kind p p).
Proof. apply emits_silent; [reflexivity | apply segment_nil, Qle_refl]. Qed.

Lemma emits_raise {A} e kind p : emits (raise e : M A) (segment kind p p).
Proof. apply emits_silent; [reflexivity | apply segment_nil, Qle_refl]. Qed.

Lemma emits_lift {A} (x : result A) kind p : emits (lift x) (segment kind p p).
Proof. apply emits_silent; [reflexivity | apply segment_nil, Qle_refl]. Qed.

Lemma emits_show d kind p : emits (show d) (segment kind p p).
Proof. apply emits_silent; [reflexivity | apply segment_nil, Qle_refl]. Qed.

Lemma emits_write_file r path c kind p : emits (write_file r path c) (segment kind p p).
Proof.
  apply emits_silent; [ | apply segment_nil, Qle_refl].
  intros w. unfold write_file. by destruct (refused r path).
Qed.

Lemma emits_makedirs r path kind p : emits (makedirs r path) (segment kind p p).
Proof.
  apply emits_silent; [ | apply segment_nil, Qle_refl].
  intros w. unfold makedirs. by destruct (refused r path).
Qed.

Lemma emits_update_status kind msg p :
  kind msg = true → emits (update_status msg p) (segment kind p p).
Proof. intros Hk w. exists [(msg, p)]. split; [reflexivity | by apply segment_single]. Qed.

Lemma emits_weaken {A} (m : M A) kind lo hi lo' hi' :
  emits m (segment kind lo hi) → (lo' <= lo)%Q → (hi <= hi')%Q →
  emits m (segment kind lo' hi').
Proof.
  intros Hm Hlo Hhi w. destruct (Hm w) as (l & Hl & Hseg).
  exists l. split; [exact Hl | by eapply segment_weaken].
Qed.

(** Sequencing: the second computation runs only if the first returns. *)
Lemma emits_bind_gen {A B} (m : M A) (f : A → M B) (P Q R : list (message * Q) → Prop) :
  emits m P → (∀ x, emits (f x) Q) →
  (∀ l1, P l1 → R l1) → (∀ l1 l2, P l1 → Q l2 → R (l1 ++ l2)) →
  emits (m ≫= f) R.
Proof.
  intros Hm Hf Hstop Hboth w. unfold mbind, M_bind.
  destruct (Hm w) as (l1 & Hl1 & HP). destruct (m w) as [[a | e] w1]; cbn [snd] in *.
  - destruct (Hf a w1) as (l2 & Hl2 & HQ). exists (l1 ++ l2). split.
    + rewrite Hl2, Hl1. by rewrite app_assoc.
    + by apply Hboth.
  - exists l1. split; [exact Hl1 | by apply Hstop].
Qed.

Lemma emits_bind {A B} (m : M A) (f : A → M B) kind a b c d :
  emits m (segment kind a b) → (∀ x, emits (f x) (segment kind c d)) →
  (b <= c)%Q → (c <= d)%Q →
  emits (m ≫= f) (segment kind a d).
Proof.
  intros Hm Hf Hbc Hcd. eapply emits_bind_gen; [exact Hm | exact Hf | | ].
  - intros l1 H1. eapply segment_weaken; [exact H1 | apply Qle_refl | ].
    eapply Qle_trans; eassumption.
  - intros l1 l2 H1 H2. by eapply segment_app.
Qed.

Lemma emits_for {A St} (body : nat → A → St → M St) kind (P : nat → Q) :
  (∀ i, (P i <= P (S i))%Q) →
  (∀ i x acc, emits (body i x acc) (segment kind (P i) (P (S i)))) →
  ∀ l i acc, emits (for_enumerate body i l acc) (segment kind (P i) (P (i + length l))).
Proof.
  intros Hmono Hbody. induction l as [ | x l IH ]; intros i acc; cbn [for_enumerate].
  - rewrite Nat.add_0_r. apply emits_ret.
  - cbn [length]. replace (i + S (length l)) with (S i + length l) by lia.
    eapply emits_bind; [apply Hbody | intros acc'; apply IH | apply Qle_refl | ].
    clear -Hmono. induction (length l) as [ | n IHn ].
    + rewrite Nat.add_0_r. apply Qle_refl.
    + replace (S i + S n) with (S (S i + n)) by lia.
      eapply Qle_trans; [exact IHn | apply Hmono].
Qed.

Lemma progress_at_mono base scale total i :
  (0 <= scale)%Z →
  (progress_at base i scale total <= progress_at base (S i) scale total)%Q.
Proof.
  intros Hs. unfold progress_at. apply Qplus_le_r.
  unfold Qle. cbn [Qnum Qden]. apply Z.mul_le_mono_nonneg_r; [lia | ]. nia.
Qed.

Lemma progress_at_start base scale total :
  (inject_Z base <= progress_at base 0 scale total)%Q.
Proof.
  unfold progress_at. rewrite <- (Qplus_0_r (inject_Z base)) at 1.
  apply Qplus_le_r. unfold Qle. cbn. lia.
Qed.

Lemma progress_at_end base scale i total :
  (0 <= scale)%Z → i ≤ total →
  (progress_at base i scale total <= inject_Z (base + scale))%Q.
Proof.
  intros Hs Hi. unfold progress_at. rewrite inject_Z_plus. apply Qplus_le_r.
  unfold Qle, inject_Z. cbn [Qnum Qden]. rewrite Z.mul_1_r.
  destruct total as [ | n ].
  - assert (i = 0) as -> by lia. cbn. lia.
  - rewrite <- Pos.of_nat_succ, Zpos_P_of_succ_nat. nia.
Qed.

Lemma format_progress_mono total i :
  (format_progress i total <= format_progress (S i) total)%Q.
Proof.
  unfold format_progress. apply Qplus_le_r.
  unfold Qle, Qmult, inject_Z. cbn [Qnum Qden]. nia.
Qed.

Lemma emits_filter_data data : emits (filter_data data) (segment early_message 10 30).
Proof.
  unfold filter_data.
  eapply emits_bind; [by apply emits_update_status | | apply Qle_refl | done].
  intros _.
  eapply emits_weaken;
    [apply (emits_for _ early_message (λ i, progress_at 10 i 20 (length data)))
    | apply progress_at_start
    | apply (progress_at_end 10 20); simpl; lia ].
  - intros i. by apply progress_at_mono.
  - intros i item acc.
    eapply emits_bind; [ | intros; apply emits_ret | apply Qle_refl | apply Qle_refl].
    replace (i + 1) with (S i) by lia.
    eapply emits_weaken; [by apply emits_update_status | | apply Qle_refl].
    by apply progress_at_mono.
Qed.

Lemma emits_extract_data fields data :
  emits (extract_data fields data) (segment early_message 30 70).
Proof.
  unfold extract_data.
  eapply emits_bind; [by apply emits_update_status | | apply Qle_refl | done].
  intros _.
  eapply emits_weaken;
    [apply (emits_for _ early_message (λ i, progress_at 30 i 40 (length data)))
    | apply progress_at_start
    | apply (progress_at_end 30 40); simpl; lia ].
  - intros i. by apply progress_at_mono.
  - intros i item acc.
    eapply emits_bind; [apply emits_lift | | apply Qle_refl | by apply progress_at_mono].
    intros extracted_item.
    eapply emits_bind; [ | intros; apply emits_ret | apply Qle_refl | apply Qle_refl].
    replace (i + 1) with (S i) by lia.
    eapply emits_weaken; [by apply emits_update_status | | apply Qle_refl].
    by apply progress_at_mono.
Qed.

Lemma emits_write_individual_files r extracted_data :
  emits (write_individual_files r extracted_data) (segment late_message 65 70).
Proof.
  unfold write_individual_files.
  eapply emits_bind; [by apply emits_update_status | | apply Qle_refl | done].
  intros _.
  eapply emits_bind; [apply emits_makedirs | | apply Qle_refl | done].
  intros _.
  eapply emits_weaken;
    [apply (emits_for _ late_message (λ i, progress_at 65 i 5 (length extracted_data)))
    | apply progress_at_start
    | apply (progress_at_end 65 5); simpl; lia ].
  - intros i. by apply progress_at_mono.
  - intros i item acc.
    eapply emits_bind; [apply emits_lift | | apply Qle_refl | by apply progress_at_mono].
    intros filename.
    eapply emits_bind; [apply emits_write_file | | apply Qle_refl | by apply progress_at_mono].
    intros _. replace (i + 1) with (S i) by lia.
    eapply emits_weaken; [by apply emits_update_status | | apply Qle_refl].
    by apply progress_at_mono.
Qed.

Lemma emits_ext_of fmt kind p : emits (ext_of fmt) (segment kind p p).
Proof. unfold ext_of. destruct (dict_get format_ext fmt); [apply emits_ret | apply emits_raise]. Qed.

Lemma emits_export_as r fmt data path kind p :
  emits (export_as r fmt data path) (segment kind p p).
Proof.
  apply emits_silent; [ | apply segment_nil, Qle_refl]. intros w.
  unfold export_as, export_to_csv, export_to_json, export_to_excel, export_to_yaml,
    export_to_xml, export_to_markdown, write_file, raise, lift, mbind, M_bind, mret, M_ret.
  repeat match goal with
         | |- context [if String.eqb fmt ?s then _ else _] => destruct (String.eqb fmt s)
         end;
    try destruct data; try destruct (xml_document _);
    try destruct (refused r path); reflexivity.
Qed.

Lemma format_progress_start total : (70 <= format_progress 0 total)%Q.
Proof. unfold format_progress, Qle, Qplus, Qmult, inject_Z. cbn. lia. Qed.

Lemma format_progress_end : (format_progress (length all_formats) (length all_formats) <= 100)%Q.
Proof. vm_compute. discriminate. Qed.

Lemma emits_collect_exts kind p fmts : ∀ i (acc : list string),
  emits (for_enumerate (λ _ fmt exts, ext ← ext_of fmt; mret (exts ++ [ext])) i fmts acc)
    (segment kind p p).
Proof.
  induction fmts as [ | fmt fmts IH ]; intros i acc; cbn [for_enumerate].
  - apply emits_ret.
  - eapply emits_bind; [ | intros; apply IH | apply Qle_refl | apply Qle_refl].
    eapply emits_bind; [apply emits_ext_of | intros; apply emits_ret | apply Qle_refl
                       | apply Qle_refl].
Qed.

Lemma emits_export_all r extracted_data :
  emits (export_all r extracted_data) (segment late_message 70 100).
Proof.
  unfold export_all.
  eapply emits_bind; [ | | apply Qle_refl | apply Qle_refl].
  - eapply emits_weaken;
      [apply (emits_for _ late_message (λ i, format_progress i (length all_formats)))
      | apply format_progress_start | apply format_progress_end ].
    + intros i. apply format_progress_mono.
    + intros i fmt acc.
      eapply emits_bind;
        [by apply emits_update_status | | apply Qle_refl | apply format_progress_mono].
      intros _.
      eapply emits_bind; [apply emits_ext_of | | apply Qle_refl | apply format_progress_mono].
      intros ext.
      eapply emits_bind; [apply emits_export_as | | apply format_progress_mono | apply Qle_refl].
      intros _. replace (i + 1) with (S i) by lia. by apply emits_update_status.
  - intros _.
    eapply emits_bind; [by apply emits_update_status | | apply Qle_refl | apply Qle_refl].
    intros _.
    eapply emits_bind; [ | intros; apply emits_show | apply Qle_refl | apply Qle_refl].
    apply emits_collect_exts.
Qed.

Lemma emits_export_single r extracted_data :
  emits (export_single r extracted_data) (segment late_message 70 100).
Proof.
  unfold export_single.
  eapply emits_bind; [apply emits_ext_of | | apply Qle_refl | done].
  intros ext.
  eapply emits_bind; [by apply emits_update_status | | apply Qle_refl | done].
  intros _.
  eapply (emits_bind _ _ _ 70 70 100 100); [apply emits_export_as | | done | apply Qle_refl].
  intros _.
  eapply emits_bind; [by apply emits_update_status | | apply Qle_refl | apply Qle_refl].
  intros _. apply emits_show.
Qed.

Lemma emits_late_steps r extracted_data :
  emits (_ ← write_individual_files r extracted_data;
         if String.eqb (export_format r) "all"
         then export_all r extracted_data
         else export_single r extracted_data)
    (segment late_message 65 100).
Proof.
  eapply emits_bind; [apply emits_write_individual_files | | apply Qle_refl | done].
  intros _. destruct (String.eqb (export_format r) "all");
    [apply emits_export_all | apply emits_export_single].
Qed.

Lemma emits_early_bind {A B} (m : M A) (f : A → M B) a b c :
  emits m (segment early_message a b) → (b <= c)%Q → (c <= 70)%Q →
  (∀ x, emits (f x) (early_then_late c)) →
  emits (m ≫= f) (early_then_late a).
Proof.
  intros Hm Hbc Hc Hf. eapply emits_bind_gen; [exact Hm | exact Hf | | ].
  - intros l1 H1. exists l1, []. split; [by rewrite app_nil_r | ]. split.
    + eapply segment_weaken; [exact H1 | apply Qle_refl | by eapply Qle_trans].
    + by apply segment_nil.
  - intros l1 l2 H1 (l21 & l22 & -> & H21 & H22).
    exists (l1 ++ l21), l22. split; [by rewrite app_assoc | ]. split; [ | exact H22].
    eapply segment_app; [exact H1 | exact H21 | exact Hbc].
Qed.

Lemma emits_early_last {A B} (m : M A) (f : A → M B) a b :
  emits m (segment early_message a b) → (b <= 70)%Q →
  (∀ x, emits (f x) (segment late_message 65 100)) →
  emits (m ≫= f) (early_then_late a).
Proof.
  intros Hm Hb Hf. eapply emits_bind_gen; [exact Hm | exact Hf | | ].
  - intros l1 H1. exists l1, []. split; [by rewrite app_nil_r | ]. split.
    + eapply segment_weaken; [exact H1 | apply Qle_refl | exact Hb].
    + by apply segment_nil.
  - intros l1 l2 H1 H2. exists l1, l2. split; [reflexivity | ]. split; [ | exact H2].
    eapply segment_weaken; [exact H1 | apply Qle_refl | exact Hb].
Qed.

Lemma emits_export_steps r : emits (export_steps r) (early_then_late 5).
Proof.
  unfold export_steps.
  eapply (emits_early_bind _ _ 5 5 5); [by apply emits_update_status | done | done | ].
  intros _.
  eapply (emits_early_bind _ _ 5 5 5); [apply emits_lift | done | done | ].
  intros data.
  eapply (emits_early_bind _ _ 5 5 5); [ | done | done | ].
  { destruct data; first [apply emits_ret | apply emits_raise]. }
  intros l.
  eapply (emits_early_bind _ _ 5 30 30); [ | done | done | ].
  { destruct (filter_personal r).
    - eapply emits_weaken; [apply emits_filter_data | done | done].
    - eapply emits_weaken; [apply (emits_ret _ _ 5) | done | done]. }
  intros survivors.
  eapply emits_early_last; [apply emits_extract_data | done | ].
  intros extracted_data. apply emits_late_steps.
Qed.

(** C6 as stated fails: a run whose input is not an array reports 5 and
    then, from the error handler, 0. *)
Lemma progress_drops_on_error : ¬ Sorted Qle (percentages run_on_object).
Proof.
  change (percentages run_on_object) with [5%Q; 0%Q].
  intros H. inversion H as [ | ? ? _ Hhd ]; subst.
  inversion Hhd as [ | ? ? Hle ]; subst. revert Hle. vm_compute. auto.
Qed.

Example extraction_reaches_70_before_65 :
  percentages run_on_one_record
  = [5; 10; 30; 30; 70; 65; 70; 420 # 6; 450 # 6; 450 # 6; 480 # 6; 480 # 6; 510 # 6;
     510 # 6; 540 # 6; 540 # 6; 570 # 6; 570 # 6; 600 # 6; 100]%Q.
Proof. vm_compute. reflexivity. Qed.

(** C6, amended: the updates of a run are those of the steps up to the
    extraction of the fields, then those from the individual files on,
    then, when a step raised, the one update of the error handler, at 0;
    the percentages do not decrease within the first group nor within the
    second, and every percentage of the run lies between 0 and 100. *)
Theorem progress_within_phases (r : run) :
  ∃ early late,
    statuses (perform_export r initial_world).2
    = early ++ late
      ++ match (export_steps r initial_world).1 with
         | Ok _ => []
         | Raise e => [(ErrorStatus e, 0%Q)]
         end
    ∧ Forall (λ mp, early_message mp.1 = true) early
    ∧ Forall (λ mp, late_message mp.1 = true) late
    ∧ Sorted Qle early.*2
    ∧ Sorted Qle late.*2
    ∧ Forall (λ p, (0 <= p)%Q ∧ (p <= 100)%Q) (percentages r).
Proof.
  destruct (emits_export_steps r initial_world) as (l & Hl & early & late & -> & He & Hla).
  cbn [initial_world statuses app] in Hl.
  assert (Hst : statuses (perform_export r initial_world).2
                = early ++ late
                  ++ match (export_steps r initial_world).1 with
                     | Ok _ => []
                     | Raise e => [(ErrorStatus e, 0%Q)]
                     end).
  { unfold perform_export.
    destruct (export_steps r initial_world) as [[[] | e] w1]; cbn [fst snd] in *.
    - by rewrite Hl, app_nil_r.
    - unfold mbind, M_bind, update_status, show. cbn [snd statuses].
      rewrite Hl. by rewrite app_assoc. }
  exists early, late. split; [exact Hst | ].
  destruct He as (_ & Hse & Hae), Hla as (_ & Hsl & Hal).
  split; [eapply Forall_impl; [exact Hae | ]; intros mp H; apply H | ].
  split; [eapply Forall_impl; [exact Hal | ]; intros mp H; apply H | ].
  split; [exact Hse | ]. split; [exact Hsl | ].
  unfold percentages. rewrite Hst, !fmap_app, !Forall_app.
  split; [ | split].
  - apply Forall_fmap. eapply Forall_impl; [exact Hae | ].
    intros mp (_ & Hlo & Hhi). cbn. split.
    + eapply Qle_trans; [ | exact Hlo]. done.
    + eapply Qle_trans; [exact Hhi | ]. done.
  - apply Forall_fmap. eapply Forall_impl; [exact Hal | ].
    intros mp (_ & Hlo & Hhi). cbn. split.
    + eapply Qle_trans; [ | exact Hlo]. done.
    + exact Hhi.
  - destruct (export_steps r initial_world).1; repeat constructor; done.
Qed.

(** *** The DOM under construction *)

Lemma node_at_snoc cursor i : ∀ n,
  node_at (cursor ++ [i]) n = node_at cursor n ≫= λ m, childNodes m !! i.
Proof.
  induction cursor as [ | j cursor IH ]; intros n; cbn [app node_at].
  - cbn. by destruct (childNodes n !! i).
  - destruct (childNodes n !! j) as [child | ]; [apply IH | reflexivity].
Qed.

Lemma node_at_replace cursor new : ∀ n old,
  node_at cursor n = Some old → node_at cursor (replace_at cursor new n) = Some new.
Proof.
  induction cursor as [ | i cursor IH ]; intros n old; cbn [node_at replace_at]; [done | ].
  destruct n as [tag children | s]; cbn [childNodes]; [ | by rewrite lookup_nil].
  destruct (children !! i) as [child | ] eqn:Ei; [ | done].
  intros Hold. cbn [childNodes].
  rewrite list_lookup_insert_eq by (by eapply lookup_lt_Some). by eapply IH.
Qed.

Lemma replace_replace cursor x y : ∀ n old,
  node_at cursor n = Some old →
  replace_at cursor x (replace_at cursor y n) = replace_at cursor x n.
Proof.
  induction cursor as [ | i cursor IH ]; intros n old; cbn [node_at replace_at]; [done | ].
  destruct n as [tag children | s]; cbn [childNodes]; [ | done].
  destruct (children !! i) as [child | ] eqn:Ei; [ | done].
  intros Hold. rewrite list_lookup_insert_eq by (by eapply lookup_lt_Some).
  rewrite list_insert_insert_eq. f_equal. f_equal. by eapply IH.
Qed.

Lemma replace_at_snoc cursor i child' : ∀ n tag siblings child,
  node_at cursor n = Some (Element tag siblings) → siblings !! i = Some child →
  replace_at (cursor ++ [i]) child' n
  = replace_at cursor (Element tag (<[i := child']> siblings)) n.
Proof.
  induction cursor as [ | j cursor IH ]; intros n tag siblings child; cbn [app node_at].
  - intros [= ->] Hi. cbn [replace_at]. by rewrite Hi.
  - destruct n as [t children | s]; cbn [childNodes]; [ | by rewrite lookup_nil].
    destruct (children !! j) as [c | ] eqn:Ej; [ | done].
    intros Hn Hi. cbn [replace_at]. rewrite Ej. f_equal. f_equal. by eapply IH.
Qed.

Lemma append_child_element cursor new : ∀ n tag siblings,
  node_at cursor n = Some (Element tag siblings) →
  append_child cursor new n
  = Ok (replace_at cursor (Element tag (siblings ++ [new])) n).
Proof.
  induction cursor as [ | i cursor IH ]; intros n tag siblings; cbn [node_at].
  - intros [= ->]. reflexivity.
  - destruct n as [t children | s]; cbn [childNodes]; [ | by rewrite lookup_nil].
    destruct (children !! i) as [c | ] eqn:Ei; [ | done].
    intros Hn. cbn [append_child replace_at]. rewrite Ei.
    by rewrite (IH _ _ _ Hn).
Qed.

Lemma append_child_text cursor new : ∀ n s,
  node_at cursor n = Some (TextNode s) →
  append_child cursor new n = Raise HierarchyRequestErr.
Proof.
  induction cursor as [ | i cursor IH ]; intros n s; cbn [node_at].
  - intros [= ->]. reflexivity.
  - destruct n as [t children | s']; cbn [childNodes]; [ | by rewrite lookup_nil].
    destruct (children !! i) as [c | ] eqn:Ei; [ | done].
    intros Hn. cbn [append_child]. rewrite Ei. by rewrite (IH _ _ Hn).
Qed.

Lemma descend_raised parts e : fold_left descend parts (Raise e) = Raise e.
Proof. induction parts as [ | p parts IH ]; [reflexivity | exact IH]. Qed.

Lemma finish_at_text leaf parts model cursor s :
  node_at cursor model = Some (TextNode s) →
  finish leaf (fold_left descend parts (Ok (model, cursor))) = Raise HierarchyRequestErr.
Proof.
  intros Hn. destruct parts as [ | part rest ]; cbn [fold_left finish].
  - by eapply append_child_text.
  - cbn [descend]. rewrite Hn. cbn [from_option childNodes list_find].
    rewrite (append_child_text _ _ _ _ Hn). by rewrite descend_raised.
Qed.

Lemma append_last_insert {A} (l : list A) (x y : A) :
  <[length l := y]> (l ++ [x]) = l ++ [y].
Proof.
  rewrite insert_app_r_alt by lia. rewrite Nat.sub_diag. reflexivity.
Qed.

(** The loop of [add_field] and the leaf it appends, against the nesting
    of the specification. *)
Lemma finish_insert_path leaf parts : ∀ model cursor tag siblings,
  node_at cursor model = Some (Element tag siblings) →
  finish leaf (fold_left descend parts (Ok (model, cursor)))
  = match insert_path parts leaf siblings with
    | Ok siblings' => Ok (replace_at cursor (Element tag siblings') model)
    | Raise e => Raise e
    end.
Proof.
  induction parts as [ | part rest IH ]; intros model cursor tag siblings Hn.
  - cbn [fold_left finish insert_path]. by apply append_child_element.
  - cbn [fold_left descend insert_path]. rewrite Hn. cbn [from_option childNodes].
    destruct (list_find (λ child, nodeName child = part) siblings)
      as [[i [t kids | s]] | ] eqn:Efind.
    + apply list_find_Some in Efind as (Hi & _ & _).
      rewrite (IH model (cursor ++ [i]) t kids).
      * destruct (insert_path rest leaf kids) as [kids' | e]; [ | reflexivity].
        f_equal. by eapply replace_at_snoc.
      * rewrite node_at_snoc, Hn. exact Hi.
    + apply list_find_Some in Efind as (Hi & _ & _).
      eapply finish_at_text. rewrite node_at_snoc, Hn. exact Hi.
    + rewrite (append_child_element _ _ _ _ _ Hn).
      set (model' := replace_at cursor (Element tag (siblings ++ [Element part []])) model).
      assert (Hn' : node_at cursor model' = Some (Element tag (siblings ++ [Element part []])))
        by (by eapply node_at_replace).
      rewrite (IH model' (cursor ++ [length siblings]) part []).
      * destruct (insert_path rest leaf []) as [kids' | e]; [ | reflexivity].
        f_equal.
        rewrite (replace_at_snoc _ _ _ _ _ _ (Element part []) Hn')
          by (by rewrite lookup_app_r, Nat.sub_diag by lia).
        rewrite append_last_insert. unfold model'. by eapply replace_replace.
      * rewrite node_at_snoc, Hn'. cbn.
        by rewrite lookup_app_r, Nat.sub_diag by lia.
Qed.

Lemma split_without_dot key : Py.contains "." key = false → Py.split "." key = [key].
Proof.
  induction key as [ | c key IH ]; [reflexivity | ].
  cbn [Py.contains Py.split String.prefix].
  destruct (ascii_dec "." c) as [<- | Hne].
  - destruct key; discriminate.
  - rewrite orb_false_l. intros Hrest.
    replace (Ascii.eqb c ".") with false
      by (symmetry; apply Ascii.eqb_neq; congruence).
    by rewrite (IH Hrest).
Qed.

Lemma add_field_insert_path tag siblings key value :
  add_field (Element tag siblings) key value
  = match insert_path (removelast (Py.split "." key)) (leaf_of key value) siblings with
    | Ok siblings' => Ok (Element tag siblings')
    | Raise e => Raise e
    end.
Proof.
  unfold add_field. destruct (Py.contains "." key) eqn:Edot.
  - pose proof (finish_insert_path (leaf_of key value) (removelast (Py.split "." key))
                  (Element tag siblings) [] tag siblings eq_refl) as H.
    unfold finish in H. cbn [replace_at] in H. rewrite <- H.
    by destruct (fold_left descend _ _) as [[m c] | e].
  - unfold leaf_of. rewrite (split_without_dot _ Edot). reflexivity.
Qed.

(** *** What the nesting guarantees *)

Lemma list_find_insert_same {A} (P : A → Prop) `{∀ x, Decision (P x)} (l : list A) i x y :
  list_find P l = Some (i, x) → P y → list_find P (<[i := y]> l) = Some (i, y).
Proof.
  intros (Hi & HP & Hleast)%list_find_Some HPy. apply list_find_Some.
  split; [ | split; [exact HPy | ] ].
  - apply list_lookup_insert_eq. by eapply lookup_lt_Some.
  - intros j z Hj Hlt. rewrite list_lookup_insert_ne in Hj by lia. by eapply Hleast.
Qed.

Lemma list_find_insert_other {A} (P : A → Prop) `{∀ x, Decision (P x)} (l : list A)
    i j x y z :
  list_find P l = Some (j, z) → j ≠ i → l !! i = Some x → (P y → P x) →
  list_find P (<[i := y]> l) = Some (j, z).
Proof.
  intros (Hj & HP & Hleast)%list_find_Some Hne Hi Hyx. apply list_find_Some.
  split; [ | split; [exact HP | ] ].
  - by rewrite list_lookup_insert_ne.
  - intros k u Hk Hlt. destruct (decide (k = i)) as [-> | Hki].
    + rewrite list_lookup_insert_eq in Hk by (by eapply lookup_lt_Some).
      injection Hk as <-. intros HPy. eapply Hleast; [exact Hi | exact Hlt | by apply Hyx].
    + rewrite list_lookup_insert_ne in Hk by done. by eapply Hleast.
Qed.

Lemma insert_path_reaches leaf parts : ∀ siblings siblings',
  insert_path parts leaf siblings = Ok siblings' →
  ∃ kids, follow parts siblings' = Some kids ∧ leaf ∈ kids.
Proof.
  induction parts as [ | part rest IH ]; intros siblings siblings'; cbn [insert_path follow].
  - intros [= <-]. eexists. split; [reflexivity | ]. apply elem_of_app. right. by left.
  - destruct (list_find (λ child, nodeName child = part) siblings)
      as [[i [t kids | s]] | ] eqn:Efind; [ | discriminate | ].
    + destruct (insert_path rest leaf kids) as [kids' | e] eqn:Eins; [ | discriminate].
      intros [= <-].
      rewrite (list_find_insert_same _ _ _ _ (Element t kids') Efind).
      * by eapply IH.
      * by apply list_find_Some in Efind as (_ & Ht & _).
    + destruct (insert_path rest leaf []) as [kids' | e] eqn:Eins; [ | discriminate].
      intros [= <-]. rewrite list_find_app_r by done. cbn.
      rewrite decide_True by done. cbn. by eapply IH.
Qed.

Lemma insert_path_keeps_text leaf parts s more siblings' :
  insert_path parts leaf (TextNode s :: more) = Ok siblings' →
  ∃ more', siblings' = TextNode s :: more'.
Proof.
  destruct parts as [ | part rest ]; cbn [insert_path].
  - intros [= <-]. eexists. reflexivity.
  - destruct (list_find _ (TextNode s :: more)) as [[i [t kids | s']] | ] eqn:Efind;
      [ | discriminate | ].
    + destruct (insert_path rest leaf kids) as [kids' | e]; [ | discriminate].
      intros [= <-]. destruct i as [ | i ].
      * apply list_find_Some in Efind as (Hi & _). discriminate.
      * eexists. reflexivity.
    + destruct (insert_path rest leaf []) as [kids' | e]; [ | discriminate].
      intros [= <-]. eexists. reflexivity.
Qed.

Lemma fields_kept_refl kids : fields_kept kids kids.
Proof. intros tag text n Hn Hf. eauto. Qed.

Lemma fields_kept_app kids more : fields_kept kids (kids ++ more).
Proof. intros tag text n Hn Hf. exists n. split; [ | done]. apply elem_of_app. by left. Qed.

Lemma fields_kept_insert leaf rest siblings i t kids kids' :
  siblings !! i = Some (Element t kids) →
  insert_path rest leaf kids = Ok kids' →
  fields_kept siblings (<[i := Element t kids']> siblings).
Proof.
  intros Hi Hins tag text n Hn Hf.
  apply list_elem_of_lookup in Hn as [j Hj].
  destruct (decide (j = i)) as [-> | Hne].
  - rewrite Hi in Hj. injection Hj as <-. destruct Hf as [more [= -> ->]].
    destruct (insert_path_keeps_text _ _ _ _ _ Hins) as [more' ->].
    exists (Element tag (TextNode text :: more')). split; [ | by eexists].
    apply list_elem_of_lookup. exists i. apply list_lookup_insert_eq.
    by eapply lookup_lt_Some.
  - exists n. split; [ | done]. apply list_elem_of_lookup. exists j.
    by rewrite list_lookup_insert_ne.
Qed.

Lemma insert_path_preserves leaf parts : ∀ siblings siblings',
  insert_path parts leaf siblings = Ok siblings' →
  ∀ path kids, follow path siblings = Some kids →
  ∃ kids', follow path siblings' = Some kids' ∧ fields_kept kids kids'.
Proof.
  induction parts as [ | part rest IH ]; intros siblings siblings'; cbn [insert_path].
  - intros [= <-] [ | p path ] kids; cbn [follow].
    + intros [= <-]. eexists. split; [reflexivity | apply fields_kept_app].
    + destruct (list_find _ siblings) as [[j [t kj | s]] | ] eqn:Ep; try discriminate.
      intros Hf. rewrite (list_find_app_l _ _ _ _ _ Ep).
      eexists. split; [exact Hf | apply fields_kept_refl].
  - destruct (list_find (λ child, nodeName child = part) siblings)
      as [[i [t kids0 | s]] | ] eqn:Efind; [ | discriminate | ].
    + destruct (insert_path rest leaf kids0) as [kids0' | e] eqn:Eins; [ | discriminate].
      intros [= <-] [ | p path ] kids; cbn [follow].
      * intros [= <-]. eexists. split; [reflexivity | ].
        apply list_find_Some in Efind as (Hi & _). by eapply fields_kept_insert.
      * destruct (list_find (λ child, nodeName child = p) siblings)
          as [[j [tj kj | s]] | ] eqn:Ep; try discriminate.
        intros Hf. destruct (decide (j = i)) as [-> | Hne].
        -- pose proof Efind as (Hi & Ht & _)%list_find_Some.
           pose proof Ep as (Hi' & Hp & _)%list_find_Some.
           rewrite Hi in Hi'. injection Hi' as <- <-.
           rewrite (list_find_insert_same _ _ _ _ (Element t kids0') Ep) by exact Hp.
           by eapply IH.
        -- pose proof Efind as (Hi & Ht & _)%list_find_Some.
           rewrite (list_find_insert_other _ _ i j (Element t kids0) (Element t kids0')
                      _ Ep Hne Hi) by done.
           eexists. split; [exact Hf | apply fields_kept_refl].
    + destruct (insert_path rest leaf []) as [kids' | e] eqn:Eins; [ | discriminate].
      intros [= <-] [ | p path ] kids; cbn [follow].
      * intros [= <-]. eexists. split; [reflexivity | apply fields_kept_app].
      * destruct (list_find (λ child, nodeName child = p) siblings)
          as [[j [tj kj | s]] | ] eqn:Ep; try discriminate.
        intros Hf. rewrite (list_find_app_l _ _ _ _ _ Ep).
        eexists. split; [exact Hf | apply fields_kept_refl].
Qed.

Lemma insert_path_ok leaf parts : ∀ siblings,
  "#text" ∉ parts → ∃ siblings', insert_path parts leaf siblings = Ok siblings'.
Proof.
  induction parts as [ | part rest IH ]; intros siblings Hparts; cbn [insert_path].
  - eexists. reflexivity.
  - apply not_elem_of_cons in Hparts as [Hpart Hrest].
    destruct (list_find (λ child, nodeName child = part) siblings)
      as [[i [t kids | s]] | ] eqn:Efind.
    + destruct (IH kids Hrest) as [kids' ->]. eexists. reflexivity.
    + apply list_find_Some in Efind as (_ & Hname & _). cbn in Hname. congruence.
    + destruct (IH [] Hrest) as [kids' ->]. eexists. reflexivity.
Qed.

Lemma elem_of_removelast {A} (x : A) (l : list A) : x ∈ removelast l → x ∈ l.
Proof.
  induction l as [ | y l IH ]; [done | ]. cbn [removelast].
  destruct l as [ | z l ]; [intros H; inversion H | ].
  intros [-> | H]%elem_of_cons; [by left | right; by apply IH].
Qed.

Lemma add_fields_raised (item : dict) e :
  fold_left
    (λ model_elem '(key, value),
       match model_elem with
       | Ok m => add_field m key value
       | Raise e => Raise e
       end) item (Raise e) = Raise e.
Proof. induction item as [ | [k v] item IH ]; [reflexivity | exact IH]. Qed.

Lemma model_element_from (item : dict) : ∀ siblings,
  Forall (λ kv, "#text" ∉ Py.split "." kv.1) item →
  ∃ kids,
    fold_left
      (λ model_elem '(key, value),
         match model_elem with
         | Ok m => add_field m key value
         | Raise e => Raise e
         end) item (Ok (Element "model" siblings)) = Ok (Element "model" kids)
    ∧ (∀ path ks, follow path siblings = Some ks →
         ∃ ks', follow path kids = Some ks' ∧ fields_kept ks ks')
    ∧ (∀ key value, (key, value) ∈ item →
         ∃ ks n, follow (removelast (Py.split "." key)) kids = Some ks ∧ n ∈ ks
                 ∧ field_element (List.last (Py.split "." key) "") (text_of value) n).
Proof.
  induction item as [ | [key value] item IH ]; intros siblings Hall.
  - exists siblings. split; [reflexivity | ]. split.
    + intros path ks Hf. eexists. split; [exact Hf | apply fields_kept_refl].
    + intros key value Hin. inversion Hin.
  - apply Forall_cons in Hall as [Hkey Hall]. cbn [fold_left fst] in *.
    rewrite add_field_insert_path.
    destruct (insert_path_ok (leaf_of key value) (removelast (Py.split "." key)) siblings)
      as [siblings1 Hins].
    { intros Hin. apply Hkey. by apply elem_of_removelast. }
    rewrite Hins. destruct (IH siblings1 Hall) as (kids & Hfold & Hkeep & Hreach).
    exists kids. split; [exact Hfold | ]. split.
    + intros path ks Hf.
      destruct (insert_path_preserves _ _ _ _ Hins _ _ Hf) as (ks1 & Hf1 & Hk1).
      destruct (Hkeep _ _ Hf1) as (ks' & Hf' & Hk'). exists ks'. split; [exact Hf' | ].
      intros tag text n Hn Hfield. destruct (Hk1 _ _ _ Hn Hfield) as (n1 & Hn1 & Hfield1).
      by eapply Hk'.
    + intros k v [[= -> ->] | Hin]%elem_of_cons; [ | by apply Hreach].
      destruct (insert_path_reaches _ _ _ _ Hins) as (ks1 & Hf1 & Hleaf).
      destruct (Hkeep _ _ Hf1) as (ks' & Hf' & Hk').
      destruct (Hk' (List.last (Py.split "." key) "") (text_of value) _ Hleaf)
        as (n & Hn & Hfield); [by exists [] | ].
      eauto.
Qed.

Lemma dict_set_key (d : dict) k v k' :
  k' ∈ (dict_set d k v).*1 → k' = k ∨ k' ∈ d.*1.
Proof.
  induction d as [ | [k0 v0] d IH ]; cbn [dict_set fmap list_fmap fst].
  - intros ->%list_elem_of_singleton. by left.
  - destruct (String.eqb k0 k); cbn [fmap list_fmap fst];
      rewrite !elem_of_cons; [tauto | ].
    intros [-> | H]; [tauto | ]. destruct (IH H); tauto.
Qed.

Lemma projected_keys selected_fields item k :
  k ∈ (projected selected_fields item).*1 → k ∈ selected_fields.
Proof.
  unfold projected.
  enough (∀ acc, k ∈ (fold_left (λ d field, dict_set d field (resolved item field))
                         selected_fields acc).*1 →
                 k ∈ acc.*1 ∨ k ∈ selected_fields) as H.
  { intros Hk. destruct (H [] Hk) as [Hnil | ?]; [by apply elem_of_nil in Hnil | done]. }
  induction selected_fields as [ | f fs IH ]; intros acc; cbn [fold_left]; [by left | ].
  intros Hk. rewrite elem_of_cons. destruct (IH _ Hk) as [Hacc | ?]; [ | tauto].
  destruct (dict_set_key _ _ _ _ Hacc); tauto.
Qed.

Lemma field_names_no_text_segment :
  Forall (λ field, "#text" ∉ Py.split "." field) field_names.
Proof. apply (bool_decide_unpack _). vm_compute. exact I. Qed.

Lemma projected_no_text_segment selected_fields record :
  selected_fields ⊆ field_names →
  Forall (λ kv, "#text" ∉ Py.split "." kv.1) (projected selected_fields record).
Proof.
  intros Hsel. apply Forall_forall. intros [k v] Hkv. cbn [fst].
  pose proof field_names_no_text_segment as Hnames. rewrite Forall_forall in Hnames.
  apply Hnames, Hsel, (projected_keys _ record).
  apply list_elem_of_fmap. by exists (k, v).
Qed.

(** C8: for an item none of whose keys has a segment [#text], adding a
    field follows the leading segments of its key from the [model]
    element, at each level into the first child with the segment's tag,
    creating one only when there is none, and appends the leaf element
    there; the [model] element is built without an error, and every key's
    leaf is found along the key's leading segments, with the text of its
    value as first child: [str(value)], and the empty text for [None].
    Every item projected from fields the window offers is such an item. *)
Theorem xml_structure (item : dict) :
  Forall (λ kv, "#text" ∉ Py.split "." kv.1) item →
  (∀ tag siblings key value,
     add_field (Element tag siblings) key value
     = match insert_path (removelast (Py.split "." key)) (leaf_of key value) siblings with
       | Ok siblings' => Ok (Element tag siblings')
       | Raise e => Raise e
       end)
  ∧ (∃ kids,
       model_element item = Ok (Element "model" kids)
       ∧ ∀ key value, (key, value) ∈ item →
           ∃ ks n, follow (removelast (Py.split "." key)) kids = Some ks ∧ n ∈ ks
                   ∧ field_element (List.last (Py.split "." key) "") (text_of value) n)
  ∧ text_of JNull = ""
  ∧ (∀ v, v ≠ JNull → text_of v = py_str v)
  ∧ (∀ selected_fields record,
       selected_fields ⊆ field_names →
       Forall (λ kv, "#text" ∉ Py.split "." kv.1) (projected selected_fields record)).
Proof.
  intros Hitem. split; [intros; apply add_field_insert_path | ]. split.
  - destruct (model_element_from item [] Hitem) as (kids & Hfold & _ & Hreach).
    exists kids. split; [exact Hfold | exact Hreach].
  - split; [reflexivity | ]. split; [intros v Hv; by destruct v | ].
    apply projected_no_text_segment.
Qed.

Example shared_prefix_is_one_element :
  model_element two_dotted_keys
  = Ok (Element "model"
          [Element "info"
             [Element "meta"
                [Element "description" [TextNode "d1"];
                 Element "tags" [TextNode "[1]"]];
              Element "params" [Element "system" [TextNode ""]]];
           Element "name" [TextNode "n1"]]).
Proof. vm_compute. reflexivity. Qed.

Lemma xml_structure_witness :
  Forall (λ kv, "#text" ∉ Py.split "." kv.1) two_dotted_keys
  ∧ ∃ kids, model_element two_dotted_keys = Ok (Element "model" kids).
Proof.
  assert (H : Forall (λ kv, "#text" ∉ Py.split "." kv.1) two_dotted_keys).
  { apply (bool_decide_unpack _). vm_compute. exact I. }
  split; [exact H | ].
  destruct (xml_structure two_dotted_keys H) as (_ & (kids & Hk & _) & _). eauto.
Defined.

(** *** Reading back what the encoder wrote *)

Lemma append_assoc (a b c : string) : (a +:+ b) +:+ c = a +:+ (b +:+ c).
Proof. induction a as [ | x a IH ]; [reflexivity | ]. rewrite !append_cons. by rewrite IH. Qed.

Lemma append_empty_r (a : string) : a +:+ "" = a.
Proof. induction a as [ | x a IH ]; [reflexivity | ]. rewrite append_cons. by rewrite IH. Qed.

Lemma length_append (a b : string) :
  String.length (a +:+ b) = String.length a + String.length b.
Proof. induction a as [ | x a IH ]; [reflexivity | ]. rewrite append_cons. cbn. by rewrite IH. Qed.

Lemma scanstring_escape_char c t :
  scanstring (json_escape_char c +:+ t)
  = match scanstring t with
    | Some (text, rest) => Some (String c text, rest)
    | None => None
    end.
Proof. destruct c as [[] [] [] [] [] [] [] []]; reflexivity. Qed.

Lemma scanstring_quote s rest :
  scanstring (flat_map_chars json_escape_char s +:+ String "034" rest) = Some (s, rest).
Proof.
  induction s as [ | c s IH ]; [reflexivity | ].
  cbn [flat_map_chars]. rewrite append_assoc, scanstring_escape_char, IH. reflexivity.
Qed.

Lemma json_quote_append s rest :
  json_quote s +:+ rest
  = String "034" (flat_map_chars json_escape_char s +:+ String "034" rest).
Proof. unfold json_quote. rewrite append_cons, append_assoc. reflexivity. Qed.

Lemma delimited_not_digit rest :
  delimited rest →
  match rest with
  | String c _ => is_digit c = false
  | EmptyString => True
  end.
Proof. destruct rest as [ | c rest ]; [done | ]. by intros [-> | ->]. Qed.

Lemma scan_digits_uint d rest :
  match rest with
  | String c _ => is_digit c = false
  | EmptyString => True
  end →
  scan_digits (NilEmpty.string_of_uint d +:+ rest) = (NilEmpty.string_of_uint d, rest).
Proof.
  intros Hrest. induction d as [ | d IH | d IH | d IH | d IH | d IH | d IH | d IH | d IH
                               | d IH | d IH ];
    cbn [NilEmpty.string_of_uint]; rewrite ?append_cons; cbn [scan_digits];
    try (change (is_digit _) with true; cbv iota; rewrite IH; reflexivity).
  rewrite append_nil. destruct rest as [ | c rest ]; [reflexivity | ].
  cbn [scan_digits]. by rewrite Hrest.
Qed.

Lemma to_uint_normal p : Decimal.unorm (Pos.to_uint p) = Pos.to_uint p.
Proof.
  rewrite <- (DecimalPos.Unsigned.to_of (Pos.to_uint p)).
  by rewrite DecimalPos.Unsigned.of_to.
Qed.

Lemma scan_unsigned_pos p rest :
  match rest with
  | String c _ => is_digit c = false
  | EmptyString => True
  end →
  scan_unsigned (NilZero.string_of_uint (Pos.to_uint p) +:+ rest)
  = Some (NilZero.string_of_uint (Pos.to_uint p), rest)
  ∧ ∃ c s, NilZero.string_of_uint (Pos.to_uint p) = String c s ∧ c ≠ "-"%char.
Proof.
  intros Hrest. pose proof (to_uint_normal p) as Hnorm.
  pose proof (DecimalPos.Unsigned.to_uint_nonnil p) as Hnil.
  pose proof (DecimalFacts.nzhead_nonzero (Pos.to_uint p)) as Hhead.
  unfold Decimal.unorm in Hnorm.
  destruct (Pos.to_uint p) as [ | d | d | d | d | d | d | d | d | d | d ] eqn:E;
    [done | | | | | | | | | | ];
    try (cbn [NilZero.string_of_uint NilEmpty.string_of_uint]; rewrite append_cons;
         cbn [scan_unsigned]; change (is_digit _) with true; cbv iota;
         rewrite (scan_digits_uint d rest Hrest);
         split; [reflexivity | eexists _, _; split; [reflexivity | discriminate] ]).
  exfalso. cbn [Decimal.nzhead] in Hnorm, Hhead.
  destruct (Decimal.nzhead d) eqn:En; try discriminate Hnorm.
  - injection Hnorm as <-. by apply (DecimalPos.Unsigned.to_uint_nonzero p).
  - by eapply Hhead.
Qed.

Lemma delimited_ends_number rest : delimited rest → continues_number rest = false.
Proof.
  destruct rest as [ | c [ | d rest ] ]; [done | done | ].
  by intros [-> | ->].
Qed.

Lemma parse_int_repr n : parse_int (repr_int n) = Some n.
Proof.
  unfold parse_int, repr_int. rewrite NilZero.isi.
  - cbn. by rewrite DecimalZ.of_to.
  - destruct n as [ | p | p ]; cbn; try discriminate.
    intros [= H]. by apply (DecimalPos.Unsigned.to_uint_nonnil p).
  - destruct n as [ | p | p ]; cbn; try discriminate.
    intros [= H]. by apply (DecimalPos.Unsigned.to_uint_nonnil p).
Qed.

Lemma scan_integer_repr n rest :
  delimited rest → scan_integer (repr_int n +:+ rest) = Some (repr_int n, rest).
Proof.
  intros Hrest%delimited_not_digit. unfold repr_int.
  destruct n as [ | p | p ]; cbn [Z.to_int NilZero.string_of_int].
  - reflexivity.
  - destruct (scan_unsigned_pos p rest Hrest) as (Hscan & c & s & Hs & Hc).
    unfold scan_integer. rewrite Hs, append_cons in *.
    destruct c as [[] [] [] [] [] [] [] []]; try exact Hscan. by destruct Hc.
  - destruct (scan_unsigned_pos p rest Hrest) as (Hscan & _).
    rewrite append_cons. cbn [scan_integer]. by rewrite Hscan.
Qed.

Lemma scan_number_repr n rest :
  delimited rest → scan_number (repr_int n +:+ rest) = Some (JInt n, rest).
Proof.
  intros Hrest. unfold scan_number.
  rewrite scan_integer_repr by done. rewrite delimited_ends_number by done.
  by rewrite parse_int_repr.
Qed.

Lemma repr_int_head n :
  ∃ c s, repr_int n = String c s
         ∧ (c = "-"%char ∨ is_digit c = true).
Proof.
  unfold repr_int. destruct n as [ | p | p ]; cbn [Z.to_int NilZero.string_of_int].
  - eexists _, _. split; [reflexivity | by right].
  - pose proof (DecimalPos.Unsigned.to_uint_nonnil p).
    destruct (Pos.to_uint p); [done | ..];
      (eexists _, _; split; [reflexivity | by right]).
  - eexists _, _. split; [reflexivity | by left].
Qed.

Lemma well_formed_list l : well_formed (JList l) ↔ Forall well_formed l.
Proof.
  induction l as [ | x l IH ]; [split; constructor | ].
  rewrite Forall_cons, <- IH. reflexivity.
Qed.

Lemma well_formed_dict d :
  well_formed (JObj d) ↔ NoDup d.*1 ∧ Forall (λ kv, well_formed kv.2) d.
Proof.
  cbn [well_formed]. apply and_iff_compat_l.
  induction d as [ | [k x] d IH ]; [split; constructor | ].
  rewrite Forall_cons, <- IH. reflexivity.
Qed.

Lemma skip_ws_spaces n t : skip_ws (spaces n +:+ t) = skip_ws t.
Proof. induction n as [ | n IH ]; [reflexivity | exact IH]. Qed.

Lemma skip_ws_newline_indent level t : skip_ws (newline_indent level +:+ t) = skip_ws t.
Proof.
  unfold newline_indent, nl. rewrite append_assoc, append_cons, append_nil.
  cbn [skip_ws is_ws]. change (Ascii.eqb _ _ || _ || _ || _) with true. cbv iota.
  apply skip_ws_spaces.
Qed.

Lemma skip_ws_starts_value s : starts_value s → skip_ws s = s.
Proof. intros (c & t & -> & Hws & _). cbn [skip_ws]. by rewrite Hws. Qed.

Lemma starts_value_append s r : starts_value s → starts_value (s +:+ r).
Proof. intros (c & t & -> & H). exists c, (t +:+ r). by rewrite append_cons. Qed.

Lemma starts_value_encode level v : starts_value (json_encode level v).
Proof.
  destruct v as [ | [] | n | s | [ | x l] | [ | kv d] ];
    try (eexists _, _; split; [reflexivity | split; [reflexivity | discriminate] ]).
  destruct (repr_int_head n) as (c & s & Hs & [-> | Hd]).
  - exists "-"%char, s. split; [exact Hs | ]. split; [reflexivity | discriminate].
  - exists c, s. split; [exact Hs | ].
    destruct c as [[] [] [] [] [] [] [] []]; try discriminate Hd;
      (split; [reflexivity | discriminate]).
Qed.

Lemma starts_value_join sep (f : json → string) x xs :
  starts_value (f x) → starts_value (Py.join sep (map f (x :: xs))).
Proof.
  intros H. destruct xs as [ | y ys ]; [exact H | ].
  cbn [map Py.join]. by apply starts_value_append.
Qed.

Lemma scan_once_number fuel c s :
  c = "-"%char ∨ is_digit c = true →
  scan_once (S fuel) (String c s) = scan_number (String c s).
Proof.
  intros [-> | Hd]; [reflexivity | ].
  destruct c as [[] [] [] [] [] [] [] []]; try discriminate Hd; reflexivity.
Qed.

Lemma scan_once_array fuel s :
  starts_value s → scan_once (S fuel) (String "[" s) = array_loop fuel s [].
Proof.
  intros Hs. cbn [scan_once]. change (Ascii.eqb "[" "034") with false.
  change (Ascii.eqb "[" "{") with false. change (Ascii.eqb "[" "[") with true. cbv iota.
  rewrite (skip_ws_starts_value _ Hs). destruct Hs as (c & t & -> & _ & Hc).
  destruct c as [[] [] [] [] [] [] [] []]; try reflexivity. by destruct Hc.
Qed.

Lemma join_cons2 sep (p q : string) ps :
  Py.join sep (p :: q :: ps) = p +:+ sep +:+ Py.join sep (q :: ps).
Proof. reflexivity. Qed.

Lemma skip_ws_close_bracket level rest :
  skip_ws (newline_indent level +:+ String "]" rest) = String "]" rest.
Proof. by rewrite skip_ws_newline_indent. Qed.

Lemma skip_ws_close_brace level rest :
  skip_ws (newline_indent level +:+ String "}" rest) = String "}" rest.
Proof. by rewrite skip_ws_newline_indent. Qed.

Lemma delimited_newline_indent level t : delimited (newline_indent level +:+ t).
Proof. unfold newline_indent, nl. rewrite append_assoc, append_cons. right. reflexivity. Qed.

Lemma array_loop_encode level rest xs :
  Forall scans_back xs → xs ≠ [] →
  ∀ acc fuel, list_sum (map (λ x, S (size x)) xs) ≤ fuel →
    array_loop fuel
      (Py.join ("," +:+ newline_indent (S level)) (map (json_encode (S level)) xs)
       +:+ newline_indent level +:+ String "]" rest) acc
    = Some (JList (acc ++ xs), rest).
Proof.
  induction 1 as [ | x xs Hx Hxs IH ]; [done | ]. intros _ acc fuel Hfuel.
  cbn [map list_sum fold_right] in Hfuel. destruct fuel as [ | fuel ]; [lia | ].
  destruct xs as [ | y ys ].
  - cbn [map Py.join array_loop].
    rewrite Hx; [ | cbn in Hfuel; lia | apply delimited_newline_indent ].
    rewrite skip_ws_close_bracket. reflexivity.
  - rewrite map_cons, (map_cons _ y), join_cons2, !append_assoc, append_cons.
    cbn [array_loop]. rewrite Hx; [ | lia | by left ].
    cbn [skip_ws]. change (is_ws ",") with false. cbv iota.
    rewrite append_nil, skip_ws_newline_indent.
    rewrite <- (map_cons (json_encode (S level)) y ys).
    rewrite skip_ws_starts_value
      by (apply starts_value_append, starts_value_join, starts_value_encode).
    rewrite IH; [ by rewrite <- app_assoc | done | unfold list_sum; lia ].
Qed.

Lemma key_separator t : ": " +:+ t = String ":" (String " " t).
Proof. by rewrite !append_cons, append_nil. Qed.

Lemma item_separator level t :
  ("," +:+ newline_indent level) +:+ t = String "," (newline_indent level +:+ t).
Proof. by rewrite append_assoc, append_cons, append_nil. Qed.

Lemma skip_ws_colon t : skip_ws (String ":" t) = String ":" t.
Proof. reflexivity. Qed.

Lemma skip_ws_comma t : skip_ws (String "," t) = String "," t.
Proof. reflexivity. Qed.

Lemma skip_ws_space t : skip_ws (String " " t) = skip_ws t.
Proof. reflexivity. Qed.

Lemma skip_ws_quote t : skip_ws (String "034" t) = String "034" t.
Proof. reflexivity. Qed.

Lemma join_cons_map {A} sep p (f : A → string) a l :
  Py.join sep (p :: map f (a :: l)) = p +:+ sep +:+ Py.join sep (map f (a :: l)).
Proof. reflexivity. Qed.

Lemma items_start_with_quote sep level (kv : string * json) d R :
  ∃ t, Py.join sep
         (map (λ kv, json_quote kv.1 +:+ ": " +:+ json_encode level kv.2) (kv :: d))
       +:+ R = String "034" t.
Proof.
  destruct d; cbn [map Py.join]; rewrite !append_assoc, json_quote_append; eauto.
Qed.

Lemma object_loop_encode level rest d :
  Forall (λ kv, scans_back kv.2) d → d ≠ [] →
  ∀ pairs fuel t, list_sum (map (λ kv, S (size kv.2)) d) ≤ fuel →
    String "034" t
    = Py.join ("," +:+ newline_indent (S level))
        (map (λ kv, json_quote kv.1 +:+ ": " +:+ json_encode (S level) kv.2) d)
      +:+ newline_indent level +:+ String "}" rest →
    object_loop fuel t pairs
    = Some (JObj (fold_left (λ d kv, dict_set d kv.1 kv.2) (pairs ++ d) []), rest).
Proof.
  induction 1 as [ | [k x] d Hx Hd IH ]; [done | ]. intros _ pairs fuel t Hfuel Ht.
  cbn [map list_sum fold_right snd] in Hfuel. destruct fuel as [ | fuel ]; [lia | ].
  cbn [snd] in Hx. destruct d as [ | kv d ].
  - cbn [map Py.join fst snd] in Ht.
    rewrite !append_assoc, json_quote_append, key_separator in Ht.
    injection Ht as ->. cbn [object_loop]. rewrite scanstring_quote.
    rewrite skip_ws_colon. cbv iota. rewrite skip_ws_space.
    rewrite skip_ws_starts_value by apply starts_value_append, starts_value_encode.
    rewrite Hx; [ | cbn in Hfuel; lia | apply delimited_newline_indent ].
    rewrite skip_ws_close_brace. reflexivity.
  - rewrite map_cons, join_cons_map in Ht. cbn [fst snd] in Ht.
    rewrite !append_assoc, json_quote_append, key_separator in Ht.
    injection Ht as ->. cbn [object_loop]. rewrite scanstring_quote.
    rewrite skip_ws_colon. cbv iota. rewrite skip_ws_space.
    rewrite skip_ws_starts_value by apply starts_value_append, starts_value_encode.
    rewrite append_cons, append_nil.
    rewrite Hx; [ | lia | by left ].
    rewrite skip_ws_comma. cbv iota. rewrite skip_ws_newline_indent.
    destruct (items_start_with_quote ("," +:+ newline_indent (S level)) (S level) kv d
                (newline_indent level +:+ String "}" rest)) as [t' Ht'].
    cbn [map Py.join] in Ht'. rewrite Ht', skip_ws_quote. cbv iota.
    rewrite (IH ltac:(done) (pairs ++ [(k, x)]) fuel t');
      [ by rewrite <- app_assoc | unfold list_sum; lia | done ].
Qed.

Lemma substring_whole s : String.substring 0 (String.length s) s = s.
Proof. induction s as [ | c s IH ]; [reflexivity | ]. cbn. by rewrite IH. Qed.

Lemma prefix_empty s : String.prefix "" s = true.
Proof. by destruct s. Qed.

Lemma dict_set_new (d : dict) k v : k ∉ d.*1 → dict_set d k v = d ++ [(k, v)].
Proof.
  induction d as [ | [k' v'] d IH ]; [reflexivity | ]. cbn [fmap list_fmap fst].
  rewrite not_elem_of_cons. intros [Hk Hd]. cbn [dict_set].
  destruct (String.eqb_spec k' k) as [-> | _]; [done | ].
  by rewrite IH.
Qed.

Lemma dict_of_pairs (pairs acc : dict) :
  NoDup (acc ++ pairs).*1 →
  fold_left (λ d kv, dict_set d kv.1 kv.2) pairs acc = acc ++ pairs.
Proof.
  revert acc. induction pairs as [ | [k v] pairs IH ]; intros acc Hnd.
  - by rewrite app_nil_r.
  - cbn [fold_left fst snd]. rewrite dict_set_new.
    + rewrite IH; rewrite <- app_assoc; done.
    + rewrite fmap_app in Hnd. apply NoDup_app in Hnd as (_ & Hnd & _).
      intros Hk. apply (Hnd k Hk). left.
Qed.

Lemma scan_once_encode v : well_formed v → scans_back v.
Proof.
  induction v as [ | b | n | s | l IH | d IH ] using json_ind;
    intros Hwf level rest fuel Hfuel Hrest;
    (destruct fuel as [ | fuel ]; [cbn in Hfuel; lia | ]).
  - cbn [json_encode]. rewrite !append_cons, append_nil. cbn.
    by rewrite Nat.sub_0_r, substring_whole, prefix_empty.
  - destruct b; cbn [json_encode]; rewrite !append_cons, append_nil; cbn;
      by rewrite Nat.sub_0_r, substring_whole, prefix_empty.
  - cbn [json_encode]. destruct (repr_int_head n) as (c & s & Hs & Hc).
    pose proof (scan_number_repr n rest Hrest) as Hn. rewrite Hs, append_cons in *.
    by rewrite scan_once_number.
  - cbn [json_encode]. rewrite json_quote_append. cbn [scan_once].
    change (Ascii.eqb "034" "034") with true. cbv iota.
    by rewrite scanstring_quote.
  - apply well_formed_list in Hwf.
    assert (Forall scans_back l) as Hl.
    { rewrite Forall_forall in IH, Hwf. apply Forall_forall. auto. }
    destruct l as [ | x l ]; [reflexivity | ].
    cbn [json_encode]. rewrite !append_assoc, append_cons, append_nil.
    change ("]" +:+ rest) with (String "]" rest).
    cbn [size] in Hfuel. cbn [scan_once].
    change (Ascii.eqb "[" "034") with false. change (Ascii.eqb "[" "{") with false.
    change (Ascii.eqb "[" "[") with true. cbv iota.
    rewrite skip_ws_newline_indent.
    pose proof (starts_value_append _
      (newline_indent level +:+ String "]" rest)
      (starts_value_join ("," +:+ newline_indent (S level)) (json_encode (S level))
         x l (starts_value_encode _ _))) as Hstart.
    rewrite (skip_ws_starts_value _ Hstart).
    destruct Hstart as (c & t & Ht & _ & Hc).
    transitivity (array_loop fuel
      (Py.join ("," +:+ newline_indent (S level)) (map (json_encode (S level)) (x :: l))
       +:+ newline_indent level +:+ String "]" rest) []).
    { rewrite Ht. destruct c as [[] [] [] [] [] [] [] []]; try reflexivity. by destruct Hc. }
    rewrite array_loop_encode; [done | done | done | lia].
  - apply well_formed_dict in Hwf as [Hnd Hwf].
    assert (Forall (λ kv, scans_back kv.2) d) as Hd.
    { rewrite Forall_forall in IH, Hwf. apply Forall_forall. auto. }
    destruct d as [ | kv d ]; [reflexivity | ].
    cbn [json_encode]. rewrite !append_assoc, append_cons, append_nil.
    change ("}" +:+ rest) with (String "}" rest).
    cbn [size] in Hfuel. cbn [scan_once].
    change (Ascii.eqb "{" "034") with false. change (Ascii.eqb "{" "{") with true.
    cbv iota. rewrite skip_ws_newline_indent.
    destruct (items_start_with_quote ("," +:+ newline_indent (S level)) (S level) kv d
                (newline_indent level +:+ String "}" rest)) as [t Ht].
    rewrite Ht, skip_ws_quote. cbv iota.
    rewrite (object_loop_encode level rest (kv :: d)); [ | done | done | lia | done ].
    rewrite app_nil_l, dict_of_pairs; done.
Qed.

Lemma join_length {A} sep (f : A → string) (m : A → nat) xs :
  1 ≤ String.length sep →
  Forall (λ x, m x ≤ String.length (f x)) xs →
  list_sum (map (λ x, S (m x)) xs) ≤ S (String.length (Py.join sep (map f xs))).
Proof.
  intros Hsep. induction 1 as [ | x xs Hx Hxs IH ]; [cbn; lia | ].
  destruct xs as [ | y ys ]; [cbn; lia | ].
  rewrite (map_cons f), join_cons_map, !length_append.
  cbn [map list_sum fold_right] in *. lia.
Qed.

Lemma newline_indent_length level : 1 ≤ String.length (newline_indent level).
Proof. unfold newline_indent, nl. rewrite length_append. cbn. lia. Qed.

Lemma size_le_length v level : size v ≤ String.length (json_encode level v).
Proof.
  revert level. induction v as [ | b | n | s | l IH | d IH ] using json_ind; intros level.
  - cbn. lia.
  - destruct b; cbn; lia.
  - cbn [json_encode size]. destruct (repr_int_head n) as (c & s & -> & _). cbn. lia.
  - cbn. lia.
  - destruct l as [ | x l ]; [cbn; lia | ].
    cbn [json_encode size]. rewrite !length_append.
    pose proof (join_length ("," +:+ newline_indent (S level)) (json_encode (S level))
                  size (x :: l)) as Hjoin.
    pose proof (newline_indent_length level). pose proof (newline_indent_length (S level)).
    rewrite length_append in Hjoin. cbn [String.length] in *.
    assert (Forall (λ x, size x ≤ String.length (json_encode (S level) x)) (x :: l)) as Hall.
    { eapply Forall_impl; [exact IH | ]. intros y Hy. apply Hy. }
    specialize (Hjoin ltac:(lia) Hall). lia.
  - destruct d as [ | kv d ]; [cbn; lia | ].
    cbn [json_encode size]. rewrite !length_append.
    pose proof (join_length ("," +:+ newline_indent (S level))
                  (λ kv, json_quote kv.1 +:+ ": " +:+ json_encode (S level) kv.2)
                  (λ kv, size kv.2) (kv :: d)) as Hjoin.
    pose proof (newline_indent_length level). pose proof (newline_indent_length (S level)).
    rewrite length_append in Hjoin. cbn [String.length] in *.
    assert (Forall (λ kv : string * json,
              size kv.2
              ≤ String.length (json_quote kv.1 +:+ ": " +:+ json_encode (S level) kv.2))
              (kv :: d)) as Hall.
    { eapply Forall_impl; [exact IH | ]. intros y Hy. cbn beta in *.
      rewrite !length_append. specialize (Hy (S level)). lia. }
    specialize (Hjoin ltac:(lia) Hall). lia.
Qed.

Lemma json_loads_encode v :
  well_formed v → json_loads (json_encode 0 v) = Some v.
Proof.
  intros Hwf. unfold json_loads.
  rewrite (skip_ws_starts_value _ (starts_value_encode 0 v)).
  pose proof (scan_once_encode v Hwf 0 "" (String.length (json_encode 0 v))
                (size_le_length v 0) I) as Hscan.
  rewrite append_empty_r in Hscan. by rewrite Hscan.
Qed.

(** Projected records are well formed when the records read are. *)
Lemma dict_set_keys (d : dict) k v : k ∈ d.*1 → (dict_set d k v).*1 = d.*1.
Proof.
  induction d as [ | [k' v'] d IH ]; [by intros ?%elem_of_nil | ].
  cbn [fmap list_fmap fst dict_set]. intros Hk.
  destruct (String.eqb_spec k' k) as [-> | Hne]; [reflexivity | ].
  cbn [fmap list_fmap fst]. f_equal. apply IH.
  apply elem_of_cons in Hk as [-> | Hk]; done.
Qed.

Lemma dict_set_nodup (d : dict) k v : NoDup d.*1 → NoDup (dict_set d k v).*1.
Proof.
  intros Hnd. destruct (decide (k ∈ d.*1)) as [Hk | Hk].
  - by rewrite dict_set_keys.
  - rewrite dict_set_new by done. rewrite fmap_app. apply NoDup_app.
    split; [done | ]. split; [ | apply NoDup_singleton ].
    intros x Hx ->%list_elem_of_singleton. done.
Qed.

Lemma dict_set_values (P : json → Prop) (d : dict) k v :
  P v → Forall (λ kv, P kv.2) d → Forall (λ kv, P kv.2) (dict_set d k v).
Proof.
  intros Hv. induction 1 as [ | [k' v'] d Hkv Hd IH ]; [by repeat constructor | ].
  cbn [dict_set]. destruct (String.eqb k' k); constructor; done.
Qed.

Lemma dict_get_or_well_formed (d : dict) k :
  Forall (λ kv, well_formed kv.2) d → well_formed (dict_get_or d k (JStr "")).
Proof.
  unfold dict_get_or. induction 1 as [ | [k' v'] d Hkv Hd IH ]; [exact I | ].
  cbn [dict_get]. destruct (String.eqb k' k); done.
Qed.

Lemma dict_get_well_formed (d : dict) k v :
  Forall (λ kv, well_formed kv.2) d → dict_get d k = Some v → well_formed v.
Proof.
  induction 1 as [ | [k' v'] d Hkv Hd IH ]; [discriminate | ].
  cbn [dict_get]. destruct (String.eqb k' k); [ | exact IH ]. by intros [= <-].
Qed.

Lemma resolves_well_formed segments : ∀ value v,
  well_formed value → resolves value segments = Some v → well_formed v.
Proof.
  induction segments as [ | seg rest IH ]; intros value v Hwf; cbn [resolves].
  - by intros [= <-].
  - destruct value as [ | | | | | d ]; try discriminate.
    apply well_formed_dict in Hwf as [_ Hwf].
    destruct (dict_get d seg) as [x | ] eqn:Ex; [ | discriminate ].
    apply IH. by eapply dict_get_well_formed.
Qed.

Lemma resolved_well_formed item field : well_formed item → well_formed (resolved item field).
Proof.
  intros Hwf. unfold resolved.
  destruct (resolves item (Py.split "." field)) as [v | ] eqn:Ev; [ | exact I ].
  by eapply resolves_well_formed.
Qed.

Lemma projected_well_formed selected_fields item :
  well_formed item → well_formed (JObj (projected selected_fields item)).
Proof.
  intros Hwf. unfold projected.
  assert (well_formed (JObj [])) as Hacc by (apply well_formed_dict; split; constructor).
  revert Hacc. generalize (@nil (string * json)).
  induction selected_fields as [ | field fields IH ]; intros acc Hacc; [exact Hacc | ].
  cbn [fold_left]. apply IH. apply well_formed_dict in Hacc as [Hnd Hvals].
  apply well_formed_dict. split.
  - by apply dict_set_nodup.
  - apply dict_set_values; [by apply resolved_well_formed | done].
Qed.

Lemma well_formed_data (data : list dict) :
  Forall (λ item, well_formed (JObj item)) data → well_formed (json_of_data data).
Proof.
  intros H. apply well_formed_list. by apply Forall_fmap.
Qed.

(** C9: the JSON renderer hands the encoder the records as they are, with
    no renaming and no reordering of keys, and decoding what the encoder
    produces gives the records back: the same dicts, with the same dotted
    keys in the same order and the same values.  This holds for records
    whose dicts have one entry per key, and so for the records projected
    from any input of that kind. *)
Theorem json_round_trip (data : list dict) :
  Forall (λ item, well_formed (JObj item)) data →
  (∀ r output_path w,
     export_to_json r data output_path w
     = write_file r output_path (JsonText (json_dumps data)) w)
  ∧ json_dumps data = json_encode 0 (JList (map JObj data))
  ∧ json_loads (json_dumps data) = Some (JList (map JObj data))
  ∧ (∀ selected_fields items,
       Forall well_formed items →
       json_loads (json_dumps (map (projected selected_fields) items))
       = Some (JList (map JObj (map (projected selected_fields) items)))).
Proof.
  intros Hwf. split; [reflexivity | ]. split; [reflexivity | ]. split.
  - apply json_loads_encode, well_formed_data, Hwf.
  - intros selected_fields items Hitems.
    apply json_loads_encode, well_formed_data, Forall_fmap.
    eapply Forall_impl; [exact Hitems | ]. intros item. apply projected_well_formed.
Qed.

Lemma json_round_trip_witness :
  Forall (λ item, well_formed (JObj item)) sample_records
  ∧ json_loads (json_dumps sample_records) = Some (JList (map JObj sample_records)).
Proof.
  assert (H : Forall (λ item, well_formed (JObj item)) sample_records).
  { repeat (apply Forall_cons; split); try apply Forall_nil;
      cbn; repeat split; apply (bool_decide_unpack _); vm_compute; exact I. }
  split; [exact H | ].
  destruct (json_round_trip sample_records H) as (_ & _ & Hloads & _). exact Hloads.
Defined.

(** *** Dialogs *)

Lemma no_dialog_ret {A} (a : A) : no_dialog (mret a).
Proof. intros w. reflexivity. Qed.

Lemma no_dialog_raise {A} e : no_dialog (@raise A e).
Proof. intros w. reflexivity. Qed.

Lemma no_dialog_lift {A} (x : result A) : no_dialog (lift x).
Proof. intros w. reflexivity. Qed.

Lemma no_dialog_update_status msg p : no_dialog (update_status msg p).
Proof. intros w. reflexivity. Qed.

Lemma no_dialog_write_file r path c : no_dialog (write_file r path c).
Proof. intros w. unfold write_file. by destruct (refused r path). Qed.

Lemma no_dialog_makedirs r path : no_dialog (makedirs r path).
Proof. intros w. unfold makedirs. by destruct (refused r path). Qed.

Lemma no_dialog_bind {A B} (m : M A) (f : A → M B) :
  no_dialog m → (∀ a, no_dialog (f a)) → no_dialog (m ≫= f).
Proof.
  intros Hm Hf w. unfold mbind, M_bind. specialize (Hm w).
  destruct (m w) as [[a | e] w1]; cbn [snd] in *; [ | exact Hm].
  by rewrite Hf.
Qed.

Lemma no_dialog_for {A St} (body : nat → A → St → M St) l :
  (∀ i x acc, no_dialog (body i x acc)) → ∀ i acc, no_dialog (for_enumerate body i l acc).
Proof.
  intros Hbody. induction l as [ | x l IH ]; intros i acc; cbn [for_enumerate].
  - apply no_dialog_ret.
  - apply no_dialog_bind; [apply Hbody | intros acc'; apply IH].
Qed.

Lemma info_on_return_bind {A B} (m : M A) (f : A → M B) :
  no_dialog m → (∀ a, info_on_return (f a)) → info_on_return (m ≫= f).
Proof.
  intros Hm Hf w. unfold mbind, M_bind. specialize (Hm w).
  destruct (m w) as [[a | e] w1]; cbn [fst snd] in *; [ | exact Hm].
  specialize (Hf a w1). by rewrite Hm in Hf.
Qed.

Lemma info_on_return_show output_files : info_on_return (show (ShowInfo output_files)).
Proof. intros w. cbn. eauto. Qed.

Lemma no_dialog_export_as r fmt data output_path :
  no_dialog (export_as r fmt data output_path).
Proof.
  unfold export_as, export_to_csv, export_to_json, export_to_excel, export_to_yaml,
    export_to_xml, export_to_markdown.
  repeat match goal with |- context [String.eqb ?a ?b] => destruct (String.eqb a b) end;
    try destruct data;
    auto using no_dialog_ret, no_dialog_raise, no_dialog_write_file, no_dialog_bind,
      no_dialog_lift.
Qed.

Lemma no_dialog_ext_of fmt : no_dialog (ext_of fmt).
Proof. unfold ext_of. destruct (dict_get format_ext fmt); [apply no_dialog_ret | apply no_dialog_raise]. Qed.

Lemma info_on_return_export_all r data : info_on_return (export_all r data).
Proof.
  unfold export_all. apply info_on_return_bind.
  { apply no_dialog_for. intros i fmt [].
    repeat (apply no_dialog_bind; [ | intros ? ]);
      auto using no_dialog_update_status, no_dialog_ext_of, no_dialog_export_as. }
  intros _. apply info_on_return_bind; [apply no_dialog_update_status | ]. intros _.
  apply info_on_return_bind; [ | intros exts; apply info_on_return_show ].
  apply no_dialog_for. intros i fmt exts.
  apply no_dialog_bind; [apply no_dialog_ext_of | intros ext; apply no_dialog_ret].
Qed.

Lemma info_on_return_export_single r data : info_on_return (export_single r data).
Proof.
  unfold export_single.
  apply info_on_return_bind; [apply no_dialog_ext_of | intros ext].
  apply info_on_return_bind; [apply no_dialog_update_status | intros _].
  apply info_on_return_bind; [apply no_dialog_export_as | intros _].
  apply info_on_return_bind; [apply no_dialog_update_status | intros _].
  apply info_on_return_show.
Qed.

Lemma no_dialog_filter_data data : no_dialog (filter_data data).
Proof.
  unfold filter_data. apply no_dialog_bind; [apply no_dialog_update_status | intros _].
  apply no_dialog_for. intros i item acc.
  apply no_dialog_bind; [apply no_dialog_update_status | intros _; apply no_dialog_ret].
Qed.

Lemma no_dialog_extract_data selected_fields data :
  no_dialog (extract_data selected_fields data).
Proof.
  unfold extract_data. apply no_dialog_bind; [apply no_dialog_update_status | intros _].
  apply no_dialog_for. intros i item acc.
  apply no_dialog_bind; [apply no_dialog_lift | intros d].
  apply no_dialog_bind; [apply no_dialog_update_status | intros _; apply no_dialog_ret].
Qed.

Lemma no_dialog_write_individual_files r data : no_dialog (write_individual_files r data).
Proof.
  unfold write_individual_files.
  apply no_dialog_bind; [apply no_dialog_update_status | intros _].
  apply no_dialog_bind; [apply no_dialog_makedirs | intros _].
  apply no_dialog_for. intros i item [].
  apply no_dialog_bind; [apply no_dialog_lift | intros f].
  apply no_dialog_bind; [apply no_dialog_write_file | intros _].
  apply no_dialog_update_status.
Qed.

Lemma info_on_return_export_steps r : info_on_return (export_steps r).
Proof.
  unfold export_steps.
  apply info_on_return_bind; [apply no_dialog_update_status | intros _].
  apply info_on_return_bind; [apply no_dialog_lift | intros data].
  apply info_on_return_bind.
  { destruct data; first [apply no_dialog_ret | apply no_dialog_raise]. }
  intros l. apply info_on_return_bind.
  { destruct (filter_personal r); [apply no_dialog_filter_data | apply no_dialog_ret]. }
  intros survivors.
  apply info_on_return_bind; [apply no_dialog_extract_data | intros extracted_data].
  apply info_on_return_bind; [apply no_dialog_write_individual_files | intros _].
  destruct (String.eqb _ _);
    [apply info_on_return_export_all | apply info_on_return_export_single].
Qed.

(** X1: a run never lets an exception out, and it ends with exactly one
    dialog: the information dialog when every step succeeded, and the
    error dialog, with the exception raised, when a step failed. *)
Theorem perform_export_one_dialog (r : run) (w : world) :
  (perform_export r w).1 = Ok ()
  ∧ ∃ d, dialogs (perform_export r w).2 = dialogs w ++ [d]
         ∧ match (export_steps r w).1 with
           | Ok _ => ∃ output_files, d = ShowInfo output_files
           | Raise e => d = ShowError e
           end.
Proof.
  pose proof (info_on_return_export_steps r w) as H. unfold perform_export.
  destruct (export_steps r w) as [[[] | e] w1]; cbn [fst snd] in *.
  - split; [reflexivity | ]. destruct H as [names H]. exists (ShowInfo names). eauto.
  - split; [reflexivity | ]. exists (ShowError e).
    unfold mbind, M_bind, update_status, show. cbn [fst snd dialogs]. by rewrite H.
Qed.

(** *** Runs that stop before anything is written *)

(** X2: when the input cannot be read or decoded, or decodes to something
    other than an array, the run reports 5, then the error at 0, shows the
    error dialog, and writes no file and creates no directory; the message
    for a value that is not an array names its Python type. *)
Theorem bad_input_writes_nothing (r : run) (w : world) :
  match input_data r with Ok (JList _) => False | _ => True end →
  let e := match input_data r with
           | Raise e => e
           | Ok v => ValueError ("Expected a JSON array, but got " +:+ type_name v)
           end in
  perform_export r w
  = (Ok (), World (files w) (directories w)
              (statuses w ++ [(ReadingInput, 5%Q); (ErrorStatus e, 0%Q)])
              (dialogs w ++ [ShowError e])).
Proof.
  intros Hbad e. unfold perform_export, export_steps.
  unfold mbind, M_bind, update_status, lift, show, raise. cbn [fst snd].
  subst e. destruct (input_data r) as [[ | b | n | s | l | d] | e]; try done;
    cbn [files directories statuses dialogs]; by rewrite <- app_assoc.
Qed.

Lemma bad_input_writes_nothing_witness :
  perform_export run_on_object initial_world
  = (Ok (), World ∅ ∅
              [(ReadingInput, 5%Q);
               (ErrorStatus (ValueError "Expected a JSON array, but got dict"), 0%Q)]
              [ShowError (ValueError "Expected a JSON array, but got dict")]).
Proof.
  exact (bad_input_writes_nothing run_on_object initial_world I).
Defined.

(** *** Steps that only report progress *)

Lemma status_only_ret {A} (a : A) : status_only (mret a).
Proof. intros w. done. Qed.

Lemma status_only_lift {A} (x : result A) : status_only (lift x).
Proof. intros w. done. Qed.

Lemma status_only_update_status msg p : status_only (update_status msg p).
Proof. intros w. done. Qed.

Lemma status_only_bind {A B} (m : M A) (f : A → M B) :
  status_only m → (∀ a, status_only (f a)) → status_only (m ≫= f).
Proof.
  intros Hm Hf w. unfold mbind, M_bind. specialize (Hm w).
  destruct (m w) as [[a | e] w1]; cbn [snd] in *; [ | exact Hm].
  destruct Hm as (H1 & H2 & H3), (Hf a w1) as (H4 & H5 & H6).
  by rewrite H4, H5, H6.
Qed.

Lemma status_only_for {A St} (body : nat → A → St → M St) l :
  (∀ i x acc, status_only (body i x acc)) →
  ∀ i acc, status_only (for_enumerate body i l acc).
Proof.
  intros Hbody. induction l as [ | x l IH ]; intros i acc; cbn [for_enumerate].
  - apply status_only_ret.
  - apply status_only_bind; [apply Hbody | intros acc'; apply IH].
Qed.

Lemma status_only_filter_data data : status_only (filter_data data).
Proof.
  unfold filter_data. apply status_only_bind; [apply status_only_update_status | intros _].
  apply status_only_for. intros i item acc.
  apply status_only_bind; [apply status_only_update_status | intros _; apply status_only_ret].
Qed.

Lemma status_only_extract_data selected_fields data :
  status_only (extract_data selected_fields data).
Proof.
  unfold extract_data. apply status_only_bind; [apply status_only_update_status | intros _].
  apply status_only_for. intros i item acc.
  apply status_only_bind; [apply status_only_lift | intros d].
  apply status_only_bind; [apply status_only_update_status | intros _; apply status_only_ret].
Qed.

(** A run on an array extracts the selected fields of the surviving
    records, touching nothing but the progress display, and goes on to
    write. *)
Lemma export_steps_on_array r l w :
  input_data r = Ok (JList l) →
  ∃ w2, files w2 = files w ∧ directories w2 = directories w ∧ dialogs w2 = dialogs w
        ∧ export_steps r w
          = write_outputs r (map (projected (selected r)) (survivors r l)) w2.
Proof.
  intros Hin. unfold export_steps. fold (selected r).
  unfold mbind at 1, M_bind at 1. cbn [update_status].
  unfold mbind at 1, M_bind at 1. unfold lift at 1. rewrite Hin.
  unfold mbind at 1, M_bind at 1. cbn [mret M_ret].
  set (w0 := World _ _ _ _).
  assert (∃ w1, files w1 = files w ∧ directories w1 = directories w ∧ dialogs w1 = dialogs w
                ∧ (if filter_personal r then filter_data l else mret l) w0
                  = (Ok (survivors r l), w1)) as (w1 & Hf1 & Hd1 & Hg1 & Hstep1).
  { unfold survivors. destruct (filter_personal r).
    - destruct (filter_data_result l w0) as [w1 Hw1].
      destruct (status_only_filter_data l w0) as (H1 & H2 & H3).
      rewrite Hw1 in H1, H2, H3. cbn [snd] in *. by exists w1.
    - by exists w0. }
  unfold mbind at 1, M_bind at 1. rewrite Hstep1.
  destruct (extract_data_result (selected r) (survivors r l) w1) as [w2 Hw2].
  destruct (status_only_extract_data (selected r) (survivors r l) w1) as (H1 & H2 & H3).
  rewrite Hw2 in H1, H2, H3. cbn [snd] in *.
  unfold mbind at 1, M_bind at 1. rewrite Hw2.
  exists w2. repeat split; congruence.
Qed.

Lemma write_individual_files_nil r w :
  refused r (individual_configs_dir r) = false →
  write_individual_files r [] w
  = (Ok (), World (files w) ({[individual_configs_dir r]} ∪ directories w)
              (statuses w ++ [(CreatingIndividualFiles, 65%Q)]) (dialogs w)).
Proof.
  intros Hdir. unfold write_individual_files, mbind, M_bind, update_status, makedirs.
  fold (individual_configs_dir r). cbn [files directories statuses dialogs].
  rewrite Hdir. reflexivity.
Qed.

(** X3: when no record is left to export -- the array is empty, or the
    filter is on and every record has personal information -- and the
    file system refuses nothing, the run still creates the directory of
    the per-record documents; the CSV, Excel and Markdown formats, and so
    the export to all formats, then fail with [No data to export] and
    write no file, while the JSON, YAML and XML formats succeed and write
    an empty array, an empty list and an empty [models] element. *)
Theorem no_record_left (r : run) (l : list json) (w : world) :
  input_data r = Ok (JList l) →
  survivors r l = [] →
  (∀ path, refused r path = false) →
  let w' := (perform_export r w).2 in
  let succeeds ext c :=
    files w' = <[export_path r ext := c]> (files w)
    ∧ directories w' = {[individual_configs_dir r]} ∪ directories w
    ∧ dialogs w' = dialogs w ++ [ShowInfo [export_path r ext]] in
  (export_format r ∈ ["csv"; "excel"; "markdown"; "all"] →
     files w' = files w
     ∧ directories w' = {[individual_configs_dir r]} ∪ directories w
     ∧ dialogs w' = dialogs w ++ [ShowError (ValueError "No data to export")])
  ∧ (export_format r = "json" → succeeds ".json" (JsonText "[]"))
  ∧ (export_format r = "yaml" → succeeds ".yaml" (YamlDoc []))
  ∧ (export_format r = "xml" → succeeds ".xml" (XmlDoc (Element "models" []))).
Proof.
  intros Hin Hnone Hfs. cbv zeta.
  destruct (export_steps_on_array r l w Hin) as (w2 & Hf & Hd & Hg & Hsteps).
  rewrite Hnone in Hsteps. cbn [map] in Hsteps. unfold write_outputs in Hsteps.
  unfold mbind at 1, M_bind at 1 in Hsteps.
  rewrite write_individual_files_nil in Hsteps by apply Hfs.
  set (w3 := World _ _ _ _) in Hsteps.
  assert (Hsingle : ∀ fmt ext c, export_format r = fmt → fmt ≠ "all" →
            dict_get format_ext fmt = Some ext →
            export_as r fmt [] (export_path r ext) = write_file r (export_path r ext) c →
            perform_export r w
            = (Ok (), World (<[export_path r ext := c]> (files w3)) (directories w3)
                 (statuses w3 ++ [(ExportingSingle fmt, 70%Q);
                                   (CompletedSingle (export_path r ext), 100%Q)])
                 (dialogs w3 ++ [ShowInfo [export_path r ext]]))).
  { intros fmt ext c Hfmt Hne Hext Has. unfold perform_export. rewrite Hsteps, Hfmt.
    destruct (String.eqb_spec fmt "all") as [ | _]; [done | ].
    unfold export_single, ext_of. rewrite Hfmt, Hext.
    unfold mbind, M_bind. cbn [mret M_ret update_status]. rewrite Has.
    unfold write_file. rewrite Hfs. cbn [show files directories statuses dialogs].
    by rewrite <- app_assoc. }
  assert (Hfail : export_format r ∈ ["csv"; "excel"; "markdown"; "all"] →
            ∃ st, perform_export r w
                  = (Ok (), World (files w3) (directories w3) st
                              (dialogs w3 ++ [ShowError (ValueError "No data to export")]))).
  { intros Hel. unfold perform_export. rewrite Hsteps.
    rewrite !elem_of_cons, elem_of_nil in Hel.
    destruct Hel as [Hfmt | [Hfmt | [Hfmt | [Hfmt | []]]]]; rewrite Hfmt;
      [ unfold export_single, ext_of; rewrite Hfmt .. | unfold export_all ];
      eexists; unfold mbind, M_bind; reflexivity. }
  subst w3. cbn [files directories dialogs] in *.
  split; [ | split; [ | split]].
  - intros Hel. destruct (Hfail Hel) as [st ->].
    cbn [snd files directories dialogs]. by rewrite Hf, Hd, Hg.
  - intros Hj. rewrite (Hsingle "json" ".json" (JsonText "[]") Hj); try done.
    cbn [snd files directories dialogs]. by rewrite Hf, Hd, Hg.
  - intros Hj. rewrite (Hsingle "yaml" ".yaml" (YamlDoc []) Hj); try done.
    cbn [snd files directories dialogs]. by rewrite Hf, Hd, Hg.
  - intros Hj. rewrite (Hsingle "xml" ".xml" (XmlDoc (Element "models" [])) Hj); try done.
    cbn [snd files directories dialogs]. by rewrite Hf, Hd, Hg.
Qed.

Lemma no_record_left_witness :
  files (perform_export run_on_empty_array initial_world).2
  = <[export_path run_on_empty_array ".json" := JsonText "[]"]> ∅.
Proof.
  destruct (no_record_left run_on_empty_array [] initial_world eq_refl eq_refl
              (λ _, eq_refl)) as (_ & Hjson & _).
  destruct (Hjson eq_refl) as (Hfiles & _). exact Hfiles.
Defined.

(** *** Names of the per-record documents *)

Lemma make_filename_passes model_name :
  make_filename model_name
  = Py.join_if keep_in_filename
      (map_chars (λ c, separator_to_dash (Py.lower_char c)) model_name) +:+ ".md".
Proof.
  unfold make_filename.
  rewrite !replace_one_char, lower_map_chars, !map_chars_compose. do 2 f_equal.
  apply map_chars_ext. intros c. apply (separator_to_dash_steps (Py.lower_char c)).
Qed.

Lemma join_if_map_chars_Forall (Q : ascii → Prop) keep g s :
  (∀ c, keep (g c) = true → Q (g c)) →
  Forall Q (String.list_ascii_of_string (Py.join_if keep (map_chars g s))).
Proof.
  intros H. induction s as [ | c s IH ]; [constructor | ].
  cbn [map_chars Py.join_if]. destruct (keep (g c)) eqn:E; [ | exact IH].
  cbn [String.list_ascii_of_string]. constructor; auto.
Qed.

Lemma join_if_length keep s : String.length (Py.join_if keep s) ≤ String.length s.
Proof.
  induction s as [ | c s IH ]; [done | ]. cbn [Py.join_if].
  destruct (keep c); cbn [String.length]; lia.
Qed.

Lemma map_chars_length f s : String.length (map_chars f s) = String.length s.
Proof. induction s as [ | c s IH ]; [done | ]. cbn. by rewrite IH. Qed.

Lemma contains_char_false x s :
  Forall (λ c, c ≠ x) (String.list_ascii_of_string s) → Py.contains (String x "") s = false.
Proof.
  induction s as [ | c s IH ]; [reflexivity | ].
  cbn [String.list_ascii_of_string]. intros [Hc Hs]%Forall_cons.
  cbn [Py.contains String.prefix]. rewrite (IH Hs).
  destruct (ascii_dec x c) as [-> | _]; [done | ]. reflexivity.
Qed.

Lemma list_ascii_of_string_append s t :
  String.list_ascii_of_string (s +:+ t) = String.list_ascii_of_string s ++ String.list_ascii_of_string t.
Proof. induction s as [ | c s IH ]; [done | ]. rewrite append_cons. cbn. by rewrite IH. Qed.

Lemma kept_character c :
  keep_in_filename (separator_to_dash (Py.lower_char c)) = true →
  let k := separator_to_dash (Py.lower_char c) in
  keep_in_filename k = true ∧ Py.between 65 90 k = false
  ∧ k ≠ "/"%char ∧ k ≠ "\"%char ∧ k ≠ " "%char ∧ k ≠ "."%char.
Proof.
  destruct c as [[] [] [] [] [] [] [] []]; vm_compute; intros H;
    try discriminate H; repeat split; discriminate.
Qed.

(** X4: the name of a per-record document is a stem followed by [.md];
    the stem is no longer than the record's name and holds only
    characters that are alphanumeric, [-] or [_], none of them an ASCII
    capital, a space, a dot, a slash or a backslash: the document cannot
    leave the directory it is written to. *)
Theorem filename_is_safe (model_name : string) :
  ∃ stem,
    make_filename model_name = stem +:+ ".md"
    ∧ String.length stem ≤ String.length model_name
    ∧ Forall (λ c, keep_in_filename c = true ∧ Py.between 65 90 c = false
                   ∧ c ≠ "/"%char ∧ c ≠ "\"%char ∧ c ≠ " "%char ∧ c ≠ "."%char)
        (String.list_ascii_of_string stem)
    ∧ Py.contains "/" (make_filename model_name) = false
    ∧ Py.contains "\" (make_filename model_name) = false.
Proof.
  rewrite make_filename_passes.
  set (stem := Py.join_if _ _). exists stem.
  assert (Hstem : Forall (λ c, keep_in_filename c = true ∧ Py.between 65 90 c = false
                    ∧ c ≠ "/"%char ∧ c ≠ "\"%char ∧ c ≠ " "%char ∧ c ≠ "."%char)
                    (String.list_ascii_of_string stem)).
  { apply join_if_map_chars_Forall. intros c. apply kept_character. }
  split; [reflexivity | ]. split.
  { subst stem. etrans; [apply join_if_length | ]. by rewrite map_chars_length. }
  split; [exact Hstem | ].
  split; apply contains_char_false; rewrite list_ascii_of_string_append;
    (apply Forall_app; split;
     [ eapply Forall_impl; [exact Hstem | ]; cbn beta; tauto
     | repeat constructor; discriminate ]).
Qed.

(** *** The per-record documents *)

Lemma write_individual_files_steps r data :
  write_individual_files r data
  = (_ ← update_status CreatingIndividualFiles 65;
     _ ← makedirs r (individual_configs_dir r);
     for_enumerate (individual_file_step r (length data)) 0 data ()).
Proof. reflexivity. Qed.

Lemma individual_file_step_named r total i item model_name w :
  refused r (path_join (individual_configs_dir r) [make_filename model_name]) = false →
  name_of item = JStr model_name →
  individual_file_step r total i item () w
  = (Ok (),
     World (<[path_join (individual_configs_dir r) [make_filename model_name]
              := document_of item]> (files w))
       (directories w)
       (statuses w ++ [(CreatingIndividualFile (i + 1) total, progress_at 65 (i + 1) 5 total)])
       (dialogs w)).
Proof.
  intros Hfs Hname. unfold individual_file_step, document_of. fold (name_of item).
  rewrite Hname. unfold mbind, M_bind, lift, write_file. cbn [filename_of].
  rewrite Hfs. reflexivity.
Qed.

Lemma individual_files_loop r total data : ∀ i w,
  (∀ path, refused r path = false) →
  Forall (λ item, ∃ model_name, name_of item = JStr model_name) data →
  ∃ w', for_enumerate (individual_file_step r total) i data () w = (Ok (), w')
        ∧ directories w' = directories w
        ∧ ∀ path,
            files w' !! path
            = match last (filter (λ item, document_path r item = Some path) data) with
              | Some item => Some (document_of item)
              | None => files w !! path
              end.
Proof.
  intros i w Hfs Hnames. revert i w.
  induction Hnames as [ | item data [model_name Hname] _ IH ]; intros i w.
  - exists w. done.
  - cbn [for_enumerate]. unfold mbind, M_bind.
    rewrite (individual_file_step_named r total i item model_name) by done.
    set (w1 := World _ _ _ _).
    destruct (IH (S i) w1) as (w' & -> & Hdirs & Hfiles).
    exists w'. split; [reflexivity | ]. split; [exact Hdirs | ].
    intros path. rewrite Hfiles, filter_cons.
    assert (Hpath : document_path r item
                    = Some (path_join (individual_configs_dir r) [make_filename model_name])).
    { unfold document_path. by rewrite Hname. }
    destruct (decide (document_path r item = Some path)) as [Hhere | Hother].
    + rewrite last_cons.
      destruct (last (filter _ data)); [reflexivity | ].
      subst w1. cbn [files]. rewrite Hpath in Hhere. injection Hhere as <-.
      by rewrite lookup_insert_eq.
    + destruct (last (filter _ data)); [reflexivity | ].
      subst w1. cbn [files]. rewrite lookup_insert_ne; [reflexivity | ].
      intros <-. by rewrite Hpath in Hother.
Qed.

Lemma write_individual_files_named r data w :
  (∀ path, refused r path = false) →
  Forall (λ item, ∃ model_name, name_of item = JStr model_name) data →
  ∃ w', write_individual_files r data w = (Ok (), w')
        ∧ directories w' = {[individual_configs_dir r]} ∪ directories w
        ∧ dialogs w' = dialogs w
        ∧ ∀ path,
            files w' !! path
            = match last (filter (λ item, document_path r item = Some path) data) with
              | Some item => Some (document_of item)
              | None => files w !! path
              end.
Proof.
  intros Hfs Hnames. rewrite write_individual_files_steps.
  unfold mbind, M_bind, update_status, makedirs. rewrite Hfs.
  cbn [files directories statuses dialogs]. set (w1 := World _ _ _ _).
  destruct (individual_files_loop r (length data) data 0 w1 Hfs Hnames)
    as (w' & Hrun & Hdirs & Hfiles).
  exists w'. split; [exact Hrun | ]. split; [exact Hdirs | ]. split; [ | exact Hfiles].
  pose proof (no_dialog_for (individual_file_step r (length data)) data) as Hquiet.
  specialize (Hquiet ltac:(intros i item []; unfold individual_file_step;
                           repeat (apply no_dialog_bind; [ | intros ? ]);
                           auto using no_dialog_lift, no_dialog_write_file,
                             no_dialog_update_status) 0 () w1).
  by rewrite Hrun in Hquiet.
Qed.

(** X5: when every record has a string for a name and the file system
    refuses nothing, the per-record documents are all written; afterwards
    a path holds the document of the last record whose document goes to
    that path, and what it held before when there is no such record.
    Records whose names give the same file name share one file, and the
    later one is what remains. *)
Theorem individual_files_last_wins (r : run) (data : list dict) (w : world) :
  (∀ path, refused r path = false) →
  Forall (λ item, ∃ model_name, name_of item = JStr model_name) data →
  (write_individual_files r data w).1 = Ok ()
  ∧ directories (write_individual_files r data w).2
    = {[individual_configs_dir r]} ∪ directories w
  ∧ ∀ path,
      files (write_individual_files r data w).2 !! path
      = match last (filter (λ item, document_path r item = Some path) data) with
        | Some item => Some (document_of item)
        | None => files w !! path
        end.
Proof.
  intros Hfs Hnames.
  destruct (write_individual_files_named r data w Hfs Hnames)
    as (w' & -> & Hdirs & _ & Hfiles).
  done.
Qed.

Lemma individual_files_last_wins_witness :
  files (write_individual_files run_on_empty_array two_records_one_name initial_world).2
    !! "out/export_260101_120000/individual-configs/gpt-4.md"
  = Some (document_of [("name", JStr "gpt-4"); ("info.meta.description", JStr "second")]).
Proof.
  assert (Hnames : Forall (λ item, ∃ model_name, name_of item = JStr model_name)
                     two_records_one_name).
  { repeat constructor; eexists; reflexivity. }
  destruct (individual_files_last_wins run_on_empty_array two_records_one_name
              initial_world (λ _, eq_refl) Hnames) as (_ & _ & Hfiles).
  rewrite Hfiles. reflexivity.
Defined.

(** *** What a projected record holds *)

Lemma dict_get_set (d : dict) k v k' :
  dict_get (dict_set d k v) k' = if String.eqb k k' then Some v else dict_get d k'.
Proof.
  induction d as [ | [k0 v0] d IH ]; cbn [dict_set dict_get].
  - reflexivity.
  - destruct (String.eqb_spec k0 k) as [-> | Hne]; cbn [dict_get].
    + destruct (String.eqb k k'); reflexivity.
    + rewrite IH. destruct (String.eqb_spec k0 k') as [-> | _]; [ | reflexivity].
      destruct (String.eqb_spec k k') as [-> | _]; [done | reflexivity].
Qed.

Lemma projected_lookup selected_fields item field :
  dict_get (projected selected_fields item) field
  = if bool_decide (field ∈ selected_fields) then Some (resolved item field) else None.
Proof.
  unfold projected.
  enough (∀ acc, dict_get (fold_left (λ d f, dict_set d f (resolved item f))
                             selected_fields acc) field
                 = if bool_decide (field ∈ selected_fields) then Some (resolved item field)
                   else dict_get acc field) as H by apply H.
  induction selected_fields as [ | f fs IH ]; intros acc; cbn [fold_left].
  - reflexivity.
  - rewrite IH, dict_get_set.
    destruct (decide (field ∈ fs)) as [Hin | Hout].
    + rewrite !bool_decide_eq_true_2; [done | by right | done].
    + rewrite (bool_decide_eq_false_2 _ Hout).
      destruct (String.eqb_spec f field) as [-> | Hne].
      * rewrite bool_decide_eq_true_2; [done | by left].
      * rewrite bool_decide_eq_false_2; [done | ].
        rewrite elem_of_cons. intros [-> | ?]; done.
Qed.

Lemma bind_raises {A B} (m : M A) (f : A → M B) w e :
  (m w).1 = Raise e → ((m ≫= f) w).1 = Raise e.
Proof. unfold mbind, M_bind. destruct (m w) as [[a | e'] w1]; cbn; congruence. Qed.

Lemma bind_returns {A B} (m : M A) (f : A → M B) w a w1 :
  m w = (Ok a, w1) → (m ≫= f) w = f a w1.
Proof. unfold mbind, M_bind. by intros ->. Qed.

Lemma individual_files_loop_raises r total data : ∀ i w,
  (∀ path, refused r path = false) →
  Exists (λ item, ∀ model_name, name_of item ≠ JStr model_name) data →
  (for_enumerate (individual_file_step r total) i data () w).1 = Raise AttributeError.
Proof.
  intros i w Hfs Hbad. revert i w.
  induction data as [ | item data IH ]; intros i w; [by apply Exists_nil in Hbad | ].
  cbn [for_enumerate]. unfold mbind, M_bind.
  destruct (name_of item) as [ | b | n | model_name | xs | d ] eqn:Hname.
  1-3, 5-6: unfold individual_file_step; fold (name_of item); rewrite Hname; reflexivity.
  rewrite (individual_file_step_named r total i item model_name) by done.
  apply IH. apply Exists_cons in Hbad as [Hhere | Hlater]; [ | exact Hlater].
  by destruct (Hhere model_name).
Qed.

(** X6: when the name is among the selected fields and some surviving
    record has a name that is not a string -- a number, [null], a list --
    the run stops with [AttributeError] while it writes the per-record
    documents, before any export format is written, and shows the error
    dialog. *)
Theorem non_string_name_aborts (r : run) (l : list json) (w : world) :
  input_data r = Ok (JList l) →
  (∀ path, refused r path = false) →
  "name" ∈ selected r →
  Exists (λ item, ∀ model_name, resolved item "name" ≠ JStr model_name) (survivors r l) →
  (∀ w0, (write_individual_files r (map (projected (selected r)) (survivors r l)) w0).1
         = Raise AttributeError)
  ∧ (export_steps r w).1 = Raise AttributeError
  ∧ dialogs (perform_export r w).2 = dialogs w ++ [ShowError AttributeError].
Proof.
  intros Hin Hfs Hsel Hbad.
  assert (Hwrite : ∀ w0,
            (write_individual_files r (map (projected (selected r)) (survivors r l)) w0).1
            = Raise AttributeError).
  { intros w0. rewrite write_individual_files_steps.
    erewrite bind_returns by reflexivity.
    erewrite bind_returns by (unfold makedirs; rewrite Hfs; reflexivity).
    apply individual_files_loop_raises; [exact Hfs | ].
    apply Exists_fmap. eapply Exists_impl; [exact Hbad | ].
    intros item Hitem model_name. unfold name_of, dict_get_or.
    rewrite projected_lookup, bool_decide_eq_true_2 by done. apply Hitem. }
  assert (Hsteps : (export_steps r w).1 = Raise AttributeError).
  { destruct (export_steps_on_array r l w Hin) as (w2 & _ & _ & _ & ->).
    unfold write_outputs. apply bind_raises, Hwrite. }
  split; [exact Hwrite | ]. split; [exact Hsteps | ].
  pose proof (info_on_return_export_steps r w) as Hdialogs. unfold perform_export.
  destruct (export_steps r w) as [[[] | e] w1]; cbn [fst snd] in *; [discriminate | ].
  injection Hsteps as ->. unfold mbind, M_bind, update_status, show.
  cbn [snd dialogs]. by rewrite Hdialogs.
Qed.

Lemma non_string_name_aborts_witness :
  dialogs (perform_export run_with_null_name initial_world).2 = [ShowError AttributeError].
Proof.
  assert (Hsel : "name" ∈ selected run_with_null_name).
  { apply (bool_decide_unpack _). vm_compute. exact I. }
  assert (Hbad : Exists (λ item, ∀ model_name, resolved item "name" ≠ JStr model_name)
                   (survivors run_with_null_name [JObj [("name", JNull)]])).
  { change (survivors run_with_null_name [JObj [("name", JNull)]])
      with [JObj [("name", JNull)]].
    left. intros model_name. discriminate. }
  destruct (non_string_name_aborts run_with_null_name [JObj [("name", JNull)]]
              initial_world eq_refl (λ _, eq_refl) Hsel Hbad) as (_ & _ & Hdialogs).
  exact Hdialogs.
Defined.

(** *** The columns of a run *)

Lemma dict_get_key {A} (d : list (string * A)) k v : dict_get d k = Some v → k ∈ d.*1.
Proof.
  induction d as [ | [k0 v0] d IH ]; [discriminate | ]. cbn [dict_get fmap list_fmap fst].
  destruct (String.eqb_spec k0 k) as [-> | _]; [left | right; auto].
Qed.

Lemma projected_has_key selected_fields item k :
  k ∈ dict_keys (projected selected_fields item) ↔ k ∈ selected_fields.
Proof.
  split; [apply projected_keys | ]. intros Hk.
  apply (dict_get_key _ _ (resolved item k)).
  by rewrite projected_lookup, bool_decide_eq_true_2.
Qed.

Lemma key_union_projected selected_fields items k :
  items ≠ [] →
  k ∈ key_union (map (projected selected_fields) items) ↔ k ∈ selected_fields.
Proof.
  intros Hne. rewrite elem_of_key_union. split.
  - intros (d & Hd & Hk). apply list_elem_of_fmap in Hd as (item & -> & _).
    by apply projected_has_key in Hk.
  - intros Hk. destruct items as [ | item items ]; [done | ].
    exists (projected selected_fields item). split; [left | by apply projected_has_key].
Qed.

Lemma csv_fieldnames_elements data k : k ∈ csv_fieldnames data ↔ k ∈ key_union data.
Proof.
  rewrite csv_fieldnames_eq, elem_of_app, list_elem_of_filter.
  destruct (sorted_strictly (elements (key_union data ∖ list_to_set primary_fields)))
    as [_ Hmem]; [apply NoDup_elements | ].
  rewrite Hmem, elem_of_elements, elem_of_difference, elem_of_list_to_set.
  destruct (decide (k ∈ primary_fields)); tauto.
Qed.

Lemma csv_fieldnames_nodup data : NoDup (csv_fieldnames data).
Proof.
  rewrite csv_fieldnames_eq.
  destruct (sorted_strictly (elements (key_union data ∖ list_to_set primary_fields)))
    as [_ Hmem]; [apply NoDup_elements | ].
  apply NoDup_app. split; [apply NoDup_filter, primary_fields_nodup | ]. split.
  - intros k [_ Hprim]%list_elem_of_filter.
    rewrite Hmem, elem_of_elements, elem_of_difference, elem_of_list_to_set. tauto.
  - unfold Py.sorted. rewrite merge_sort_Permutation. apply NoDup_elements.
Qed.

(** X7: in a run with at least one surviving record, the columns of the
    CSV, Excel and Markdown tables are exactly the selected fields, each
    one once: no selected field is dropped and no other column appears. *)
Theorem columns_are_selected_fields (selected_fields : list string) (items : list json) :
  items ≠ [] →
  let data := map (projected selected_fields) items in
  NoDup (csv_fieldnames data)
  ∧ (∀ field, field ∈ csv_fieldnames data ↔ field ∈ selected_fields)
  ∧ (NoDup selected_fields → csv_fieldnames data ≡ₚ selected_fields)
  ∧ excel_ordered_columns data = csv_fieldnames data
  ∧ markdown_headers data = csv_fieldnames data.
Proof.
  intros Hne data.
  assert (Hmem : ∀ field, field ∈ csv_fieldnames data ↔ field ∈ selected_fields).
  { intros field. rewrite csv_fieldnames_elements. by apply key_union_projected. }
  split; [apply csv_fieldnames_nodup | ]. split; [exact Hmem | ].
  split; [ | split; [apply excel_ordered_columns_eq | reflexivity] ].
  intros Hnd. apply NoDup_Permutation; [apply csv_fieldnames_nodup | exact Hnd | exact Hmem].
Qed.

Lemma columns_are_selected_fields_witness :
  csv_fieldnames
    (map (projected ["id"; "info.params.system"; "name"]) [JObj [("name", JStr "n1")]])
  ≡ₚ ["id"; "info.params.system"; "name"].
Proof.
  destruct (columns_are_selected_fields ["id"; "info.params.system"; "name"]
              [JObj [("name", JStr "n1")]] ltac:(discriminate)) as (_ & _ & Hperm & _).
  apply Hperm. apply (bool_decide_unpack _). vm_compute. exact I.
Defined.

(** *** Tables *)


(** *** Cells of the Markdown table *)

Lemma replace_char (a : ascii) (new s : string) :
  Py.replace (String a "") new s
  = flat_map_chars (λ c, if Ascii.eqb c a then new else String c "") s.
Proof.
  unfold Py.replace. induction s as [ | c s IH ]; [reflexivity | ].
  cbn [Py.replace_from flat_map_chars String.prefix String.length Nat.sub].
  rewrite IH. destruct (ascii_dec a c) as [-> | Hne].
  - rewrite Ascii.eqb_refl, prefix_empty. reflexivity.
  - apply not_eq_sym in Hne. apply Ascii.eqb_neq in Hne. rewrite Hne. reflexivity.
Qed.

Lemma flat_map_chars_append f s t :
  flat_map_chars f (s +:+ t) = flat_map_chars f s +:+ flat_map_chars f t.
Proof.
  induction s as [ | c s IH ]; [reflexivity | ].
  rewrite append_cons. cbn [flat_map_chars]. by rewrite IH, append_assoc.
Qed.

Lemma flat_map_chars_compose f g s :
  flat_map_chars g (flat_map_chars f s) = flat_map_chars (λ c, flat_map_chars g (f c)) s.
Proof.
  induction s as [ | c s IH ]; [reflexivity | ].
  cbn [flat_map_chars]. by rewrite flat_map_chars_append, IH.
Qed.

Lemma flat_map_chars_ext f g s : (∀ c, f c = g c) → flat_map_chars f s = flat_map_chars g s.
Proof. intros H. induction s as [ | c s IH ]; [reflexivity | ]. cbn. by rewrite H, IH. Qed.

Lemma markdown_cell_string s :
  markdown_cell (JStr s) = flat_map_chars markdown_escape s.
Proof.
  unfold markdown_cell, py_str. change nl with (String "010" "").
  rewrite !replace_char, flat_map_chars_compose. apply flat_map_chars_ext.
  intros c. unfold markdown_escape.
  destruct c as [[] [] [] [] [] [] [] []]; reflexivity.
Qed.

Lemma one_line_append s t : one_line s → one_line t → one_line (s +:+ t).
Proof.
  unfold one_line. rewrite list_ascii_of_string_append. intros. by apply Forall_app.
Qed.

Lemma one_line_flat_map_chars f s : (∀ c, one_line (f c)) → one_line (flat_map_chars f s).
Proof.
  intros H. induction s as [ | c s IH ]; [constructor | ].
  cbn [flat_map_chars]. by apply one_line_append.
Qed.

Lemma one_line_join sep parts :
  one_line sep → Forall one_line parts → one_line (Py.join sep parts).
Proof.
  intros Hsep. induction 1 as [ | p ps Hp Hps IH ]; [constructor | ].
  destruct ps as [ | q ps ]; [exact Hp | ].
  change (Py.join sep (p :: q :: ps)) with (p +:+ sep +:+ Py.join sep (q :: ps)).
  by repeat apply one_line_append.
Qed.

Lemma one_line_markdown_escape c : one_line (markdown_escape c).
Proof. destruct c as [[] [] [] [] [] [] [] []]; vm_compute; one_line_literal. Qed.

Lemma one_line_repr_char quote c :
  quote = "'"%char ∨ quote = "034"%char → one_line (repr_char quote c).
Proof.
  intros [-> | ->]; destruct c as [[] [] [] [] [] [] [] []]; vm_compute; one_line_literal.
Qed.

Lemma one_line_repr_str s : one_line (repr_str s).
Proof.
  unfold repr_str.
  destruct (Py.contains "'" s && negb (Py.contains (String "034" "") s)).
  - change (String "034" ?t) with (String "034" "" +:+ t).
    apply one_line_append; [one_line_literal | ].
    apply one_line_append; [ | one_line_literal].
    apply one_line_flat_map_chars. intros c. apply one_line_repr_char. by right.
  - change (String "'" ?t) with (String "'" "" +:+ t).
    apply one_line_append; [one_line_literal | ].
    apply one_line_append; [ | one_line_literal].
    apply one_line_flat_map_chars. intros c. apply one_line_repr_char. by left.
Qed.

Lemma one_line_string_of_uint d : one_line (NilEmpty.string_of_uint d).
Proof. induction d; cbn; constructor; (discriminate || assumption || constructor). Qed.

Lemma one_line_nilzero_uint d : one_line (NilZero.string_of_uint d).
Proof.
  unfold NilZero.string_of_uint.
  destruct d; first [apply one_line_string_of_uint | one_line_literal].
Qed.

Lemma one_line_repr_int n : one_line (repr_int n).
Proof.
  unfold repr_int, NilZero.string_of_int.
  destruct (Z.to_int n) as [d | d]; [apply one_line_nilzero_uint | ].
  constructor; [discriminate | apply one_line_nilzero_uint].
Qed.

Lemma one_line_py_repr v : one_line (py_repr v).
Proof.
  induction v as [ | b | n | s | l IH | d IH ] using json_ind.
  - one_line_literal.
  - destruct b; one_line_literal.
  - apply one_line_repr_int.
  - apply one_line_repr_str.
  - cbn [py_repr]. apply one_line_append; [one_line_literal | ].
    apply one_line_append; [ | one_line_literal].
    apply one_line_join; [one_line_literal | ]. by apply Forall_fmap.
  - cbn [py_repr]. apply one_line_append; [one_line_literal | ].
    apply one_line_append; [ | one_line_literal].
    apply one_line_join; [one_line_literal | ]. apply Forall_fmap.
    eapply Forall_impl; [exact IH | ]. intros [k x] Hx. cbn.
    apply one_line_append; [apply one_line_repr_str | ].
    apply one_line_append; [one_line_literal | exact Hx].
Qed.

Lemma one_line_markdown_cell v : one_line (markdown_cell v).
Proof.
  destruct v as [ | b | n | s | l | d ];
    try (unfold markdown_cell, py_str; apply one_line_py_repr).
  - constructor.
  - rewrite markdown_cell_string. apply one_line_flat_map_chars, one_line_markdown_escape.
Qed.

(** X9: in the Markdown table a string cell is the string with every
    pipe preceded by a backslash and every newline replaced by [<br>];
    no cell, of whatever value, holds a newline, so the line written for
    a record is one line: it ends with the only newline it has. *)
Theorem markdown_record_is_one_line (headers : list string) (item : dict) :
  (∀ s, markdown_cell (JStr s) = flat_map_chars markdown_escape s)
  ∧ (∀ v, one_line (markdown_cell v))
  ∧ ∃ body,
      markdown_line
        (map (λ header, markdown_cell (dict_get_or item header (JStr ""))) headers)
      = body +:+ nl
      ∧ one_line body.
Proof.
  split; [apply markdown_cell_string | ]. split; [apply one_line_markdown_cell | ].
  unfold markdown_line. eexists. split.
  - rewrite <- !append_assoc. reflexivity.
  - apply one_line_append; [apply one_line_append; [one_line_literal | ] | one_line_literal].
    apply one_line_join; [one_line_literal | ]. apply Forall_fmap, Forall_forall.
    intros header _. apply one_line_markdown_cell.
Qed.

(** *** The field checkboxes *)

(** X10: while the checkboxes are those of [field_structure], in its
    order -- as they are once the window is built -- selecting or
    deselecting all keeps them so, building the checkboxes again changes
    nothing, and resetting gives the state the window starts in, whatever
    was ticked before; in that state the four default fields are the
    selected ones. *)
Theorem reset_restores_defaults (field_vars : list (string * bool)) :
  field_vars.*1 = field_names →
  reset_to_default field_vars = Ok (initialize_field_checkboxes [])
  ∧ initialize_field_checkboxes field_vars = field_vars
  ∧ (select_all_fields field_vars).*1 = field_names
  ∧ (deselect_all_fields field_vars).*1 = field_names
  ∧ (initialize_field_checkboxes []).*1 = field_names
  ∧ (filter (λ fv, fv.2 = true) (initialize_field_checkboxes [])).*1
    = ["name"; "info.meta.description"; "info.params.system"; "info.base_model_id"].
Proof.
  intros Hkeys.
  assert (Hmap : ∀ b : bool,
            (map (λ fv : string * bool, (fst fv, b)) field_vars).*1 = field_names).
  { intros b. rewrite <- Hkeys. clear Hkeys.
    induction field_vars as [ | [k v] fvs IH ]; [done | ]. cbn. by rewrite <- IH. }
  split; [ | split; [ | split; [apply Hmap | split; [apply Hmap | split; reflexivity]]]].
  - do 21 (destruct field_vars as [ | [? ?] field_vars ]; try discriminate Hkeys).
    injection Hkeys as -> -> -> -> -> -> -> -> -> -> -> -> -> -> -> -> -> -> -> ->.
    vm_compute. reflexivity.
  - do 21 (destruct field_vars as [ | [? ?] field_vars ]; try discriminate Hkeys).
    injection Hkeys as -> -> -> -> -> -> -> -> -> -> -> -> -> -> -> -> -> -> -> ->.
    vm_compute. reflexivity.
Qed.

Lemma reset_restores_defaults_witness :
  reset_to_default (select_all_fields (initialize_field_checkboxes []))
  = Ok (initialize_field_checkboxes []).
Proof.
  exact (proj1 (reset_restores_defaults
                  (select_all_fields (initialize_field_checkboxes [])) eq_refl)).
Defined.

(** *** Starting a run *)

(** X11: pressing the button starts the export thread exactly when an
    input file and an output directory are given, the input file exists,
    the output directory exists or can be created, and at least one field
    is ticked; with every field deselected it never starts, though by
    then a missing output directory has been created. *)
Theorem export_starts_only_when_valid
    (input_file_var output_dir_var : string) (field_vars : list (string * bool))
    (exists_ refused : string → bool) :
  ((start_export input_file_var output_dir_var field_vars exists_ refused).1 = ThreadStarted
   ↔ input_file_var ≠ "" ∧ output_dir_var ≠ ""
     ∧ exists_ input_file_var = true
     ∧ (exists_ output_dir_var = true ∨ refused output_dir_var = false)
     ∧ (filter (λ fv, fv.2 = true) field_vars).*1 ≠ [])
  ∧ (start_export input_file_var output_dir_var (deselect_all_fields field_vars)
       exists_ refused).1 ≠ ThreadStarted
  ∧ (input_file_var ≠ "" → output_dir_var ≠ "" → exists_ input_file_var = true →
     exists_ output_dir_var = false → refused output_dir_var = false →
     start_export input_file_var output_dir_var (deselect_all_fields field_vars)
       exists_ refused
     = (NoFieldSelected, [output_dir_var])).
Proof.
  assert (Hany : ∀ fvs : list (string * bool),
            existsb (λ fv, fv.2) fvs = true ↔ (filter (λ fv, fv.2 = true) fvs).*1 ≠ []).
  { induction fvs as [ | [k b] fvs IH ]; [done | ].
    cbn [existsb snd]. rewrite filter_cons. cbn [snd].
    destruct b; [rewrite decide_True by done; done | ].
    rewrite decide_False by done. exact IH. }
  assert (Hnone : existsb (λ fv, fv.2) (deselect_all_fields field_vars) = false).
  { unfold deselect_all_fields. induction field_vars as [ | fv fvs IH ]; [done | exact IH]. }
  unfold start_export. split; [ | split].
  - repeat case_bool_decide; try (split; [discriminate | tauto]).
    destruct (exists_ input_file_var); cbn [negb]; [ | split; [discriminate | naive_solver]].
    destruct (exists_ output_dir_var); [ | destruct (refused output_dir_var)];
      cbn [fst]; try (split; [discriminate | naive_solver]);
      (destruct (existsb (λ fv, fv.2) field_vars) eqn:E; cbn [negb fst];
       [ apply Hany in E; naive_solver
       | split; [discriminate | ]; intros (_ & _ & _ & _ & Hsel);
         apply Hany in Hsel; congruence ]).
  - rewrite Hnone. repeat case_bool_decide; try discriminate.
    destruct (exists_ input_file_var); cbn [negb]; [ | discriminate].
    destruct (exists_ output_dir_var); [ | destruct (refused output_dir_var)]; discriminate.
  - intros Hi Ho Hex Hout Hrf. rewrite Hnone, Hex, Hout, Hrf.
    by rewrite !bool_decide_eq_false_2.
Qed.

(** *** The scripts and the window extract alike *)

Lemma split_cons sep s : ∃ p ps, Py.split sep s = p :: ps.
Proof.
  induction s as [ | c s (p & ps & IH) ]; [by eexists _, _ | ].
  cbn [Py.split]. destruct (Ascii.eqb c sep); [by eexists _, _ | ].
  rewrite IH. by eexists _, _.
Qed.

Lemma resolved_not_dict v field : ¬ is_dict v → resolved v field = JStr "".
Proof.
  intros Hv. unfold resolved. destruct (split_cons "." field) as (p & ps & ->).
  destruct v; try reflexivity. destruct Hv. by eexists.
Qed.

Lemma scripts_extract_like_the_window_dict (item : json) :
  is_dict item →
  simplified_item item = Ok (simplified_of item) ∧ model_row item = Ok (row_of item).
Proof.
  intros [d ->]. unfold simplified_of, row_of, primary_fields. cbn [map].
  unfold resolved.
  change (Py.split "." "name") with ["name"].
  change (Py.split "." "info.params.system") with ["info"; "params"; "system"].
  change (Py.split "." "info.meta.description") with ["info"; "meta"; "description"].
  cbn [resolves map simplified_item model_row]. unfold dict_get_or.
  destruct (dict_get d "name") as [name | ];
    (destruct (dict_get d "info") as [[ | | | | | info] | ]; [done .. | | done]);
    (destruct (dict_get info "params") as [[ | | | | | params] | ];
     destruct (dict_get info "meta") as [[ | | | | | meta] | ];
     cbn [dict_set String.eqb Ascii.eqb Bool.eqb];
     repeat match goal with
            | |- context [dict_get ?m ?k] => destruct (dict_get m k)
            end; done).
Qed.

Lemma scripts_extract_like_the_window_not_dict (item : json) :
  ¬ is_dict item →
  simplified_item item = Raise AttributeError
  ∧ model_row item = Raise AttributeError
  ∧ ∀ field, extract_field item field = Ok (JStr "").
Proof.
  intros Hv. split; [ | split].
  - destruct item; try reflexivity. destruct Hv. by eexists.
  - destruct item; try reflexivity. destruct Hv. by eexists.
  - intros field. rewrite extract_field_resolved. fold (resolved item field).
    by rewrite resolved_not_dict.
Qed.

(** X12: on a record that is a mapping the two scripts take the name,
    the description and the system prompt exactly as the window's field
    extraction resolves the paths [name], [info.meta.description] and
    [info.params.system]; on a record that is not a mapping the scripts
    raise [AttributeError], where the window extracts empty strings. *)
Theorem scripts_extract_like_the_window (item : json) :
  (is_dict item →
     simplified_item item = Ok (simplified_of item)
     ∧ model_row item = Ok (row_of item))
  ∧ (¬ is_dict item →
     simplified_item item = Raise AttributeError
     ∧ model_row item = Raise AttributeError
     ∧ ∀ field, extract_field item field = Ok (JStr "")).
Proof.
  split.
  - apply scripts_extract_like_the_window_dict.
  - apply scripts_extract_like_the_window_not_dict.
Qed.

(** *** [simplify_json] *)

Lemma script_bind_returns {A B} (m : Script A) (f : A → Script B) c a c1 :
  m c = (Ok a, c1) → (m ≫= f) c = f a c1.
Proof. unfold mbind, Script_bind. by intros ->. Qed.

Lemma script_bind_raises {A B} (m : Script A) (f : A → Script B) c e c1 :
  m c = (Raise e, c1) → (m ≫= f) c = (Raise e, c1).
Proof. unfold mbind, Script_bind. by intros ->. Qed.

Lemma simplify_step_skips filter_personal i item simplified_data skipped c :
  filter_personal && SimplifyJson.contains_personal_info item personal_terms = true →
  simplify_step filter_personal i item (simplified_data, skipped) c
  = (Ok (simplified_data, skipped + 1),
     Console (disk c) (folders c) (stdout c ++ [SkippedItem (i + 1)])).
Proof. intros H. unfold simplify_step. rewrite H. reflexivity. Qed.

Lemma simplify_step_keeps filter_personal i item simplified simplified_data skipped c :
  filter_personal && SimplifyJson.contains_personal_info item personal_terms = false →
  simplified_item item = Ok simplified →
  simplify_step filter_personal i item (simplified_data, skipped) c
  = (Ok (simplified_data ++ [simplified], skipped),
     Console (disk c) (folders c) (stdout c ++ [SimplifiedItem (i + 1)])).
Proof.
  intros H E. unfold simplify_step. rewrite H.
  unfold mbind, Script_bind, of_result. rewrite E. reflexivity.
Qed.

Lemma simplify_step_raises filter_personal i item e simplified_data skipped c :
  filter_personal && SimplifyJson.contains_personal_info item personal_terms = false →
  simplified_item item = Raise e →
  simplify_step filter_personal i item (simplified_data, skipped) c = (Raise e, c).
Proof.
  intros H E. unfold simplify_step. rewrite H.
  unfold mbind, Script_bind, of_result. rewrite E. reflexivity.
Qed.

(** The loop prints, and nothing else. *)
Lemma simplify_items_prints filter_personal data c :
  ∃ outcome out,
    simplify_items filter_personal data c
    = (outcome, Console (disk c) (folders c) (stdout c ++ out)).
Proof.
  unfold simplify_items. generalize (@nil dict, 0) as acc. generalize 0 as i.
  revert c. induction data as [ | item data IH ]; intros c i acc.
  - exists (Ok acc), []. cbn. rewrite app_nil_r. by destruct c.
  - cbn [for_each]. destruct acc as [simplified_data skipped].
    destruct (filter_personal && SimplifyJson.contains_personal_info item personal_terms)
      eqn:Eskip.
    + erewrite script_bind_returns by by apply simplify_step_skips.
      edestruct IH as (outcome & out & ->). eexists _, (_ :: out).
      cbn [disk folders stdout]. by rewrite <- app_assoc.
    + destruct (simplified_item item) as [simplified | e] eqn:E.
      * erewrite script_bind_returns by by apply simplify_step_keeps.
        edestruct IH as (outcome & out & ->). eexists _, (_ :: out).
        cbn [disk folders stdout]. by rewrite <- app_assoc.
      * erewrite script_bind_raises by by apply simplify_step_raises.
        exists (Raise e), []. rewrite app_nil_r. by destruct c.
Qed.

Lemma simplify_items_result filter_personal data c :
  Forall is_dict (kept_items filter_personal data) →
  ∃ out,
    simplify_items filter_personal data c
    = (Ok (map simplified_of (kept_items filter_personal data),
           length data - length (kept_items filter_personal data)),
       Console (disk c) (folders c) (stdout c ++ out)).
Proof.
  unfold simplify_items.
  enough (∀ i simplified_data skipped c,
            Forall is_dict (kept_items filter_personal data) →
            ∃ out,
              for_each (simplify_step filter_personal) i data (simplified_data, skipped) c
              = (Ok (simplified_data ++ map simplified_of (kept_items filter_personal data),
                     skipped + (length data - length (kept_items filter_personal data))),
                 Console (disk c) (folders c) (stdout c ++ out))) as H.
  { intros Hd. destruct (H 0 [] 0 c Hd) as [out ->]. by exists out. }
  induction data as [ | item data IH ]; intros i simplified_data skipped c0 Hd.
  - exists []. destruct c0, filter_personal; cbn; by rewrite !app_nil_r, Nat.add_0_r.
  - cbn [for_each].
    assert (Hlen : length (kept_items filter_personal data) ≤ length data).
    { unfold kept_items. destruct filter_personal; [apply length_filter | done]. }
    destruct (filter_personal && SimplifyJson.contains_personal_info item personal_terms)
      eqn:Eskip.
    + erewrite script_bind_returns by by apply simplify_step_skips.
      apply andb_true_iff in Eskip as [-> Epers].
      assert (Hk : kept_items true (item :: data) = kept_items true data).
      { unfold kept_items. rewrite filter_cons, decide_False; [done | ]. by rewrite Epers. }
      rewrite Hk in *.
      destruct (IH (S i) simplified_data (skipped + 1) (Console (disk c0) (folders c0)
                  (stdout c0 ++ [SkippedItem (i + 1)])) Hd) as [out ->].
      exists (SkippedItem (i + 1) :: out). cbn [disk folders stdout length].
      rewrite <- app_assoc. do 3 f_equal. lia.
    + assert (Hk : kept_items filter_personal (item :: data)
                   = item :: kept_items filter_personal data).
      { unfold kept_items. destruct filter_personal; [ | done].
        rewrite filter_cons, decide_True; [done | ].
        cbn [andb] in Eskip. exact Eskip. }
      rewrite Hk in *. apply Forall_cons in Hd as [Hitem Hd].
      destruct (scripts_extract_like_the_window_dict item Hitem) as [Hsimplified _].
      erewrite script_bind_returns by by apply simplify_step_keeps.
      destruct (IH (S i) (simplified_data ++ [simplified_of item]) skipped
                  (Console (disk c0) (folders c0)
                     (stdout c0 ++ [SimplifiedItem (i + 1)])) Hd) as [out ->].
      exists (SimplifiedItem (i + 1) :: out). cbn [disk folders stdout length map].
      rewrite <- !app_assoc. reflexivity.
Qed.

(** X13: when the input is an array, every kept item is a mapping and
    the output file and its directory can be created, [simplify_json]
    returns [True]; it creates the directory and writes, as JSON, one
    simplified item per kept item, in order; without the filter every
    item is kept, with it the items with personal information are
    skipped, and the count printed last is that of the skipped ones. *)
Theorem simplify_json_writes (env : os_env) (input_file output_file : string)
    (filter_personal : bool) (data : list json) (c : console) :
  json_load env input_file = Ok (JList data) →
  Forall is_dict (kept_items filter_personal data) →
  dirname output_file ≠ "" →
  denied env (dirname output_file) = false →
  denied env output_file = false →
  let kept := kept_items filter_personal data in
  let out := simplify_json env input_file output_file filter_personal c in
  out.1 = Ok true
  ∧ disk out.2 = <[output_file := JsonText (json_dumps (map simplified_of kept))]> (disk c)
  ∧ folders out.2 = {[dirname output_file]} ∪ folders c
  ∧ last (stdout out.2)
    = Some (if filter_personal then SkippedTotal (length data - length kept)
            else SimplifiedTotal (length kept) output_file)
  ∧ (filter_personal = false → kept = data)
  ∧ (filter_personal = true →
     kept = filter (λ item, contains_personal_info item personal_terms = false) data).
Proof.
  intros Hin Hdicts Hdir Hmk Hopen kept out. subst out.
  assert (Hrun : ∃ lines,
            simplify_json env input_file output_file filter_personal c
            = (Ok true,
               Console (<[output_file := JsonText (json_dumps (map simplified_of kept))]>
                          (disk c))
                 ({[dirname output_file]} ∪ folders c)
                 (stdout c ++ lines
                  ++ [if filter_personal then SkippedTotal (length data - length kept)
                      else SimplifiedTotal (length kept) output_file]))).
  { destruct (simplify_items_result filter_personal data c Hdicts) as [lines Hloop].
    fold kept in Hloop. unfold simplify_json, try_except.
    erewrite script_bind_returns by (unfold of_result; rewrite Hin; reflexivity).
    cbv beta iota. erewrite script_bind_returns by exact Hloop. cbv beta iota.
    erewrite script_bind_returns
      by (unfold os_makedirs; rewrite bool_decide_eq_false_2, Hmk by done; reflexivity).
    erewrite script_bind_returns by (unfold open_write; rewrite Hopen; reflexivity).
    erewrite script_bind_returns by reflexivity.
    cbn [disk folders stdout]. rewrite length_map.
    destruct filter_personal.
    - erewrite script_bind_returns by reflexivity. cbn [mret Script_ret disk folders stdout].
      exists (lines ++ [SimplifiedTotal (length kept) output_file]).
      by rewrite <- !app_assoc.
    - erewrite script_bind_returns by reflexivity. cbn [mret Script_ret].
      exists lines. by rewrite <- !app_assoc. }
  destruct Hrun as [lines ->]. cbn [fst snd disk folders stdout].
  split; [done | ]. split; [done | ]. split; [done | ]. split.
  - by rewrite !app_assoc, last_snoc.
  - split; [by intros -> | intros ->; reflexivity].
Qed.

Lemma simplify_json_writes_witness :
  disk (simplify_json sample_env "in.json" "out/simplified.json" true empty_console).2
  = {[ "out/simplified.json"
       := JsonText
            (json_dumps
               [[("name", JStr "A"); ("system_prompt", JStr ""); ("description", JStr "")]]) ]}.
Proof.
  assert (Hdicts : Forall is_dict
            (kept_items true [JObj [("name", JStr "A"); ("id", JStr "a1")];
                              JObj [("name", JStr "Daniel")]])).
  { vm_compute. repeat constructor. by eexists. }
  destruct (simplify_json_writes sample_env "in.json" "out/simplified.json" true _
              empty_console eq_refl Hdicts ltac:(by vm_compute) eq_refl eq_refl)
    as (_ & Hdisk & _).
  exact Hdisk.
Defined.

(** *** Reading back what the scripts wrote *)

Lemma simplified_of_well_formed item : well_formed item → well_formed (JObj (simplified_of item)).
Proof.
  intros Hwf. apply well_formed_dict. split.
  - apply (bool_decide_unpack _). vm_compute. exact I.
  - unfold simplified_of. repeat constructor; by apply resolved_well_formed.
Qed.

Lemma kept_items_subset filter_personal data item :
  item ∈ kept_items filter_personal data → item ∈ data.
Proof.
  unfold kept_items. destruct filter_personal; [ | done].
  by intros [_ ?]%list_elem_of_filter.
Qed.

(** X14: under the conditions of X13 and for an input whose mappings
    have one entry per key, the file [simplify_json] writes, decoded
    again, is the list of the simplified items. *)
Theorem simplified_file_reads_back (env : os_env) (input_file output_file : string)
    (filter_personal : bool) (data : list json) (c : console) :
  json_load env input_file = Ok (JList data) →
  Forall is_dict (kept_items filter_personal data) →
  Forall well_formed data →
  dirname output_file ≠ "" →
  denied env (dirname output_file) = false →
  denied env output_file = false →
  ∃ text,
    disk (simplify_json env input_file output_file filter_personal c).2 !! output_file
    = Some (JsonText text)
    ∧ json_loads text
      = Some (JList (map JObj (map simplified_of (kept_items filter_personal data)))).
Proof.
  intros Hin Hdicts Hwf Hdir Hmk Hopen.
  destruct (simplify_items_result filter_personal data c Hdicts) as [lines Hloop].
  eexists. split.
  - unfold simplify_json, try_except.
    erewrite script_bind_returns by (unfold of_result; rewrite Hin; reflexivity).
    cbv beta iota. erewrite script_bind_returns by exact Hloop. cbv beta iota.
    erewrite script_bind_returns
      by (unfold os_makedirs; rewrite bool_decide_eq_false_2, Hmk by done; reflexivity).
    erewrite script_bind_returns by (unfold open_write; rewrite Hopen; reflexivity).
    erewrite script_bind_returns by reflexivity.
    destruct filter_personal; cbn [fst snd disk]; apply lookup_insert_eq.
  - apply json_loads_encode, well_formed_data, Forall_fmap, Forall_forall.
    intros item Hitem. apply simplified_of_well_formed.
    rewrite Forall_forall in Hwf. by eapply Hwf, kept_items_subset.
Qed.

Lemma simplified_file_reads_back_witness :
  ∃ text,
    disk (simplify_json sample_env "in.json" "out/simplified.json" true empty_console).2
      !! "out/simplified.json" = Some (JsonText text)
    ∧ json_loads text
      = Some (JList [JObj [("name", JStr "A"); ("system_prompt", JStr "");
                           ("description", JStr "")]]).
Proof.
  assert (Hdicts : Forall is_dict
            (kept_items true [JObj [("name", JStr "A"); ("id", JStr "a1")];
                              JObj [("name", JStr "Daniel")]])).
  { vm_compute. repeat constructor. by eexists. }
  assert (Hwf : Forall well_formed [JObj [("name", JStr "A"); ("id", JStr "a1")];
                                    JObj [("name", JStr "Daniel")]]).
  { repeat constructor; apply (bool_decide_unpack _); vm_compute; exact I. }
  exact (simplified_file_reads_back sample_env "in.json" "out/simplified.json" true _
           empty_console eq_refl Hdicts Hwf ltac:(by vm_compute) eq_refl eq_refl).
Defined.

(** *** [convert_json_to_csv] *)

Lemma dirname_bare p : Py.contains "/" p = false → dirname p = "".
Proof.
  intros Hp. assert (rfind_sep p = None) as Hnone.
  { induction p as [ | c p IH ]; [reflexivity | ].
    cbn [Py.contains String.prefix] in Hp. apply orb_false_iff in Hp as [Hc Hp].
    cbn [rfind_sep]. rewrite (IH Hp).
    destruct (Ascii.eqb_spec c "/") as [-> | _]; [ | reflexivity].
    destruct (ascii_dec "/" "/"); [ | done]. by rewrite prefix_empty in Hc. }
  unfold dirname. rewrite Hnone. by destruct p.
Qed.

Lemma writerow_appends output_file row rows c :
  disk c !! output_file = Some (CsvRows rows) →
  writerow output_file row c
  = (Ok (), Console (<[output_file := CsvRows (rows ++ [row])]> (disk c))
              (folders c) (stdout c)).
Proof.
  intros Hfile. unfold writerow. do 2 f_equal.
  rewrite <- (insert_id (disk c) output_file _ Hfile) at 1.
  rewrite alter_insert_eq. reflexivity.
Qed.

Lemma write_model_rows_from output_file good rest : ∀ i rows c,
  disk c !! output_file = Some (CsvRows rows) →
  Forall is_dict good →
  match rest with [] => True | bad :: _ => ¬ is_dict bad end →
  for_each (write_model_row output_file) i (good ++ rest) () c
  = (match rest with [] => Ok () | _ => Raise AttributeError end,
     Console (<[output_file := CsvRows (rows ++ map row_of good)]> (disk c))
       (folders c) (stdout c)).
Proof.
  intros i rows c Hfile Hgood Hrest. revert i rows c Hfile.
  induction Hgood as [ | model good Hmodel _ IH ]; intros i rows c Hfile.
  - cbn [app map]. rewrite app_nil_r, insert_id by done.
    destruct rest as [ | bad rest ]; [by destruct c | ].
    cbn [for_each]. destruct (scripts_extract_like_the_window_not_dict bad Hrest) as (_ & Hrow & _).
    erewrite script_bind_raises
      by (unfold write_model_row; erewrite script_bind_raises;
          [reflexivity | unfold of_result; rewrite Hrow; reflexivity]).
    by destruct c.
  - cbn [app for_each map].
    destruct (scripts_extract_like_the_window_dict model Hmodel) as [_ Hrow].
    erewrite script_bind_returns
      by (unfold write_model_row; erewrite script_bind_returns;
          [by apply writerow_appends | unfold of_result; rewrite Hrow; reflexivity]).
    rewrite (IH (S i) (rows ++ [row_of model])) by (cbn [disk]; apply lookup_insert_eq).
    cbn [disk folders stdout]. by rewrite insert_insert_eq, <- app_assoc.
Qed.

Lemma convert_json_to_csv_rows (env : os_env) (input_file output_file : string)
    (good rest : list json) (c : console) :
  json_load env input_file = Ok (JList (good ++ rest)) →
  Forall is_dict good →
  match rest with [] => True | bad :: _ => ¬ is_dict bad end →
  dirname output_file ≠ "" →
  denied env (dirname output_file) = false →
  denied env output_file = false →
  convert_json_to_csv env input_file output_file c
  = (Ok (match rest with [] => true | _ => false end),
     Console (<[output_file := CsvRows (script_header :: map row_of good)]> (disk c))
       ({[dirname output_file]} ∪ folders c)
       (stdout c ++ [match rest with
                     | [] => Converted input_file output_file
                     | _ => ErrorLine AttributeError
                     end])).
Proof.
  intros Hin Hgood Hrest Hdir Hmk Hopen. unfold convert_json_to_csv, try_except.
  erewrite script_bind_returns by (unfold of_result; rewrite Hin; reflexivity).
  cbv beta iota.
  erewrite script_bind_returns
    by (unfold os_makedirs; rewrite bool_decide_eq_false_2, Hmk by done; reflexivity).
  erewrite script_bind_returns by (unfold open_write; rewrite Hopen; reflexivity).
  erewrite script_bind_returns
    by (apply (writerow_appends _ _ []); cbn [disk]; apply lookup_insert_eq).
  unfold write_model_rows.
  pose proof (write_model_rows_from output_file good rest 0 [script_header]
                (Console (<[output_file := CsvRows ([] ++ [script_header])]>
                            (<[output_file := CsvRows []]> (disk c)))
                   ({[dirname output_file]} ∪ folders c) (stdout c))
                ltac:(cbn [disk]; apply lookup_insert_eq) Hgood Hrest) as Hloop.
  cbn [disk folders stdout] in Hloop. rewrite !insert_insert_eq in Hloop.
  cbn [disk folders stdout]. rewrite !insert_insert_eq.
  destruct rest as [ | bad rest ].
  - erewrite script_bind_returns by exact Hloop.
    erewrite script_bind_returns by reflexivity. reflexivity.
  - erewrite script_bind_raises by exact Hloop. reflexivity.
Qed.

(** X15: [convert_json_to_csv] writes the header and then one row per
    model for as long as the models are mappings.  When all are, it
    returns [True] and the file holds every row; at the first model that
    is not a mapping it stops, prints the error and returns [False], and
    the file is left with the header and the rows written before. *)
Theorem csv_rows_until_failure (env : os_env) (input_file output_file : string)
    (good rest : list json) (c : console) :
  json_load env input_file = Ok (JList (good ++ rest)) →
  Forall is_dict good →
  match rest with [] => True | bad :: _ => ¬ is_dict bad end →
  dirname output_file ≠ "" →
  denied env (dirname output_file) = false →
  denied env output_file = false →
  convert_json_to_csv env input_file output_file c
  = (Ok (match rest with [] => true | _ => false end),
     Console (<[output_file := CsvRows (script_header :: map row_of good)]> (disk c))
       ({[dirname output_file]} ∪ folders c)
       (stdout c ++ [match rest with
                     | [] => Converted input_file output_file
                     | _ => ErrorLine AttributeError
                     end])).
Proof. apply convert_json_to_csv_rows. Qed.

Lemma csv_rows_until_failure_witness :
  disk (convert_json_to_csv sample_env "in.json" "out/models.csv" empty_console).2
  = {[ "out/models.csv"
       := CsvRows [script_header; [JStr "A"; JStr ""; JStr ""];
                   [JStr "Daniel"; JStr ""; JStr ""]] ]}.
Proof.
  assert (Hgood : Forall is_dict [JObj [("name", JStr "A"); ("id", JStr "a1")];
                                  JObj [("name", JStr "Daniel")]]).
  { repeat constructor; by eexists. }
  pose proof (csv_rows_until_failure sample_env "in.json" "out/models.csv"
                [JObj [("name", JStr "A"); ("id", JStr "a1")];
                 JObj [("name", JStr "Daniel")]] []
                empty_console eq_refl Hgood I ltac:(by vm_compute) eq_refl eq_refl) as H.
  by rewrite H.
Defined.

(** X16: an output path without a directory part makes both scripts
    fail, whatever the input array holds: [os.path.dirname] gives the
    empty path, which [os.makedirs] cannot create.  They return [False],
    report the error, and write no file and create no directory. *)
Theorem bare_output_name_fails (env : os_env) (input_file output_file : string)
    (filter_personal : bool) (data : list json) (c : console) :
  json_load env input_file = Ok (JList data) →
  Py.contains "/" output_file = false →
  convert_json_to_csv env input_file output_file c
  = (Ok false, Console (disk c) (folders c) (stdout c ++ [ErrorLine (OSError "")]))
  ∧ ∃ lines e,
      simplify_json env input_file output_file filter_personal c
      = (Ok false, Console (disk c) (folders c) (stdout c ++ lines ++ [ErrorLine e]))
      ∧ (Forall is_dict (kept_items filter_personal data) → e = OSError "").
Proof.
  intros Hin Hbare. apply dirname_bare in Hbare. split.
  - unfold convert_json_to_csv, try_except.
    erewrite script_bind_returns by (unfold of_result; rewrite Hin; reflexivity).
    cbv beta iota. erewrite script_bind_raises by (rewrite Hbare; reflexivity).
    reflexivity.
  - unfold simplify_json, try_except.
    erewrite script_bind_returns by (unfold of_result; rewrite Hin; reflexivity).
    cbv beta iota.
    destruct (simplify_items_prints filter_personal data c) as (outcome & lines & Hloop).
    destruct outcome as [[simplified_data skipped] | e].
    + erewrite script_bind_returns by exact Hloop. cbv beta iota.
      erewrite script_bind_raises by (rewrite Hbare; reflexivity).
      exists lines, (OSError ""). split; [ | done].
      cbn. by rewrite ?app_assoc.
    + erewrite script_bind_raises by exact Hloop.
      exists lines, e. split; [cbn; by rewrite ?app_assoc | ].
      intros Hdicts. destruct (simplify_items_result filter_personal data c Hdicts) as [? H].
      rewrite H in Hloop. discriminate Hloop.
Qed.

Lemma bare_output_name_fails_witness :
  convert_json_to_csv sample_env "in.json" "models.csv" empty_console
  = (Ok false, Console ∅ ∅ [ErrorLine (OSError "")]).
Proof.
  exact (proj1 (bare_output_name_fails sample_env "in.json" "models.csv" true _
                  empty_console eq_refl eq_refl)).
Defined.

(** *** The script's table and the window's *)





(** *** [extract_model_data] *)

Lemma model_data_named model : has_name model → model_data model = Ok (extracted_model model).
Proof.
  intros [[d ->] [name Hname]]. unfold extracted_model. rewrite Hname.
  unfold resolved in *.
  change (Py.split "." "name") with ["name"] in *.
  change (Py.split "." "id") with ["id"].
  change (Py.split "." "info.params.system") with ["info"; "params"; "system"].
  change (Py.split "." "info.meta.description") with ["info"; "meta"; "description"].
  cbn [resolves model_data] in *. unfold dict_get_or.
  destruct (dict_get d "name") as [v | ]; [subst v | injection Hname as <-];
    cbn [py_strip]; destruct (dict_get d "id") as [id | ];
    (destruct (dict_get d "info") as [[ | | | | | info] | ]; [done .. | | done]);
    (destruct (dict_get info "params") as [[ | | | | | params] | ];
     destruct (dict_get info "meta") as [[ | | | | | meta] | ];
     cbn [dict_set String.eqb Ascii.eqb Bool.eqb];
     repeat match goal with
            | |- context [dict_get ?m ?k] => destruct (dict_get m k)
            end; done).
Qed.

Lemma model_data_raises model e : model_data model = Raise e → e = AttributeError.
Proof.
  destruct model as [ | | | | | d ]; try by intros [= <-].
  cbn [model_data]. destruct (py_strip _) as [name | e'] eqn:E.
  - destruct (dict_get d "info") as [[ | | | | | info] | ]; cbv beta zeta; discriminate.
  - intros [= <-]. revert E.
    destruct (dict_get_or d "name" (JStr "")); cbn [py_strip]; congruence.
Qed.

Lemma model_data_returns model model_data' :
  model_data model = Ok model_data' → has_name model.
Proof.
  destruct model as [ | | | | | d ]; try discriminate. intros H.
  split; [by eexists | ]. unfold resolved. change (Py.split "." "name") with ["name"].
  cbn [resolves model_data] in *. unfold dict_get_or in H.
  destruct (dict_get d "name") as [[ | | | name | | ] | ]; try discriminate H; by eexists.
Qed.

Lemma extract_loop_returns data : ∀ i models c,
  Forall has_name data →
  for_each extract_step i data models c = (Ok (models ++ map extracted_model data), c).
Proof.
  induction data as [ | model data IH ]; intros i models c Hdata.
  - cbn. by rewrite app_nil_r.
  - apply Forall_cons in Hdata as [Hmodel Hdata]. cbn [for_each map].
    erewrite script_bind_returns
      by (unfold extract_step, of_result; rewrite (model_data_named _ Hmodel); reflexivity).
    rewrite IH by done. by rewrite <- app_assoc.
Qed.

Lemma extract_loop_raises data : ∀ i models c,
  Exists (λ model, ¬ has_name model) data →
  for_each extract_step i data models c = (Raise AttributeError, c).
Proof.
  induction data as [ | model data IH ]; intros i models c Hdata;
    [by apply Exists_nil in Hdata | ].
  cbn [for_each]. destruct (model_data model) as [model_data' | e] eqn:E.
  - erewrite script_bind_returns
      by (unfold extract_step, of_result; rewrite E; reflexivity).
    apply IH. apply Exists_cons in Hdata as [Hbad | Hlater]; [ | done].
    destruct Hbad. by eapply model_data_returns.
  - apply model_data_raises in E as Hattr. subst e.
    apply script_bind_raises. unfold extract_step, mbind, Script_bind, of_result.
    by rewrite E.
Qed.

(** X18: [extract_model_data] is all or nothing.  When every model of
    the array is a mapping whose name is a string, it returns one
    dictionary per model, in order, with the name stripped of surrounding
    white space, the description and the system prompt as the window's
    extraction resolves them, and the link made of the model's id; when a
    single model is not a mapping, or has a name that is not a string, it
    returns [None]: no model is extracted.  Either way it touches no
    file. *)
Theorem extract_model_data_all_or_nothing (env : os_env) (input_file : string)
    (data : list json) (c : console) :
  json_load env input_file = Ok (JList data) →
  (Forall has_name data →
     extract_model_data env input_file c
     = (Ok (Some (map extracted_model data)),
        Console (disk c) (folders c) (stdout c ++ [ExtractedModels (length data)])))
  ∧ (Exists (λ model, ¬ has_name model) data →
     extract_model_data env input_file c
     = (Ok None,
        Console (disk c) (folders c) (stdout c ++ [ErrorExtracting AttributeError]))).
Proof.
  intros Hin. unfold extract_model_data, try_except.
  erewrite script_bind_returns by (unfold of_result; rewrite Hin; reflexivity).
  cbv beta iota. split; intros Hdata.
  - erewrite script_bind_returns by by apply extract_loop_returns.
    cbn. by rewrite length_map.
  - erewrite script_bind_raises by by apply extract_loop_raises.
    reflexivity.
Qed.

Lemma extract_model_data_all_or_nothing_witness :
  (extract_model_data sample_env "in.json" empty_console).1
  = Ok (Some [[("name", JStr "A"); ("description", JStr ""); ("system_prompt", JStr "");
               ("link", JStr "openwebui://model/a1")];
              [("name", JStr "Daniel"); ("description", JStr ""); ("system_prompt", JStr "");
               ("link", JStr "openwebui://model/")]]).
Proof.
  assert (Hnames : Forall has_name [JObj [("name", JStr "A"); ("id", JStr "a1")];
                                    JObj [("name", JStr "Daniel")]]).
  { repeat constructor; by eexists. }
  destruct (extract_model_data_all_or_nothing sample_env "in.json" _ empty_console eq_refl)
    as [Hall _].
  by rewrite (Hall Hnames).
Defined.

(** *** The writers of [model_extractor.py] *)

Lemma write_text_appends output_file text before c :
  disk c !! output_file = Some (PlainText before) →
  write_text output_file text c
  = (Ok (), Console (<[output_file := PlainText (before +:+ text)]> (disk c))
              (folders c) (stdout c)).
Proof.
  intros Hfile. unfold write_text. do 2 f_equal.
  rewrite <- (insert_id (disk c) output_file _ Hfile) at 1.
  rewrite alter_insert_eq. reflexivity.
Qed.

Lemma for_each_sections {A} (body : nat → A → unit → Script unit) output_file
    (section : A → string) (good : A → Prop) (l : list A) :
  (∀ i x before c, good x → disk c !! output_file = Some (PlainText before) →
     body i x () c
     = (Ok (), Console (<[output_file := PlainText (before +:+ section x)]> (disk c))
                 (folders c) (stdout c))) →
  Forall good l →
  ∀ i before c, disk c !! output_file = Some (PlainText before) →
    for_each body i l () c
    = (Ok (), Console (<[output_file := PlainText (before +:+ sections section l)]> (disk c))
                (folders c) (stdout c)).
Proof.
  intros Hbody. induction 1 as [ | x l Hx _ IH ]; intros i before c Hfile.
  - cbn. rewrite append_empty_r, insert_id by done. by destruct c.
  - cbn [for_each sections foldr]. erewrite script_bind_returns by by apply Hbody.
    rewrite (IH (S i) (before +:+ section x)) by (cbn [disk]; apply lookup_insert_eq).
    cbn [disk folders stdout]. by rewrite insert_insert_eq, append_assoc.
Qed.

Lemma for_each_rows {A} (body : nat → A → unit → Script unit) output_file
    (row : A → list json) (good : A → Prop) (l : list A) :
  (∀ i x rows c, good x → disk c !! output_file = Some (CsvRows rows) →
     body i x () c
     = (Ok (), Console (<[output_file := CsvRows (rows ++ [row x])]> (disk c))
                 (folders c) (stdout c))) →
  Forall good l →
  ∀ i rows c, disk c !! output_file = Some (CsvRows rows) →
    for_each body i l () c
    = (Ok (), Console (<[output_file := CsvRows (rows ++ map row l)]> (disk c))
                (folders c) (stdout c)).
Proof.
  intros Hbody. induction 1 as [ | x l Hx _ IH ]; intros i rows c Hfile.
  - cbn. rewrite app_nil_r, insert_id by done. by destruct c.
  - cbn [for_each map]. erewrite script_bind_returns by by apply Hbody.
    rewrite (IH (S i) (rows ++ [row x])) by (cbn [disk]; apply lookup_insert_eq).
    cbn [disk folders stdout]. by rewrite insert_insert_eq, <- app_assoc.
Qed.

Lemma save_csv_row_complete output_file i model rows c :
  complete_model model → disk c !! output_file = Some (CsvRows rows) →
  save_csv_row output_file i model () c
  = (Ok (), Console (<[output_file := CsvRows (rows ++ [models_row model])]> (disk c))
              (folders c) (stdout c)).
Proof.
  intros (name & description & system_prompt & link & Hn & Hd & Hs & Hl) Hfile.
  unfold save_csv_row, subscript, models_row, dict_get_or. cbn [map].
  rewrite Hn, Hd, Hs, Hl. unfold mbind, Script_bind, of_result.
  by apply writerow_appends.
Qed.

Lemma save_markdown_section_complete output_file i model before c :
  complete_model model → disk c !! output_file = Some (PlainText before) →
  save_markdown_section output_file i model () c
  = (Ok (), Console (<[output_file := PlainText (before +:+ markdown_section model)]> (disk c))
              (folders c) (stdout c)).
Proof.
  intros (name & description & system_prompt & link & Hn & Hd & Hs & Hl) Hfile.
  unfold save_markdown_section, subscript, markdown_section, dict_get_or.
  rewrite Hn, Hd, Hl.
  erewrite script_bind_returns by reflexivity.
  erewrite script_bind_returns by by apply write_text_appends.
  erewrite script_bind_returns by reflexivity.
  destruct (py_bool description).
  - erewrite script_bind_returns
      by (erewrite script_bind_returns by reflexivity;
          apply write_text_appends; cbn [disk]; apply lookup_insert_eq).
    erewrite script_bind_returns by reflexivity.
    erewrite script_bind_returns by reflexivity.
    erewrite script_bind_returns
      by (apply write_text_appends; cbn [disk]; apply lookup_insert_eq).
    rewrite write_text_appends with (before := _) by (cbn [disk]; apply lookup_insert_eq).
    cbn [disk folders stdout]. rewrite !insert_insert_eq, !append_assoc. reflexivity.
  - erewrite script_bind_returns by reflexivity.
    erewrite script_bind_returns by reflexivity.
    erewrite script_bind_returns by reflexivity.
    erewrite script_bind_returns
      by (apply write_text_appends; cbn [disk]; apply lookup_insert_eq).
    rewrite write_text_appends with (before := _) by (cbn [disk]; apply lookup_insert_eq).
    cbn [disk folders stdout]. rewrite !insert_insert_eq, !append_assoc. reflexivity.
Qed.

Lemma save_txt_section_complete output_file i model before c :
  complete_model model → disk c !! output_file = Some (PlainText before) →
  save_txt_section output_file i model () c
  = (Ok (), Console (<[output_file := PlainText (before +:+ txt_section model)]> (disk c))
              (folders c) (stdout c)).
Proof.
  intros (name & description & system_prompt & link & Hn & Hd & Hs & Hl) Hfile.
  unfold save_txt_section, subscript, txt_section, dict_get_or.
  rewrite Hn, Hd, Hl. cbn [py_str py_len].
  erewrite script_bind_returns by reflexivity.
  erewrite script_bind_returns by by apply write_text_appends.
  erewrite script_bind_returns by reflexivity.
  erewrite script_bind_returns by reflexivity.
  erewrite script_bind_returns
    by (apply write_text_appends; cbn [disk]; apply lookup_insert_eq).
  erewrite script_bind_returns by reflexivity.
  destruct (py_bool description).
  - erewrite script_bind_returns
      by (erewrite script_bind_returns by reflexivity;
          apply write_text_appends; cbn [disk]; apply lookup_insert_eq).
    erewrite script_bind_returns by reflexivity.
    erewrite script_bind_returns
      by (apply write_text_appends; cbn [disk]; apply lookup_insert_eq).
    rewrite write_text_appends with (before := _) by (cbn [disk]; apply lookup_insert_eq).
    cbn [disk folders stdout]. rewrite !insert_insert_eq, !append_assoc. reflexivity.
  - erewrite script_bind_returns by reflexivity.
    erewrite script_bind_returns by reflexivity.
    erewrite script_bind_returns
      by (apply write_text_appends; cbn [disk]; apply lookup_insert_eq).
    rewrite write_text_appends with (before := _) by (cbn [disk]; apply lookup_insert_eq).
    cbn [disk folders stdout]. rewrite !insert_insert_eq, !append_assoc. reflexivity.
Qed.

Lemma save_as_csv_outcome env models output_file c :
  Forall complete_model models →
  save_as_csv env models output_file c
  = save_outcome env "CSV" output_file (CsvRows (models_header :: map models_row models)) c.
Proof.
  intros Hmodels. unfold save_as_csv, save_outcome, try_except.
  destruct (denied env output_file) eqn:Hopen.
  - erewrite script_bind_raises by (unfold open_write; rewrite Hopen; reflexivity).
    reflexivity.
  - erewrite script_bind_returns by (unfold open_write; rewrite Hopen; reflexivity).
    erewrite script_bind_returns
      by (apply (writerow_appends _ _ []); cbn [disk]; apply lookup_insert_eq).
    erewrite script_bind_returns
      by (eapply (for_each_rows _ output_file models_row complete_model);
          [ intros; by apply save_csv_row_complete | done
          | cbn [disk]; apply lookup_insert_eq ]).
    erewrite script_bind_returns by reflexivity.
    cbn [disk folders stdout mret Script_ret]. by rewrite !insert_insert_eq.
Qed.

Lemma save_as_simplified_json_outcome env models output_file c :
  save_as_simplified_json env models output_file c
  = save_outcome env "simplified JSON" output_file (JsonText (json_dumps models)) c.
Proof.
  unfold save_as_simplified_json, save_outcome, try_except.
  destruct (denied env output_file) eqn:Hopen.
  - erewrite script_bind_raises by (unfold open_write; rewrite Hopen; reflexivity).
    reflexivity.
  - erewrite script_bind_returns by (unfold open_write; rewrite Hopen; reflexivity).
    erewrite script_bind_returns by reflexivity. reflexivity.
Qed.

Lemma save_as_markdown_outcome env models output_file c :
  Forall complete_model models →
  save_as_markdown env models output_file c
  = save_outcome env "Markdown" output_file
      (PlainText (("# OpenWebUI Models" +:+ nl +:+ nl) +:+ sections markdown_section models)) c.
Proof.
  intros Hmodels. unfold save_as_markdown, save_outcome, try_except.
  destruct (denied env output_file) eqn:Hopen.
  - erewrite script_bind_raises by (unfold open_write; rewrite Hopen; reflexivity).
    reflexivity.
  - erewrite script_bind_returns by (unfold open_write; rewrite Hopen; reflexivity).
    erewrite script_bind_returns
      by (apply (write_text_appends _ _ ""); cbn [disk]; apply lookup_insert_eq).
    erewrite script_bind_returns
      by (eapply (for_each_sections _ output_file markdown_section complete_model);
          [ intros; by apply save_markdown_section_complete | done
          | cbn [disk]; apply lookup_insert_eq ]).
    erewrite script_bind_returns by reflexivity.
    cbn [disk folders stdout mret Script_ret]. by rewrite !insert_insert_eq.
Qed.

Lemma save_as_txt_outcome env models output_file c :
  Forall complete_model models →
  save_as_txt env models output_file c
  = save_outcome env "text file" output_file
      (PlainText (("OPENWEBUI MODELS" +:+ nl +:+ nl) +:+ sections txt_section models)) c.
Proof.
  intros Hmodels. unfold save_as_txt, save_outcome, try_except.
  destruct (denied env output_file) eqn:Hopen.
  - erewrite script_bind_raises by (unfold open_write; rewrite Hopen; reflexivity).
    reflexivity.
  - erewrite script_bind_returns by (unfold open_write; rewrite Hopen; reflexivity).
    erewrite script_bind_returns
      by (apply (write_text_appends _ _ ""); cbn [disk]; apply lookup_insert_eq).
    erewrite script_bind_returns
      by (eapply (for_each_sections _ output_file txt_section complete_model);
          [ intros; by apply save_txt_section_complete | done
          | cbn [disk]; apply lookup_insert_eq ]).
    erewrite script_bind_returns by reflexivity.
    cbn [disk folders stdout mret Script_ret]. by rewrite !insert_insert_eq.
Qed.

(** X19: given dictionaries with the four keys and a string for a name,
    each of the four writers of [model_extractor.py] returns without an
    exception: when its file can be opened it writes the whole file --
    the header and one row per model, the models as JSON, or the heading
    and one section per model -- and returns [True]; when it cannot, it
    reports the error, returns [False] and touches no file. *)
Theorem writers_write_all_or_nothing (env : os_env) (models : list dict)
    (output_file : string) (c : console) :
  Forall complete_model models →
  save_as_csv env models output_file c
  = save_outcome env "CSV" output_file (CsvRows (models_header :: map models_row models)) c
  ∧ save_as_simplified_json env models output_file c
    = save_outcome env "simplified JSON" output_file (JsonText (json_dumps models)) c
  ∧ save_as_markdown env models output_file c
    = save_outcome env "Markdown" output_file
        (PlainText (("# OpenWebUI Models" +:+ nl +:+ nl)
                    +:+ sections markdown_section models)) c
  ∧ save_as_txt env models output_file c
    = save_outcome env "text file" output_file
        (PlainText (("OPENWEBUI MODELS" +:+ nl +:+ nl) +:+ sections txt_section models)) c.
Proof.
  intros Hmodels.
  split; [by apply save_as_csv_outcome | ].
  split; [apply save_as_simplified_json_outcome | ].
  split; [by apply save_as_markdown_outcome | by apply save_as_txt_outcome].
Qed.

Lemma writers_write_all_or_nothing_witness :
  save_as_txt sample_env sample_models "out/models.txt" empty_console
  = (Ok true,
     Console {[ "out/models.txt"
                := PlainText (("OPENWEBUI MODELS" +:+ nl +:+ nl)
                              +:+ sections txt_section sample_models) ]}
       ∅ [SavedAs "text file" "out/models.txt"]).
Proof.
  assert (Hmodels : Forall complete_model sample_models).
  { repeat constructor. by eexists _, _, _, _. }
  destruct (writers_write_all_or_nothing sample_env sample_models "out/models.txt"
              empty_console Hmodels) as (_ & _ & _ & Htxt).
  by rewrite Htxt.
Defined.

(** *** [main] of [model_extractor.py] *)

Lemma path_join2_nonempty path b : path ≠ "" → path_join2 path b ≠ "".
Proof.
  intros Hpath. unfold path_join2.
  destruct b as [ | c b ]; cbn [String.prefix].
  - rewrite bool_decide_eq_false_2 by done.
    destruct (ends_with_sep path); destruct path; try done.
  - destruct (ascii_dec "/" c) as [ | _ ].
    + rewrite prefix_empty. done.
    + rewrite bool_decide_eq_false_2 by done.
      destruct (ends_with_sep path); destruct path; try done.
Qed.

Lemma output_dir_nonempty base_dir timestamp :
  path_join base_dir ["outputs"; timestamp] ≠ "".
Proof.
  cbn [path_join fold_left]. apply path_join2_nonempty.
  unfold path_join2. cbn [String.prefix]. destruct (ascii_dec "/" "o"); [done | ].
  destruct (bool_decide (base_dir = "") || ends_with_sep base_dir);
    destruct base_dir; done.
Qed.

Lemma extracted_model_complete model : has_name model → complete_model (extracted_model model).
Proof.
  intros [_ [name Hname]]. unfold extracted_model. rewrite Hname.
  by eexists _, _, _, _.
Qed.

Lemma extract_model_data_named env input_file data c :
  json_load env input_file = Ok (JList data) →
  Forall has_name data →
  extract_model_data env input_file c
  = (Ok (Some (map extracted_model data)),
     Console (disk c) (folders c) (stdout c ++ [ExtractedModels (length data)])).
Proof.
  intros Hin Hdata. unfold extract_model_data, try_except.
  erewrite script_bind_returns by (unfold of_result; rewrite Hin; reflexivity).
  cbv beta iota. erewrite script_bind_returns by by apply extract_loop_returns.
  cbn. by rewrite length_map.
Qed.

Lemma save_outcome_pair env kind output_file held c :
  save_outcome env kind output_file held c
  = (Ok (negb (denied env output_file)), (save_outcome env kind output_file held c).2).
Proof. unfold save_outcome. by destruct (denied env output_file). Qed.

(** X20: [main] of [model_extractor.py], when the input file is there
    and holds an array of models it can take, and the output directory
    can be created.  For an empty array it reports zero models extracted
    and exits with status 1, leaving the new directory empty.  Otherwise
    it runs the four writers one after the other, each whether or not the
    one before succeeded, and exits with status 0 exactly when all four
    files could be opened. *)
Theorem extractor_main_runs_every_writer (env : os_env) (base_dir timestamp : string)
    (data : list json) (c : console) :
  let input_file := path_join base_dir ["input"; "input.json"] in
  let output_dir := path_join base_dir ["outputs"; timestamp] in
  isfile env input_file = true →
  denied env output_dir = false →
  json_load env input_file = Ok (JList data) →
  Forall has_name data →
  let models := map extracted_model data in
  let c0 :=
    Console (disk c) ({[output_dir]} ∪ folders c)
      (stdout c ++ [CreatedOutputDirectory output_dir; ExtractedModels (length data)]) in
  let s1 :=
    save_outcome env "CSV" (path_join output_dir ["models.csv"])
      (CsvRows (models_header :: map models_row models)) c0 in
  let s2 :=
    save_outcome env "simplified JSON" (path_join output_dir ["models.json"])
      (JsonText (json_dumps models)) s1.2 in
  let s3 :=
    save_outcome env "Markdown" (path_join output_dir ["models.md"])
      (PlainText (("# OpenWebUI Models" +:+ nl +:+ nl) +:+ sections markdown_section models))
      s2.2 in
  let s4 :=
    save_outcome env "text file" (path_join output_dir ["models.txt"])
      (PlainText (("OPENWEBUI MODELS" +:+ nl +:+ nl) +:+ sections txt_section models))
      s3.2 in
  let success :=
    negb (denied env (path_join output_dir ["models.csv"]))
    && negb (denied env (path_join output_dir ["models.json"]))
    && negb (denied env (path_join output_dir ["models.md"]))
    && negb (denied env (path_join output_dir ["models.txt"])) in
  (data = [] → model_extractor_main env base_dir timestamp c = (Ok 1, c0))
  ∧ (data ≠ [] →
     model_extractor_main env base_dir timestamp c
     = (Ok (if success then 0 else 1),
        Console (disk s4.2) (folders s4.2)
          (stdout s4.2 ++ [if success then AllSaved output_dir else CompletedWithErrors]))).
Proof.
  intros input_file output_dir Hfile Hdir Hin Hdata models c0 s1 s2 s3 s4 success.
  assert (Hmodels : Forall complete_model models).
  { apply Forall_fmap. eapply Forall_impl; [exact Hdata | ].
    intros model. apply extracted_model_complete. }
  unfold model_extractor_main. fold input_file. rewrite Hfile. cbn [negb].
  erewrite script_bind_returns
    by (unfold create_output_directory; fold output_dir;
        erewrite script_bind_returns
          by (unfold os_makedirs;
              rewrite bool_decide_eq_false_2, Hdir by apply output_dir_nonempty;
              reflexivity);
        erewrite script_bind_returns by reflexivity; reflexivity).
  erewrite script_bind_returns by by apply extract_model_data_named.
  cbn [disk folders stdout]. rewrite <- app_assoc. cbn [app]. fold c0.
  destruct data as [ | model0 data' ]; (split; [ | intros Hne ]); try done.
  cbn [map]. cbv beta iota.
  change (extracted_model model0 :: map extracted_model data') with models.
  unfold mbind, Script_bind.
  rewrite save_as_csv_outcome by done. fold s1.
  rewrite (save_outcome_pair env "CSV" _ _ c0 : s1 = _). cbn [snd].
  rewrite save_as_simplified_json_outcome.
  change (save_outcome env "simplified JSON" _ _ _) with s2.
  rewrite (save_outcome_pair env "simplified JSON" _ _ s1.2 : s2 = _). cbn [snd].
  rewrite save_as_markdown_outcome by done.
  change (save_outcome env "Markdown" _ _ _) with s3.
  rewrite (save_outcome_pair env "Markdown" _ _ s2.2 : s3 = _). cbn [snd].
  rewrite save_as_txt_outcome by done.
  change (save_outcome env "text file" _ _ _) with s4.
  rewrite (save_outcome_pair env "text file" _ _ s3.2 : s4 = _). cbn [snd andb].
  fold success. by destruct success.
Qed.

Lemma extractor_main_runs_every_writer_witness :
  (model_extractor_main sample_env "repo" "010126_1200" empty_console).1 = Ok 0.
Proof.
  assert (Hnames : Forall has_name [JObj [("name", JStr "A"); ("id", JStr "a1")];
                                    JObj [("name", JStr "Daniel")]]).
  { repeat constructor; by eexists. }
  destruct (extractor_main_runs_every_writer sample_env "repo" "010126_1200" _
              empty_console eq_refl eq_refl eq_refl Hnames) as [_ Hmain].
  by rewrite Hmain.
Defined.

(** *** [main] of [json_to_csv.py] *)

Lemma contains_sep_head c s : Py.contains "/" (String c s) = Ascii.eqb c "/" || Py.contains "/" s.
Proof.
  cbn [Py.contains String.prefix]. destruct (ascii_dec "/" c) as [<- | Hne].
  - by rewrite prefix_empty.
  - apply not_eq_sym, Ascii.eqb_neq in Hne. by rewrite Hne.
Qed.

Lemma contains_sep_append a b :
  Py.contains "/" (a +:+ b) = Py.contains "/" a || Py.contains "/" b.
Proof.
  induction a as [ | c a IH ]; [reflexivity | ].
  rewrite append_cons, !contains_sep_head, IH. by rewrite orb_assoc.
Qed.

Lemma get_sep_contains s : ∀ n, String.get n s = Some "/"%char → Py.contains "/" s = true.
Proof.
  induction s as [ | c s IH ]; intros n; [discriminate | ].
  rewrite contains_sep_head. destruct n as [ | n ]; cbn [String.get].
  - by intros [= ->].
  - intros H. rewrite (IH n H). apply orb_true_r.
Qed.

Lemma ends_with_sep_contains s : ends_with_sep s = true → Py.contains "/" s = true.
Proof.
  unfold ends_with_sep. destruct (String.get _ s) as [c | ] eqn:E; [ | discriminate].
  intros ->%Ascii.eqb_eq. by eapply get_sep_contains.
Qed.

Lemma path_join2_contains_sep path b :
  path ≠ "" → Py.contains "/" (path_join2 path b) = true.
Proof.
  intros Hpath. unfold path_join2. destruct (String.prefix "/" b) eqn:Eb.
  - destruct b as [ | c b ]; [discriminate | ]. rewrite contains_sep_head.
    cbn [String.prefix] in Eb. destruct (ascii_dec "/" c) as [<- | ]; [done | discriminate].
  - rewrite bool_decide_eq_false_2 by done. cbn [orb].
    destruct (ends_with_sep path) eqn:Ee; rewrite !contains_sep_append.
    + by rewrite ends_with_sep_contains.
    + cbn. apply orb_true_r.
Qed.

Lemma rstrip_sep_empty s : rstrip_sep s = "" → all_sep s = true.
Proof.
  induction s as [ | c s IH ]; [done | ]. cbn [rstrip_sep all_sep].
  destruct (rstrip_sep s); [ | discriminate].
  destruct (Ascii.eqb c "/"); [intros _; by apply IH | discriminate].
Qed.

Lemma rfind_sep_contains p : Py.contains "/" p = true → ∃ i, rfind_sep p = Some i.
Proof.
  induction p as [ | c p IH ]; [discriminate | ]. rewrite contains_sep_head.
  cbn [rfind_sep]. destruct (rfind_sep p); [by eexists | ].
  destruct (Ascii.eqb c "/"); [by eexists | ]. cbn [orb]. intros H.
  by destruct (IH H).
Qed.

Lemma dirname_nonempty p : Py.contains "/" p = true → dirname p ≠ "".
Proof.
  intros Hp. destruct (rfind_sep_contains p Hp) as [i Hi]. unfold dirname. rewrite Hi.
  destruct p as [ | c p ]; [discriminate | ].
  rewrite Nat.add_1_r. cbn [String.substring].
  rewrite bool_decide_eq_false_2 by done. cbn [negb andb].
  destruct (all_sep _) eqn:Eall; cbn [negb]; [done | ].
  intros Hempty. apply rstrip_sep_empty in Hempty. congruence.
Qed.

(** X21: [main] of [json_to_csv.py].  Without the input file it prints
    where to put it and exits with status 1, touching nothing.  With an
    input array of mappings and nothing refused, it writes the table
    under [workspace/output], whose directory it creates -- the path it
    builds always has a directory part -- and exits with status 0. *)
Theorem json_to_csv_main_status (env : os_env) (workspace_dir timestamp : string)
    (data : list json) (c : console) :
  let input_file := path_join workspace_dir ["workspace"; "input"; "input.json"] in
  let output_file :=
    path_join workspace_dir ["workspace"; "output"; timestamp +:+ "_models.csv"] in
  dirname output_file ≠ ""
  ∧ (isfile env input_file = false →
     json_to_csv_main env workspace_dir timestamp c
     = (Ok 1, Console (disk c) (folders c)
                (stdout c ++ [InputNotFound input_file; PlaceInput])))
  ∧ (isfile env input_file = true →
     json_load env input_file = Ok (JList data) →
     Forall is_dict data →
     denied env (dirname output_file) = false →
     denied env output_file = false →
     json_to_csv_main env workspace_dir timestamp c
     = (Ok 0,
        Console (<[output_file := CsvRows (script_header :: map row_of data)]> (disk c))
          ({[dirname output_file]} ∪ folders c)
          (stdout c ++ [Converted input_file output_file; ConversionSaved output_file]))).
Proof.
  intros input_file output_file.
  assert (Hdir : dirname output_file ≠ "").
  { apply dirname_nonempty. subst output_file. cbn [path_join fold_left].
    apply path_join2_contains_sep, path_join2_nonempty.
    unfold path_join2. cbn [String.prefix]. destruct (ascii_dec "/" "w"); [done | ].
    destruct (bool_decide (workspace_dir = "") || ends_with_sep workspace_dir);
      destruct workspace_dir; done. }
  split; [exact Hdir | ]. unfold json_to_csv_main. fold input_file output_file. split.
  - intros ->. unfold mbind, Script_bind, print. cbn [negb disk folders stdout].
    by rewrite <- app_assoc.
  - intros -> Hin Hdata Hmk Hopen. cbn [negb].
    erewrite script_bind_returns
      by (apply (convert_json_to_csv_rows env input_file output_file data []); try done;
          by rewrite app_nil_r).
    unfold mbind, Script_bind, print. cbn [disk folders stdout]. by rewrite <- app_assoc.
Qed.

(** *** What the filter guarantees about the export *)

Lemma dict_get_leaves (d : dict) k v s :
  dict_get d k = Some v → s ∈ string_leaves v → s ∈ string_leaves (JObj d).
Proof.
  cbn [string_leaves]. induction d as [ | [k0 v0] d IH ]; [discriminate | ].
  cbn [dict_get map concat snd]. rewrite elem_of_app.
  destruct (String.eqb k0 k); [intros [= ->]; by left | right; by apply IH].
Qed.

Lemma resolves_leaves segments : ∀ value v s,
  resolves value segments = Some v → s ∈ string_leaves v → s ∈ string_leaves value.
Proof.
  induction segments as [ | seg rest IH ]; intros value v s; cbn [resolves].
  - by intros [= ->].
  - destruct value as [ | | | | | d ]; try discriminate.
    destruct (dict_get d seg) as [x | ] eqn:Ex; [ | discriminate].
    intros Hres Hs. eapply dict_get_leaves; [exact Ex | ]. by eapply IH.
Qed.

Lemma resolved_leaves item field s :
  s ∈ string_leaves (resolved item field) → s = "" ∨ s ∈ string_leaves item.
Proof.
  unfold resolved. destruct (resolves item (Py.split "." field)) as [v | ] eqn:E.
  - right. by eapply resolves_leaves.
  - cbn. intros ->%list_elem_of_singleton. by left.
Qed.

Lemma dict_values_leaves (d : dict) s :
  s ∈ string_leaves (JObj d) ↔ ∃ k v, (k, v) ∈ d ∧ s ∈ string_leaves v.
Proof.
  cbn [string_leaves]. rewrite list_elem_of_In, in_concat. split.
  - intros (l & Hl & Hs). apply in_map_iff in Hl as ([k v] & <- & Hkv).
    exists k, v. split; [by apply list_elem_of_In | by apply list_elem_of_In].
  - intros (k & v & Hkv & Hs). exists (string_leaves v). split.
    + apply in_map_iff. exists (k, v). split; [done | by apply list_elem_of_In].
    + by apply list_elem_of_In.
Qed.

Lemma dict_set_entries (d : dict) k v k' v' :
  (k', v') ∈ dict_set d k v → (k', v') = (k, v) ∨ (k', v') ∈ d.
Proof.
  induction d as [ | [k0 v0] d IH ]; cbn [dict_set].
  - intros ->%list_elem_of_singleton. by left.
  - destruct (String.eqb_spec k0 k) as [-> | _]; rewrite !elem_of_cons.
    + tauto.
    + intros [-> | H]; [tauto | ]. destruct (IH H); tauto.
Qed.

Lemma projected_entries selected_fields item k v :
  (k, v) ∈ projected selected_fields item → v = resolved item k.
Proof.
  unfold projected.
  enough (∀ acc, (k, v) ∈ fold_left (λ d f, dict_set d f (resolved item f))
                            selected_fields acc →
                 v = resolved item k ∨ (k, v) ∈ acc) as H.
  { intros Hkv. destruct (H [] Hkv) as [ | Hnil]; [done | by apply elem_of_nil in Hnil]. }
  induction selected_fields as [ | f fs IH ]; intros acc; cbn [fold_left]; [by right | ].
  intros Hkv. destruct (IH _ Hkv) as [ | Hset]; [by left | ].
  destruct (dict_set_entries _ _ _ _ _ Hset) as [[= -> ->] | ]; [by left | by right].
Qed.

Lemma substring_of_empty t : substring_of t "" → t = "".
Proof.
  intros (pre & post & H). destruct pre; [ | discriminate H]. by destruct t.
Qed.

Lemma projected_clean terms item selected_fields :
  Forall (λ t, t ≠ "") terms →
  contains_personal_info item terms = false →
  contains_personal_info (JObj (projected selected_fields item)) terms = false.
Proof.
  intros Hterms Hitem.
  destruct (contains_personal_info (JObj _) terms) eqn:E; [ | reflexivity].
  apply contains_personal_info_leaf_match in E as (s & t & Hs & Ht & Hsub).
  apply dict_values_leaves in Hs as (k & v & Hkv & Hs).
  apply projected_entries in Hkv as ->.
  apply resolved_leaves in Hs as [-> | Hs].
  - apply substring_of_empty in Hsub as ->.
    rewrite Forall_forall in Hterms. by destruct (Hterms "" Ht).
  - assert (contains_personal_info item terms = true) as Hyes; [ | congruence].
    apply contains_personal_info_leaf_match. by exists s, t.
Qed.

(** X22: with the filter on, nothing a run exports mentions a personal
    term: no value of any extracted record, at any depth, contains
    [Daniel], [Rosehill], [daniel] or [rosehill], whichever fields are
    selected.  The same holds for any list of non-empty terms and any
    record the predicate lets through. *)
Theorem export_has_no_personal_term (r : run) (l : list json) :
  filter_personal r = true →
  contains_personal_info
    (json_of_data (map (projected (selected r)) (survivors r l))) personal_terms = false
  ∧ Forall (λ extracted_item,
              contains_personal_info (JObj extracted_item) personal_terms = false)
      (map (projected (selected r)) (survivors r l))
  ∧ ∀ terms item selected_fields,
      Forall (λ t, t ≠ "") terms →
      contains_personal_info item terms = false →
      contains_personal_info (JObj (projected selected_fields item)) terms = false.
Proof.
  intros Hfilter.
  assert (Hterms : Forall (λ t : string, t ≠ "") personal_terms)
    by (repeat constructor; discriminate).
  assert (Hall : Forall (λ extracted_item,
                           contains_personal_info (JObj extracted_item) personal_terms = false)
                   (map (projected (selected r)) (survivors r l))).
  { apply Forall_fmap, Forall_forall. intros item Hitem. cbn beta. unfold compose.
    apply projected_clean; [exact Hterms | ].
    unfold survivors in Hitem. rewrite Hfilter in Hitem.
    apply list_elem_of_filter in Hitem as [Hclean _].
    by apply negb_true_iff in Hclean. }
  split; [ | split; [exact Hall | intros; by apply projected_clean] ].
  unfold json_of_data. cbn [contains_personal_info].
  induction Hall as [ | d ds Hd _ IH ]; [reflexivity | ].
  cbn [map]. by rewrite Hd.
Qed.

Lemma export_has_no_personal_term_witness :
  contains_personal_info
    (json_of_data
       (map (projected (selected run_on_one_record))
          (survivors run_on_one_record
             [JObj [("name", JStr "Daniel's model")]; JObj [("name", JStr "GPT 4")]])))
    personal_terms = false.
Proof.
  exact (proj1 (export_has_no_personal_term run_on_one_record _ eq_refl)).
Defined.

(** *** Runs that succeed *)








